(** * fire-risk: a shallow embedding of the training pipeline

    The development follows the Python sources module by module:

    - [Binary64]      the rounding of Python's floating-point numbers;
    - [Py]            the fragment of Python's run-time behaviour the sources
                      rely on (exceptions, [int()], list repetition, indexing);
    - [Paddle]        tensors and the element-wise operations of the numeric
                      library that the sources call;
    - [DataSplitMusk] [utils/data_split_musk.py];
    - [Metrics]       [utils/metrics.py];
    - [Model]         the segmentation head of [model.py];
    - [Dataloader]    [FireRiskDataset] of [utils/dataloader.py];
    - [Train]         [train_model] of [train.py].

    Conventions.  Python integers are [Z].  Floating-point scalars are
    rationals ([Q]); the one product that is truncated to an integer is
    rounded as the machine rounds it, the accumulated diagnostics are kept
    exact.  Tensor entries are real numbers ([R]), so that infinities and NaN
    are outside the model.  Functions that can raise return a [result].
    Library calls whose numerics the sources do not fix (the shuffle of
    [numpy.random], the element-wise loss of the numeric library, a
    convolution layer with fixed weights, the loss and the F1 score imported
    by the training driver) are [Section] variables.

    The definitions come first; the facts proved about them follow in the
    second half of the file. *)

From Stdlib Require Import ZArith QArith Qround Qpower Qabs Reals Psatz List
  Permutation.
From stdpp Require Import gmap strings pretty.
Import ListNotations.

Open Scope Z_scope.

(** ** Floating-point rounding

    Rounding to the nearest number with a 53-bit significand, ties to the
    even significand, as binary64 arithmetic does; the exponent range is not
    bounded. *)

Module Binary64.

Definition pow2 (k : Z) : Q := (2 ^ k)%Q.

(** The exponent of a positive number: [pow2 k <= x < pow2 (k + 1)]. *)
Definition ilog2 (x : Q) : Z :=
  let a := Z.log2 (Qnum x) - Z.log2 (Z.pos (Qden x)) in
  if Qle_bool (pow2 a) x then a else a - 1.

(** The nearest integer, ties to even. *)
Definition rne (x : Q) : Z :=
  let f := Qfloor x in
  match (x - inject_Z f ?= 1 # 2)%Q with
  | Lt => f
  | Gt => f + 1
  | Eq => if Z.even f then f else f + 1
  end.

Definition round_pos (x : Q) : Q :=
  let ulp := pow2 (ilog2 x - 52) in
  (inject_Z (rne (x / ulp)) * ulp)%Q.

Definition round (x : Q) : Q :=
  match (x ?= 0)%Q with
  | Eq => 0%Q
  | Gt => round_pos x
  | Lt => (- round_pos (- x))%Q
  end.

End Binary64.

(** ** Python base layer *)

Module Py.

(** The exceptions the modelled code can raise. *)
Inductive exn : Type :=
| ValueError
| IndexError
| KeyError (key : string)
| UnboundLocalError (name : string)
| ZeroDivisionError.

Inductive result (A : Type) : Type :=
| Ok (a : A)
| Raise (e : exn).
Arguments Ok {A} a.
Arguments Raise {A} e.

Definition bind {A B} (r : result A) (k : A -> result B) : result B :=
  match r with
  | Ok a => k a
  | Raise e => Raise e
  end.

(** A comprehension or a loop that appends: the first exception wins. *)
Fixpoint mapM {A B} (f : A -> result B) (l : list A) : result (list B) :=
  match l with
  | [] => Ok []
  | x :: l' =>
      bind (f x) (fun y => bind (mapM f l') (fun ys => Ok (y :: ys)))
  end.

(** [int(x)] on a number: truncation toward zero. *)
Definition int (x : Q) : Z := Z.quot (Qnum x) (Z.pos (Qden x)).

(** [[x] * n]: a non-positive count gives the empty list. *)
Definition list_repeat {A} (x : A) (n : Z) : list A := repeat x (Z.to_nat n).

(** [l[i]], with Python's negative indices. *)
Definition index {A} (l : list A) (i : Z) : result A :=
  let n := Z.of_nat (List.length l) in
  let j := if i <? 0 then i + n else i in
  if (0 <=? j) && (j <? n) then
    match nth_error l (Z.to_nat j) with
    | Some x => Ok x
    | None => Raise IndexError
    end
  else Raise IndexError.

(** [range(a, b)] *)
Definition range (a b : Z) : list Z :=
  map (fun k => a + Z.of_nat k) (seq 0 (Z.to_nat (b - a))).

(** [float(n)] *)
Definition float (n : Z) : Q := Binary64.round (inject_Z n).

(** [n * x] and [x * n] for an integer [n] and a float [x]: the integer is
    converted to a float and the product is rounded. *)
Definition mul_int_float (n : Z) (x : Q) : Q :=
  Binary64.round (float n * x)%Q.

Definition mul_float_int (x : Q) (n : Z) : Q :=
  Binary64.round (x * float n)%Q.

(** [x / n] with a float numerator and an integer denominator. *)
Definition truediv (x : Q) (n : Z) : result Q :=
  if n =? 0 then Raise ZeroDivisionError else Ok (x / inject_Z n)%Q.

End Py.
Import Py.

Declare Scope result_scope.
Delimit Scope result_scope with res.
Notation "x <- c1 ;; c2" := (Py.bind c1 (fun x => c2))
  (at level 100, c1 at next level, right associativity) : result_scope.

(** ** The numeric library: tensors *)

Module Paddle.

(** A tensor is its shape and its entries in row-major order. *)
Record tensor (A : Type) : Type := Tensor { shape : list nat; data : list A }.
Arguments Tensor {A} shape data.
Arguments shape {A} t.
Arguments data {A} t.

Definition numel (s : list nat) : nat := fold_right Nat.mul 1%nat s.

(** The entries fill the shape. *)
Definition wf {A} (t : tensor A) : Prop := List.length (data t) = numel (shape t).

(** Element-wise unary operations, casts included. *)
Definition tmap {A B} (f : A -> B) (t : tensor A) : tensor B :=
  Tensor (shape t) (map f (data t)).

(** Element-wise binary operations on tensors of one shape.  Broadcasting
    between different shapes is not modelled: such a call is reported as the
    [ValueError] the library raises for shapes that cannot be combined. *)
Definition tzip {A B C} (f : A -> B -> C) (a : tensor A) (b : tensor B)
  : result (tensor C) :=
  if decide (shape a = shape b)
  then Ok (Tensor (shape a) (zip_with f (data a) (data b)))
  else Raise ValueError.

(** [t.squeeze(1)]: axis 1 is dropped when its extent is 1; otherwise the
    tensor is returned unchanged. *)
Definition squeeze1 {A} (t : tensor A) : tensor A :=
  match shape t with
  | n :: 1%nat :: rest => Tensor (n :: rest) (data t)
  | _ => t
  end.

Definition scalar (x : R) : tensor R := Tensor [] [x].

Definition sum (t : tensor R) : R := fold_right Rplus 0%R (data t).

Definition mean (t : tensor R) : R := (sum t / INR (List.length (data t)))%R.

(** [F.sigmoid] *)
Definition sigmoid (x : R) : R := (/ (1 + exp (- x)))%R.

(** [p > threshold] at one entry. *)
Definition gt_threshold (threshold : R) (p : R) : bool :=
  if Rlt_dec threshold p then true else false.

(** The cast of a boolean entry to a floating-point one. *)
Definition b2r (b : bool) : R := if b then 1%R else 0%R.

End Paddle.
Import Paddle.

(** ** utils/data_split_musk.py *)

Module DataSplitMusk.

(** [0 <= zero_ratio <= 1] *)
Definition valid_ratio (zero_ratio : Q) : Prop := (0 <= zero_ratio <= 1)%Q.

Section Shuffle.

(** State of the global generator of [numpy.random], and [np.random.shuffle],
    which permutes its argument in place and advances the generator. *)
Variable rng : Type.
Variable shuffle : rng -> list Z -> list Z * rng.

Definition generate_binary_sequence (g : rng) (length : Z) (zero_ratio : Q)
  : result (list Z) * rng :=
  if negb (Qle_bool 0 zero_ratio && Qle_bool zero_ratio 1) then
    (Raise ValueError, g)
  else
    let zeros_count := int (mul_int_float length zero_ratio) in
    let ones_count := length - zeros_count in
    let sequence := list_repeat 0 zeros_count ++ list_repeat 1 ones_count in
    let (sequence, g) := shuffle g sequence in
    (Ok sequence, g).

End Shuffle.

End DataSplitMusk.

(** ** utils/metrics.py *)

Module Metrics.

Record PixelBinaryCrossEntropyLoss : Type := {
  weight : option (tensor R);
  reduction : string;
  ignore_index : Z
}.

(** [__init__(weight=None, reduction='mean', ignore_index=255)] *)
Definition default_loss : PixelBinaryCrossEntropyLoss :=
  {| weight := None; reduction := "mean"; ignore_index := 255 |}.

(** [pixel_binary_accuracy(pred, label, threshold=0.5, ignore_index=255)] *)
Definition default_threshold : R := 0.5%R.
Definition default_ignore_index : Z := 255.

(** [loss * self.weight]: a weight of the loss's shape multiplies entry by
    entry, a one-entry weight scales every entry. *)
Definition mul_weight (loss w : tensor R) : result (tensor R) :=
  if decide (shape w = shape loss) then tzip Rmult loss w
  else match data w with
       | [c] => Ok (tmap (fun x => (x * c)%R) loss)
       | _ => Raise ValueError
       end.

Section Loss.

(** [F.binary_cross_entropy(prob, target, reduction='none')] at one entry. *)
Variable binary_cross_entropy : R -> R -> R.

Definition forward (self : PixelBinaryCrossEntropyLoss)
  (logits : tensor R) (label : tensor Z) : result (tensor R) :=
  let logits :=
    if (List.length (shape logits) =? 4)%nat && (nth 1 (shape logits) 0 =? 1)%nat
    then squeeze1 logits else logits in
  let mask := tmap (fun y => if y =? ignore_index self then 0%R else 1%R) label in
  let prob := tmap sigmoid logits in
  (loss <- tzip binary_cross_entropy prob (tmap IZR label) ;;
   loss <- tzip Rmult loss mask ;;
   loss <- match weight self with
           | Some w => mul_weight loss w
           | None => Ok loss
           end ;;
   if String.eqb (reduction self) "mean" then
     if Rlt_dec 0 (sum mask)
     then Ok (scalar (sum loss / sum mask))
     else Ok (scalar (mean loss * 0))
   else if String.eqb (reduction self) "sum" then Ok (scalar (sum loss))
   else Ok loss)%res.

End Loss.

Definition binary_pred (threshold : R) (pred : tensor R) : tensor Z :=
  tmap (fun p => if gt_threshold threshold p then 1 else 0) (tmap sigmoid pred).

Definition pixel_binary_accuracy (pred : tensor R) (label : tensor Z)
  (threshold : R) (ignore_index : Z) : result (tensor R) :=
  let pred := if (List.length (shape pred) =? 4)%nat then squeeze1 pred else pred in
  let binary_pred := binary_pred threshold pred in
  let valid_mask := tmap (fun y => negb (y =? ignore_index)) label in
  (eq <- tzip Z.eqb binary_pred label ;;
   correct <- tzip andb eq valid_mask ;;
   let total_valid := sum (tmap b2r valid_mask) in
   if Rlt_dec 0 total_valid
   then Ok (scalar (sum (tmap b2r correct) / total_valid))
   else Ok (scalar 0))%res.

(** *** Reference quantities

    The counts and sums the documentation of the two functions speaks of,
    written over the paired entries of prediction and label; the functions
    above are compared against them below. *)

(** The hard prediction at a raw score. *)
Definition hard_prediction (threshold : R) (x : R) : Z :=
  if gt_threshold threshold (sigmoid x) then 1 else 0.

Definition is_valid (ignore_index : Z) (y : Z) : bool := negb (y =? ignore_index).

(** Number of pixels whose label is not the ignore sentinel. *)
Definition valid_count (ignore_index : Z) (label : list Z) : nat :=
  List.length (List.filter (is_valid ignore_index) label).

(** Number of non-ignored pixels whose hard prediction equals the label. *)
Definition correct_count (threshold : R) (ignore_index : Z)
  (pred : list R) (label : list Z) : nat :=
  List.length
    (List.filter
       (fun xy => is_valid ignore_index (snd xy)
                  && (hard_prediction threshold (fst xy) =? snd xy))
       (combine pred label)).

(** Number of non-ignored pixels whose label is 1. *)
Definition positive_count (ignore_index : Z) (label : list Z) : nat :=
  List.length
    (List.filter (fun y => is_valid ignore_index y && (1 =? y)) label).

(** Sum of the element-wise loss over the non-ignored pixels. *)
Definition masked_loss_sum (loss_at : R -> R -> R) (ignore_index : Z)
  (logits : list R) (label : list Z) : R :=
  fold_right Rplus 0%R
    (map (fun xy => loss_at (sigmoid (fst xy)) (IZR (snd xy)))
       (List.filter (fun xy => is_valid ignore_index (snd xy))
          (combine logits label))).

(** The shapes of the docstrings: scores [[N, 1, H, W]] or [[N, H, W]],
    labels [[N, H, W]], every entry present. *)
Definition pixelwise (scores : tensor R) (label : tensor Z) : Prop :=
  wf scores /\ wf label /\
  exists n h w,
    shape label = [n; h; w] /\
    (shape scores = [n; 1%nat; h; w] \/ shape scores = [n; h; w]).

End Metrics.

(** ** Floating-point entries with their special values

    Where a claim is about NaN or about a division by zero, an entry of a
    floating-point tensor is a real number, an infinity or NaN, with the
    arithmetic of IEEE 754 on the special values.  Rounding, overflow and
    the sign of zero are left out. *)

Module Float.

Inductive float : Type :=
| Fin (x : R)
| PInf
| NInf
| NaN.

Definition finite (a : float) : Prop :=
  match a with
  | Fin _ => True
  | _ => False
  end.

(** The real number a finite entry holds (0 for the others). *)
Definition to_R (a : float) : R :=
  match a with
  | Fin x => x
  | _ => 0%R
  end.

(** An infinity times a real number. *)
Definition scale_inf (positive : bool) (x : R) : float :=
  if Rlt_dec 0 x then (if positive then PInf else NInf)
  else if Rlt_dec x 0 then (if positive then NInf else PInf)
  else NaN.

Definition add (a b : float) : float :=
  match a, b with
  | NaN, _ | _, NaN => NaN
  | Fin x, Fin y => Fin (x + y)
  | PInf, NInf | NInf, PInf => NaN
  | PInf, _ | _, PInf => PInf
  | NInf, _ | _, NInf => NInf
  end.

Definition mul (a b : float) : float :=
  match a, b with
  | NaN, _ | _, NaN => NaN
  | Fin x, Fin y => Fin (x * y)
  | Fin x, PInf | PInf, Fin x => scale_inf true x
  | Fin x, NInf | NInf, Fin x => scale_inf false x
  | PInf, PInf | NInf, NInf => PInf
  | PInf, NInf | NInf, PInf => NInf
  end.

(** [a / b]: a finite number over 0 is an infinity, or NaN for 0 over 0. *)
Definition div (a b : float) : float :=
  match a, b with
  | NaN, _ | _, NaN => NaN
  | Fin x, Fin y =>
      if Req_dec_T y 0 then scale_inf true x else Fin (x / y)
  | Fin _, PInf | Fin _, NInf => Fin 0
  | PInf, Fin y => if Rle_dec 0 y then PInf else NInf
  | NInf, Fin y => if Rle_dec 0 y then NInf else PInf
  | _, _ => NaN
  end.

(** [a > b]: false as soon as one side is NaN. *)
Definition gt (a b : float) : bool :=
  match a, b with
  | Fin x, Fin y => if Rlt_dec y x then true else false
  | PInf, Fin _ | PInf, NInf | Fin _, NInf => true
  | _, _ => false
  end.

(** [F.sigmoid] *)
Definition sigmoid (a : float) : float :=
  match a with
  | Fin x => Fin (Paddle.sigmoid x)
  | PInf => Fin 1
  | NInf => Fin 0
  | NaN => NaN
  end.

(** [t.sum()]: 0 on a tensor without entries. *)
Definition sum (t : tensor float) : float := fold_right add (Fin 0) (data t).

(** [t.mean()]: the sum over the number of entries, hence NaN (0 over 0) on
    a tensor without entries. *)
Definition mean (t : tensor float) : float :=
  div (sum t) (Fin (INR (List.length (data t)))).

End Float.

(** ** utils/metrics.py: the loss on floating-point entries *)

Module MetricsFloat.

Import Float.

Record PixelBinaryCrossEntropyLoss : Type := {
  weight : option (tensor float);
  reduction : string;
  ignore_index : Z
}.

Section Loss.

(** [F.binary_cross_entropy(prob, target, reduction='none')] at one entry,
    and the library's [*] between two tensors of different shapes neither
    of which is a single entry of lower rank. *)
Variable binary_cross_entropy : float -> float -> float.
Variable broadcast_multiply :
  tensor float -> tensor float -> result (tensor float).

(** [loss * self.weight]: a weight of the loss's shape multiplies entry by
    entry, a one-entry weight of no higher rank scales every entry. *)
Definition mul_weight (loss w : tensor float) : result (tensor float) :=
  if decide (shape w = shape loss) then tzip mul loss w
  else match data w with
       | [c] =>
           if (List.length (shape w) <=? List.length (shape loss))%nat
           then Ok (tmap (fun x => mul x c) loss)
           else broadcast_multiply loss w
       | _ => broadcast_multiply loss w
       end.

Definition forward (self : PixelBinaryCrossEntropyLoss)
  (logits : tensor float) (label : tensor Z) : result (tensor float) :=
  let logits :=
    if (List.length (shape logits) =? 4)%nat && (nth 1 (shape logits) 0 =? 1)%nat
    then squeeze1 logits else logits in
  let mask :=
    tmap (fun y => if y =? ignore_index self then Fin 0 else Fin 1) label in
  let prob := tmap sigmoid logits in
  (loss <- tzip binary_cross_entropy prob (tmap (fun y => Fin (IZR y)) label) ;;
   loss <- tzip mul loss mask ;;
   loss <- match weight self with
           | Some w => mul_weight loss w
           | None => Ok loss
           end ;;
   if String.eqb (reduction self) "mean" then
     if gt (sum mask) (Fin 0)
     then Ok (Tensor [] [div (sum loss) (sum mask)])
     else Ok (Tensor [] [mul (mean loss) (Fin 0)])
   else if String.eqb (reduction self) "sum" then Ok (Tensor [] [sum loss])
   else Ok loss)%res.

(** *** Reference quantities *)

(** The weight of each of [n] pixels: 1 without a weight, the one entry of a
    one-entry weight, the entries of a per-pixel weight. *)
Definition pixel_weights (weight : option (tensor float)) (n : nat) : list R :=
  match weight with
  | None => repeat 1%R n
  | Some w =>
      match data w with
      | [c] => repeat (to_R c) n
      | entries => map to_R entries
      end
  end.

(** The weighted element-wise loss of each pixel, 0 at an ignored one. *)
Definition pixel_losses (ignore_index : Z) (weight : option (tensor float))
  (logits : list float) (label : list Z) : list R :=
  zip_with Rmult
    (zip_with
       (fun x y =>
          if y =? ignore_index then 0%R
          else to_R (binary_cross_entropy (sigmoid x) (Fin (IZR y))))
       logits label)
    (pixel_weights weight (List.length label)).

(** Sum of the weighted element-wise loss over the non-ignored pixels. *)
Definition masked_loss_sum (ignore_index : Z) (weight : option (tensor float))
  (logits : list float) (label : list Z) : R :=
  fold_right Rplus 0%R (pixel_losses ignore_index weight logits label).

End Loss.

(** The shapes of the docstrings: scores [[N, 1, H, W]] or [[N, H, W]],
    labels [[N, H, W]], every entry present. *)
Definition pixelwise (scores : tensor float) (label : tensor Z) : Prop :=
  wf scores /\ wf label /\
  exists n h w,
    shape label = [n; h; w] /\
    (shape scores = [n; 1%nat; h; w] \/ shape scores = [n; h; w]).

(** A weight the reference quantities cover: none, or finite entries in the
    shape of the label or as a single entry of rank at most 3. *)
Definition plain_weight (weight : option (tensor float)) (label : tensor Z)
  : Prop :=
  match weight with
  | None => True
  | Some w =>
      Forall finite (data w) /\ wf w /\
      (shape w = shape label \/
       (exists c, data w = [c]) /\ (List.length (shape w) <= 3)%nat)
  end.

End MetricsFloat.

(** ** model.py: the binary segmentation head *)

Module Model.

(** The default of [forward]'s [threshold] argument. *)
Definition default_threshold : R := 0.5%R.

Section BinarySegmentationHead.

(** [self.conv]: the 1x1 convolution to one output channel, with the weights
    the layer holds. *)
Variable conv : tensor R -> tensor R.

Definition forward (x : tensor R) (hard_labels : bool) (threshold : R)
  : tensor R :=
  let x := conv x in
  let probabilities := tmap sigmoid x in
  if hard_labels
  then tmap (fun p => b2r (gt_threshold threshold p)) probabilities
  else probabilities.

End BinarySegmentationHead.

(** *** channel_layer_norm

    A tensor [[B, C, H, W]] is held here as its planes: for each batch entry
    and each channel the [H * W] entries over which [mean] and [var] with
    [axis=[2, 3]] run. *)

(** The default of the [eps] argument. *)
Definition default_eps : R := 1e-5%R.

(** [x.mean(axis=[2, 3], keepdim=True)] on one plane. *)
Definition plane_mean (plane : list R) : R :=
  (fold_right Rplus 0 plane / INR (List.length plane))%R.

(** [x.var(axis=[2, 3], keepdim=True)] on one plane: the unbiased estimate,
    the library's default. *)
Definition plane_var (plane : list R) : R :=
  let mean := plane_mean plane in
  (fold_right Rplus 0 (map (fun v => (v - mean) * (v - mean)) plane)
   / (INR (List.length plane) - 1))%R.

Definition normalize_plane (eps : R) (plane : list R) : list R :=
  let mean := plane_mean plane in
  let var := plane_var plane in
  map (fun v => ((v - mean) / sqrt (var + eps))%R) plane.

Definition channel_layer_norm (x : list (list (list R))) (eps : R)
  : list (list (list R)) :=
  map (map (normalize_plane eps)) x.

(** The plane of batch entry [b] and channel [c]. *)
Definition plane_at (x : list (list (list R))) (b c : nat) : option (list R) :=
  match nth_error x b with
  | Some channels => nth_error channels c
  | None => None
  end.

(** Thresholding one probability, as the documentation words it: 1 above the
    threshold, 0 otherwise. *)
Definition threshold_at (threshold : R) (p : R) : R :=
  if Rlt_dec threshold p then 1%R else 0%R.

End Model.

(** ** utils/dataloader.py *)

Module Dataloader.

Section FireRiskDataset.

(** A 2-D array over (latitude, longitude), its shape, and the cast
    [astype('float32')]; a time coordinate. *)
Variable field : Type.
Variable field_shape : field -> nat * nat.
Variable float32 : field -> field.
Variable timestamp : Type.

(** An opened NetCDF archive: the [valid_time] coordinate and the data
    variables in the archive's order, each a series of 2-D fields over time. *)
Record archive : Type := {
  valid_time : list timestamp;
  data_vars : list (string * list field)
}.

(** The arrays [__getitem__] handles: 2-D slices and stacks of them along a
    leading channel axis. *)
Inductive ndarray : Type :=
| Arr2 (f : field)
| Arr3 (channels : list field).

Record FireRiskDataset : Type := {
  sequence_length : Z;
  transform : option (ndarray -> ndarray);
  ds1 : archive;
  ds2 : archive;
  npy_data : list field;
  timestamps : list timestamp;
  nc1_variables : list string;
  nc2_variables : list string;
  total_time_steps : Z;
  c1_channels : Z;
  c2_channels : Z
}.

(** [dataset[var_name]] *)
Fixpoint getitem_var (vars : list (string * list field)) (var_name : string)
  : result (list field) :=
  match vars with
  | [] => Raise (KeyError var_name)
  | (k, series) :: rest =>
      if String.eqb k var_name then Ok series else getitem_var rest var_name
  end.

(** [dataset[var_name].isel(valid_time=i).values] *)
Definition isel (dataset : archive) (var_name : string) (i : Z) : result field :=
  (series <- getitem_var (data_vars dataset) var_name ;; index series i)%res.

(** [np.stack(arrays, axis=0)] on 2-D arrays: at least one array, all of one
    shape. *)
Definition np_stack (arrays : list field) : result (list field) :=
  match arrays with
  | [] => Raise ValueError
  | a :: rest =>
      if forallb (fun b => bool_decide (field_shape b = field_shape a)) rest
      then Ok arrays else Raise ValueError
  end.

Definition block_shape (block : list field) : option (nat * nat) :=
  match block with
  | [] => None
  | f :: _ => Some (field_shape f)
  end.

(** [np.concatenate(blocks, axis=0)] on stacks: at least one block, all with
    the same trailing shape. *)
Definition np_concatenate (blocks : list (list field)) : result (list field) :=
  match blocks with
  | [] => Raise ValueError
  | b :: rest =>
      if forallb (fun c => bool_decide (block_shape c = block_shape b)) rest
      then Ok (concat blocks) else Raise ValueError
  end.

Definition _load_timestamps (ds1 : archive) : result (list timestamp) :=
  let timestamps := valid_time ds1 in
  (_ <- index timestamps 0 ;; Ok timestamps)%res.

Definition _validate_variables (user_variables : option (list string))
  (dataset : archive) : result (list string) :=
  let available_vars := map fst (data_vars dataset) in
  match user_variables with
  | None => Ok available_vars
  | Some user_variables =>
      if forallb (fun var => existsb (String.eqb var) available_vars) user_variables
      then Ok user_variables
      else Raise ValueError
  end.

Definition _print_time_info (timestamps : list timestamp) : result unit :=
  (_ <- index timestamps 0 ;; _ <- index timestamps (-1) ;; Ok tt)%res.

Definition __init__ (nc_file1 nc_file2 : archive) (npy_file : list field)
  (nc1_variables nc2_variables : option (list string))
  (sequence_length : Z) (transform : option (ndarray -> ndarray))
  : result FireRiskDataset :=
  (timestamps <- _load_timestamps nc_file1 ;;
   nc1_variables <- _validate_variables nc1_variables nc_file1 ;;
   nc2_variables <- _validate_variables nc2_variables nc_file2 ;;
   _ <- _print_time_info timestamps ;;
   Ok {| sequence_length := sequence_length;
         transform := transform;
         ds1 := nc_file1;
         ds2 := nc_file2;
         npy_data := npy_file;
         timestamps := timestamps;
         nc1_variables := nc1_variables;
         nc2_variables := nc2_variables;
         total_time_steps := Z.of_nat (List.length timestamps);
         c1_channels := Z.of_nat (List.length nc1_variables);
         c2_channels := Z.of_nat (List.length nc2_variables) |})%res.

Definition __len__ (self : FireRiskDataset) : Z :=
  total_time_steps self - sequence_length self.

Definition __getitem__ (self : FireRiskDataset) (index : Z)
  : result (ndarray * ndarray) :=
  let start_time := index in
  let end_time := start_time + sequence_length self in
  (nc1_sequence <-
     mapM (fun i =>
             time_step_data <-
               mapM (fun var_name => isel (ds1 self) var_name i)
                    (nc1_variables self) ;;
             np_stack time_step_data)
          (range start_time end_time) ;;
   nc2_time_step_data <-
     mapM (fun var_name => isel (ds2 self) var_name (end_time - 1))
          (nc2_variables self) ;;
   nc2_combined <- np_stack nc2_time_step_data ;;
   label <- Py.index (npy_data self) start_time ;;
   nc1_combined <- np_concatenate nc1_sequence ;;
   input_data <- np_concatenate [nc1_combined; nc2_combined] ;;
   let input_data := Arr3 (map float32 input_data) in
   let label := Arr2 (float32 label) in
   match transform self with
   | Some f => Ok (f input_data, f label)
   | None => Ok (input_data, label)
   end)%res.

(** The dictionary [get_sequence_timestamps] returns. *)
Record sequence_timestamps : Type := {
  sequence_start : timestamp;
  sequence_end : timestamp;
  label_time : timestamp;
  sequence_dates : list timestamp
}.

Definition get_sequence_timestamps (self : FireRiskDataset) (start_index : Z)
  : result sequence_timestamps :=
  let end_index := start_index + sequence_length self in
  let label_index := end_index in
  (sequence_start <- index (timestamps self) start_index ;;
   sequence_end <- index (timestamps self) (end_index - 1) ;;
   label_time <- index (timestamps self) label_index ;;
   sequence_dates <-
     mapM (fun i => index (timestamps self) i) (range start_index end_index) ;;
   Ok {| sequence_start := sequence_start;
         sequence_end := sequence_end;
         label_time := label_time;
         sequence_dates := sequence_dates |})%res.

(** [np.where(mask)[0]]: the positions of the true entries, counted from
    [i] for the first entry. *)
Fixpoint np_where_from (i : Z) (mask : list bool) : list Z :=
  match mask with
  | [] => []
  | b :: rest => (if b then [i] else []) ++ np_where_from (i + 1) rest
  end.

(** [==] on time coordinates. *)
Variable timestamp_eqb : timestamp -> timestamp -> bool.

Definition find_samples_by_timestamp (self : FireRiskDataset)
  (target_timestamp : timestamp) : list Z :=
  let time_indices :=
    np_where_from 0
      (map (fun ts => timestamp_eqb ts target_timestamp) (timestamps self)) in
  List.filter
    (fun idx =>
       idx + sequence_length self <? Z.of_nat (List.length (timestamps self)))
    time_indices.

(** *** Reference notions

    What the documentation of the dataset speaks of: the 2-D field of a
    variable at a time step, the stack of the selected variables at a time
    step, an archive all of whose variables cover the same time steps on one
    grid, and the optional transform. *)

Definition field_at (dataset : archive) (t : Z) (var_name : string) (f : field)
  : Prop :=
  exists series,
    getitem_var (data_vars dataset) var_name = Ok series /\
    0 <= t /\ nth_error series (Z.to_nat t) = Some f.

Definition stack_at (dataset : archive) (variables : list string) (t : Z)
  (channels : list field) : Prop :=
  Forall2 (field_at dataset t) variables channels.

Definition covers (dataset : archive) (steps : nat) (grid : nat * nat) : Prop :=
  forall var_name series,
    In (var_name, series) (data_vars dataset) ->
    List.length series = steps /\ Forall (fun f => field_shape f = grid) series.

Definition apply_transform (transform : option (ndarray -> ndarray))
  (a : ndarray) : ndarray :=
  match transform with
  | Some f => f a
  | None => a
  end.

(** The time step an index selects among [steps] of them: a negative index
    counts from the end. *)
Definition wrapped (steps : nat) (t : Z) : Z :=
  if t <? 0 then t + Z.of_nat steps else t.

(** Every variable asked for by name is a data variable of the archive. *)
Definition requested_available (user_variables : option (list string))
  (dataset : archive) : Prop :=
  match user_variables with
  | None => True
  | Some variables =>
      Forall (fun var => In var (map fst (data_vars dataset))) variables
  end.

(** The variables a dataset uses: those asked for, or all of the archive. *)
Definition selected_variables (user_variables : option (list string))
  (dataset : archive) : list string :=
  match user_variables with
  | None => map fst (data_vars dataset)
  | Some variables => variables
  end.

End FireRiskDataset.

Arguments valid_time {field timestamp} a.
Arguments data_vars {field timestamp} a.
Arguments Arr2 {field} f.
Arguments Arr3 {field} channels.
Arguments sequence_length {field timestamp} f.
Arguments transform {field timestamp} f.
Arguments ds1 {field timestamp} f.
Arguments ds2 {field timestamp} f.
Arguments npy_data {field timestamp} f.
Arguments timestamps {field timestamp} f.
Arguments nc1_variables {field timestamp} f.
Arguments nc2_variables {field timestamp} f.
Arguments total_time_steps {field timestamp} f.
Arguments c1_channels {field timestamp} f.
Arguments c2_channels {field timestamp} f.
Arguments getitem_var {field} vars var_name.
Arguments isel {field timestamp} dataset var_name i.
Arguments np_stack {field} field_shape arrays.
Arguments block_shape {field} field_shape block.
Arguments np_concatenate {field} field_shape blocks.
Arguments _load_timestamps {field timestamp} ds1.
Arguments _validate_variables {field timestamp} user_variables dataset.
Arguments _print_time_info {timestamp} timestamps.
Arguments __init__ {field timestamp} nc_file1 nc_file2 npy_file
  nc1_variables nc2_variables sequence_length transform.
Arguments __len__ {field timestamp} self.
Arguments __getitem__ {field} field_shape float32 {timestamp} self index.
Arguments field_at {field timestamp} dataset t var_name f.
Arguments stack_at {field timestamp} dataset variables t channels.
Arguments covers {field} field_shape {timestamp} dataset steps grid.
Arguments apply_transform {field} transform a.
Arguments sequence_start {timestamp} s.
Arguments sequence_end {timestamp} s.
Arguments label_time {timestamp} s.
Arguments sequence_dates {timestamp} s.
Arguments get_sequence_timestamps {field timestamp} self start_index.
Arguments find_samples_by_timestamp {field timestamp} timestamp_eqb self
  target_timestamp.
Arguments requested_available {field timestamp} user_variables dataset.
Arguments selected_variables {field timestamp} user_variables dataset.

(** A call that, if it raises, raises [IndexError] or [ValueError]. *)
Definition raises_index_or_value {A} (r : result A) : Prop :=
  forall e, r = Raise e -> e = IndexError \/ e = ValueError.

End Dataloader.

(** ** train.py *)

Module Train.

(** [lr_scheduler]: a fixed floating-point rate or a stateful scheduler. *)
Inductive lr_schedule : Type :=
| FixedRate (lr : Q)
| Scheduler.

(** What a run does to the outside world, in order.  [EpochBegin] marks the
    entry into the body of the epoch loop. *)
Inductive event : Type :=
| SplitMask (mask : list Z)
| ModelTrain
| ModelEval
| EpochBegin (epoch : Z)
| OptimizerStep (epoch batch_idx : Z)
| PrintBatch (epoch batch_idx : Z) (loss : Q)
| SchedulerStep
| PrintEpochCompleted (epoch epochs : Z)
| PrintTrainAverages (loss acc : Q)
| PrintValAverages (loss acc : Q)
| Save (path : string).

Definition checkpoint_path (times : string) (epoch : Z) : string :=
  "YOUR/PATH/model_checkpoints/model_" +:+ times +:+ "_epoch_" +:+
  pretty epoch +:+ ".pdparams".

Section Driver.

Variable rng : Type.
Variable shuffle : rng -> list Z -> list Z * rng.

(** The values the model, the loss and the metrics produce on the batch at
    position [batch_idx] of the loader in a given epoch: the loss of the
    training phase, and the loss, accuracy and F1 score of the evaluation
    phase.  Loading a batch, the forward pass, the loss and the optimizer are
    taken to return. *)
Variable train_loss : Z -> Z -> Q.
Variable eval_loss : Z -> Z -> Q.
Variable eval_acc : Z -> Z -> Q.
Variable eval_f1 : Z -> Z -> Q.

(** The generator of [numpy.random], the accumulators among the function's
    local variables (a name is bound once it has been assigned), and the
    events so far. *)
Record state : Type := {
  generator : rng;
  locals : gmap string Q;
  trace : list event
}.

Definition M (A : Type) : Type := state -> result A * state.

Definition ret {A} (a : A) : M A := fun s => (Ok a, s).

Definition bindM {A B} (m : M A) (k : A -> M B) : M B :=
  fun s =>
    match m s with
    | (Ok a, s') => k a s'
    | (Raise e, s') => (Raise e, s')
    end.

Definition lift {A} (r : result A) : M A := fun s => (r, s).

Definition emit (e : event) : M unit :=
  fun s => (Ok tt, {| generator := generator s;
                      locals := locals s;
                      trace := trace s ++ [e] |}).

(** [name = v] *)
Definition assign (name : string) (v : Q) : M unit :=
  fun s => (Ok tt, {| generator := generator s;
                      locals := <[name := v]> (locals s);
                      trace := trace s |}).

(** Reading a local variable that no assignment has bound yet. *)
Definition load (name : string) : M Q :=
  fun s =>
    match locals s !! name with
    | Some v => (Ok v, s)
    | None => (Raise (UnboundLocalError name), s)
    end.

Fixpoint for_each {A} (l : list A) (body : A -> M unit) : M unit :=
  match l with
  | [] => ret tt
  | x :: l' => bindM (body x) (fun _ => for_each l' body)
  end.

Declare Scope run_scope.
Delimit Scope run_scope with run.
Local Notation "x <- c1 ;; c2" := (bindM c1 (fun x => c2))
  (at level 100, c1 at next level, right associativity) : run_scope.
Local Notation "c1 ;; c2" := (bindM c1 (fun _ => c2))
  (at level 100, right associativity) : run_scope.

(** [name += v]: the name is read first. *)
Definition aug_add (name : string) (v : Q) : M unit :=
  (x <- load name ;; assign name (x + v)%Q)%run.

(** The call of [generate_binary_sequence] on the global generator. *)
Definition split_mask (len_data : Z) (val_ratio : Q) : M (list Z) :=
  fun s =>
    match DataSplitMusk.generate_binary_sequence rng shuffle
            (generator s) len_data val_ratio with
    | (Ok mask, g) =>
        (Ok mask, {| generator := g;
                     locals := locals s;
                     trace := trace s ++ [SplitMask mask] |})
    | (Raise e, g) =>
        (Raise e, {| generator := g; locals := locals s; trace := trace s |})
    end.

Definition scheduler_step (lr_scheduler : lr_schedule)
  (lr_shedular_type granularity : string) : M unit :=
  match lr_scheduler with
  | FixedRate _ => ret tt
  | Scheduler =>
      if String.eqb lr_shedular_type granularity then emit SchedulerStep
      else ret tt
  end.

(** One iteration of the training loop over the loader. *)
Definition train_batch (data_split_musk : list Z) (lr_scheduler : lr_schedule)
  (batch_out : bool) (lr_shedular_type : string) (epoch batch_idx : Z)
  : M unit :=
  (m <- lift (index data_split_musk batch_idx) ;;
   (if m =? 1 then
      emit (OptimizerStep epoch batch_idx) ;;
      if batch_out
      then emit (PrintBatch epoch batch_idx (train_loss epoch batch_idx))
      else ret tt
    else ret tt) ;;
   scheduler_step lr_scheduler lr_shedular_type "batch")%run.

(** One iteration of the evaluation loop over the loader. *)
Definition eval_batch (data_split_musk : list Z) (epoch batch_idx : Z)
  : M unit :=
  (m <- lift (index data_split_musk batch_idx) ;;
   if m =? 1 then
     aug_add "total_train_loss" (eval_loss epoch batch_idx) ;;
     aug_add "total_train_acc" (eval_acc epoch batch_idx) ;;
     aug_add "total_train_f1" (eval_f1 epoch batch_idx)
   else if m =? 0 then
     aug_add "total_val_loss" (eval_loss epoch batch_idx) ;;
     aug_add "total_val_acc" (eval_acc epoch batch_idx) ;;
     aug_add "total_val_f1" (eval_f1 epoch batch_idx)
   else ret tt)%run.

(** The body of the epoch loop up to the report of the averages: the
    training phase and the evaluation phase. *)
Definition epoch_phases (epochs : Z) (lr_scheduler : lr_schedule)
  (batch_out : bool) (lr_shedular_type : string)
  (len_data len_val len_train : Z) (data_split_musk : list Z) (epoch : Z)
  : M unit :=
  (emit (EpochBegin epoch) ;;
   emit ModelTrain ;;
   for_each (range 0 len_data)
     (train_batch data_split_musk lr_scheduler batch_out lr_shedular_type epoch) ;;
   scheduler_step lr_scheduler lr_shedular_type "epoch" ;;
   emit (PrintEpochCompleted epoch epochs) ;;
   emit ModelEval ;;
   assign "total_train_loss" 0 ;;
   assign "total_train_acc" 0 ;;
   assign "total_val_loss" 0 ;;
   assign "total_val_acc" 0 ;;
   for_each (range 0 len_data) (eval_batch data_split_musk epoch) ;;
   total_train_loss <- load "total_train_loss" ;;
   avg_train_loss <- lift (truediv total_train_loss len_train) ;;
   total_train_acc <- load "total_train_acc" ;;
   avg_train_acc <- lift (truediv total_train_acc len_train) ;;
   total_val_loss <- load "total_val_loss" ;;
   avg_val_loss <- lift (truediv total_val_loss len_val) ;;
   total_val_acc <- load "total_val_acc" ;;
   avg_val_acc <- lift (truediv total_val_acc len_val) ;;
   emit (PrintTrainAverages avg_train_loss avg_train_acc) ;;
   emit (PrintValAverages avg_val_loss avg_val_acc))%run.

(** The end of the body of the epoch loop: the checkpoint of every tenth
    epoch. *)
Definition epoch_checkpoint (times : string) (epoch : Z) : M unit :=
  if epoch mod 10 =? 0 then emit (Save (checkpoint_path times epoch))
  else ret tt.

(** After the loop: the checkpoint of the last epoch. *)
Definition final_checkpoint (times : string) (epochs : Z) : M unit :=
  if negb (epochs mod 10 =? 0) then emit (Save (checkpoint_path times epochs))
  else ret tt.

(** The epoch loop and what follows it, over the phases of an epoch. *)
Definition epoch_loop (times : string) (epochs : Z) (phases : Z -> M unit)
  : M unit :=
  (for_each (range 1 (epochs + 1))
     (fun epoch => phases epoch ;; epoch_checkpoint times epoch) ;;
   final_checkpoint times epochs)%run.

(** [train_model]; [len_data] is [len(data_loader)], the sample count of the
    loader built from the three archives. *)
Definition train_model (times : string) (epochs : Z)
  (lr_scheduler : lr_schedule) (len_data : Z) (val_ratio : Q)
  (batch_out : bool) (lr_shedular_type : string) : M unit :=
  (let len_val := int (mul_float_int val_ratio len_data) in
   let len_train := len_data - len_val in
   data_split_musk <- split_mask len_data val_ratio ;;
   emit ModelTrain ;;
   epoch_loop times epochs
     (epoch_phases epochs lr_scheduler batch_out lr_shedular_type
                   len_data len_val len_train data_split_musk))%run.

(** A run starts with no accumulator bound and nothing done yet. *)
Definition initial (g : rng) : state :=
  {| generator := g; locals := ∅; trace := [] |}.

Definition saved (tr : list event) : list string :=
  omap (fun e => match e with Save p => Some p | _ => None end) tr.

End Driver.

Arguments generator {rng} s.
Arguments locals {rng} s.
Arguments trace {rng} s.
Arguments ret {rng A} a s.
Arguments bindM {rng A B} m k s.
Arguments lift {rng A} r s.
Arguments emit {rng} e s.
Arguments assign {rng} name v s.
Arguments load {rng} name s.
Arguments for_each {rng A} l body s.
Arguments aug_add {rng} name v s.
Arguments scheduler_step {rng} lr_scheduler lr_shedular_type granularity s.
Arguments initial {rng} g.
Arguments epoch_checkpoint {rng} times epoch s.
Arguments final_checkpoint {rng} times epochs s.
Arguments epoch_loop {rng} times epochs phases s.

(** *** Reference notions *)

(** The events of the training phase of an epoch. *)
Definition training_event (e : event) : Prop :=
  match e with
  | OptimizerStep _ _ | PrintBatch _ _ _ | SchedulerStep => True
  | _ => False
  end.

(** An event that neither draws a mask nor takes an optimizer step. *)
Definition plain_event (e : event) : Prop :=
  match e with
  | SplitMask _ | OptimizerStep _ _ => False
  | _ => True
  end.

(** What an event may be once the split mask [mask] has been drawn, if that
    mask is the only one: no further mask, and optimizer steps only at
    positions the mask assigns to training. *)
Definition under_mask (mask : list Z) (e : event) : Prop :=
  match e with
  | SplitMask _ => False
  | OptimizerStep _ batch_idx => Py.index mask batch_idx = Ok 1
  | _ => True
  end.

(** A trace that starts with the drawing of [mask] and draws no other. *)
Definition single_mask (mask : list Z) (tr : list event) : Prop :=
  exists rest, tr = SplitMask mask :: rest /\ Forall (under_mask mask) rest.

(** A computation that keeps a property of the trace, whether it returns or
    raises. *)
Definition keeps {rng A} (P : list event -> Prop) (m : M rng A) : Prop :=
  forall s, P (trace s) -> P (trace (snd (m s))).

(** The state [s] after the events [evs], generator and locals untouched. *)
Definition extend {rng} (s : state rng) (evs : list event) : state rng :=
  {| generator := generator s; locals := locals s; trace := trace s ++ evs |}.

(** A computation that returns after appending events that all satisfy [P],
    leaving generator and locals untouched. *)
Definition appends {rng} (P : event -> Prop) (m : M rng unit) : Prop :=
  forall s, exists evs, m s = (Ok tt, extend s evs) /\ Forall P evs.

(** The epochs after which the documentation has a checkpoint written: every
    epoch number divisible by 10, and the last epoch if its number is not. *)
Definition checkpoint_epochs (epochs : Z) : list Z :=
  List.filter (fun epoch => epoch mod 10 =? 0) (range 1 (epochs + 1)) ++
  (if epochs mod 10 =? 0 then [] else [epochs]).

(** An event other than the writing of a checkpoint. *)
Definition not_save (e : event) : Prop :=
  match e with
  | Save _ => False
  | _ => True
  end.

(** Counting the steps of the optimizer and of the scheduler in a trace. *)
Definition is_optimizer_step (e : event) : bool :=
  match e with
  | OptimizerStep _ _ => true
  | _ => false
  end.

Definition is_scheduler_step (e : event) : bool :=
  match e with
  | SchedulerStep => true
  | _ => false
  end.

Definition optimizer_steps (tr : list event) : nat :=
  List.length (List.filter is_optimizer_step tr).

Definition scheduler_steps (tr : list event) : nat :=
  List.length (List.filter is_scheduler_step tr).

(** The events of a call of [scheduler_step]. *)
Definition scheduler_events (lr_scheduler : lr_schedule)
  (lr_shedular_type granularity : string) : list event :=
  match lr_scheduler with
  | FixedRate _ => []
  | Scheduler =>
      if String.eqb lr_shedular_type granularity then [SchedulerStep] else []
  end.

(** A trace in which every epoch draws a split mask after it begins. *)
Definition mask_drawn_in_every_epoch (tr : list event) : Prop :=
  forall pre epoch post,
    tr = pre ++ EpochBegin epoch :: post ->
    exists mask, In (SplitMask mask) post.

End Train.

(** ** Sample inputs

    Small concrete inputs on which the facts below are exercised. *)

Module Sample.

(** Archives with seven time steps on a one-point grid; a field is the
    number it holds, already a 32-bit float. *)
Definition land : Dataloader.archive Z nat :=
  {| Dataloader.valid_time := seq 0 7;
     Dataloader.data_vars := [("sp", [10; 11; 12; 13; 14; 15; 16]);
                              ("skt", [30; 31; 32; 33; 34; 35; 36])] |}.

Definition pressure_levels : Dataloader.archive Z nat :=
  {| Dataloader.valid_time := seq 0 7;
     Dataloader.data_vars := [("z_500", [20; 21; 22; 23; 24; 25; 26])] |}.

Definition label : list Z := [100; 101; 102; 103; 104; 105; 106].

Definition grid_shape (f : Z) : nat * nat := (1%nat, 1%nat).

Definition dataset : Dataloader.FireRiskDataset Z nat :=
  {| Dataloader.sequence_length := 6;
     Dataloader.transform := None;
     Dataloader.ds1 := land;
     Dataloader.ds2 := pressure_levels;
     Dataloader.npy_data := label;
     Dataloader.timestamps := seq 0 7;
     Dataloader.nc1_variables := ["skt"; "sp"];
     Dataloader.nc2_variables := ["z_500"];
     Dataloader.total_time_steps := 7;
     Dataloader.c1_channels := 2;
     Dataloader.c2_channels := 1 |}.

(** The logarithm cut off at -100, on a number from 0 on. *)
Definition clamped_log (x : R) : R :=
  if Rlt_dec 0 x then Rmax (ln x) (-100) else (-100)%R.

(** The element-wise binary cross-entropy as the library computes it on a
    probability and a finite target, its logarithms cut off at -100; NaN
    otherwise. *)
Definition clamped_bce (p y : Float.float) : Float.float :=
  match p, y with
  | Float.Fin p, Float.Fin y =>
      if Rle_dec 0 p then
        if Rle_dec p 1 then
          Float.Fin (- (y * clamped_log p + (1 - y) * clamped_log (1 - p)))%R
        else Float.NaN
      else Float.NaN
  | _, _ => Float.NaN
  end.

(** No weight is broadcast in the sample calls. *)
Definition no_broadcast (a b : tensor Float.float)
  : result (tensor Float.float) := Raise ValueError.

(** A training run: the shuffle reverses its list, every loss and metric is
    1, the rate is fixed, the validation fraction is the default, the float
    [0.15]. *)
Definition shuffle (g : unit) (l : list Z) : list Z * unit := (rev l, g).

Definition metric (epoch batch_idx : Z) : Q := 1.

Definition run (epochs len_data : Z) : result unit * Train.state unit :=
  Train.train_model unit shuffle metric metric metric metric
    "run1" epochs (Train.FixedRate (Binary64.round 0.001)) len_data
    (Binary64.round 0.15) true "batch" (Train.initial tt).

End Sample.

(** * Facts about floating-point rounding *)

Section Binary64Facts.

Import Binary64.

Lemma pow2_pos (k : Z) : (0 < pow2 k)%Q.
Proof. apply Qpower_0_lt. reflexivity. Qed.

Lemma pow2_add (a b : Z) : (pow2 (a + b) == pow2 a * pow2 b)%Q.
Proof. apply Qpower_plus. discriminate. Qed.

Lemma pow2_le (a b : Z) : a <= b -> (pow2 a <= pow2 b)%Q.
Proof. intros H. apply Qpower_le_compat_l; [exact H|discriminate]. Qed.

Lemma pow2_lt_inv (a b : Z) : (pow2 a < pow2 b)%Q -> a < b.
Proof. intros H. eapply Qpower_lt_compat_l_inv; [exact H|reflexivity]. Qed.

Lemma pow2_inject (k : Z) : 0 <= k -> (inject_Z (2 ^ k) == pow2 k)%Q.
Proof. intros H. apply (Zpower_Qpower 2 k H). Qed.

(** ** The nearest integer *)

Lemma rne_bounds (x : Q) : Qfloor x <= rne x <= Qfloor x + 1.
Proof.
  unfold rne. destruct (x - inject_Z (Qfloor x) ?= 1 # 2)%Q;
    [destruct (Z.even (Qfloor x))| |]; lia.
Qed.

Lemma rne_int (n : Z) : rne (inject_Z n) = n.
Proof.
  unfold rne. rewrite Qfloor_Z.
  destruct (Qcompare_spec (inject_Z n - inject_Z n) (1 # 2)) as [H|H|H];
    [exfalso; lra|reflexivity|exfalso; lra].
Qed.

Lemma rne_comp (x y : Q) : (x == y)%Q -> rne x = rne y.
Proof.
  intros H. unfold rne. rewrite (Qfloor_comp x y H).
  assert (E : (x - inject_Z (Qfloor y) == y - inject_Z (Qfloor y))%Q)
    by now rewrite H.
  now rewrite (Qcompare_comp _ _ E _ _ (Qeq_refl (1 # 2))).
Qed.

Lemma rne_mono (x y : Q) : (x <= y)%Q -> rne x <= rne y.
Proof.
  intros H. pose proof (Qfloor_resp_le x y H) as Hf.
  pose proof (rne_bounds x) as Hx. pose proof (rne_bounds y) as Hy.
  destruct (Z.eq_dec (Qfloor x) (Qfloor y)) as [E|E]; [|lia].
  unfold rne in *. rewrite <- E in *.
  destruct (Qcompare_spec (x - inject_Z (Qfloor x)) (1 # 2)) as [Hx2|Hx2|Hx2];
    destruct (Qcompare_spec (y - inject_Z (Qfloor x)) (1 # 2)) as [Hy2|Hy2|Hy2];
    try lia; try (destruct (Z.even (Qfloor x)); lia);
    exfalso; lra.
Qed.

Lemma rne_ge (n : Z) (x : Q) : (inject_Z n <= x)%Q -> n <= rne x.
Proof. intros H. rewrite <- (rne_int n). now apply rne_mono. Qed.

Lemma rne_le (n : Z) (x : Q) : (x <= inject_Z n)%Q -> rne x <= n.
Proof. intros H. rewrite <- (rne_int n). now apply rne_mono. Qed.


(** ** The exponent *)

Lemma ilog2_spec (x : Q) :
  (0 < x)%Q -> (pow2 (ilog2 x) <= x < pow2 (ilog2 x + 1))%Q.
Proof.
  intros Hx. destruct x as [n d].
  assert (Hn : 0 < n) by (unfold Qlt in Hx; simpl in Hx; lia).
  unfold ilog2. cbn [Qnum Qden].
  set (ln := Z.log2 n). set (ld := Z.log2 (Z.pos d)).
  pose proof (Z.log2_nonneg n) as Hln0. fold ln in Hln0.
  pose proof (Z.log2_nonneg (Z.pos d)) as Hld0. fold ld in Hld0.
  destruct (Z.log2_spec n Hn) as [Hn1 Hn2]. fold ln in Hn1, Hn2.
  destruct (Z.log2_spec (Z.pos d) ltac:(lia)) as [Hd1 Hd2]. fold ld in Hd1, Hd2.
  rewrite Zle_Qle in Hn1, Hd1. rewrite Zlt_Qlt in Hn2, Hd2.
  rewrite pow2_inject in Hn1, Hn2, Hd1, Hd2 by lia.
  assert (Hxd : ((n # d) * inject_Z (Z.pos d) == inject_Z n)%Q).
  { unfold Qeq, Qmult, inject_Z. simpl. lia. }
  pose proof (pow2_pos (ln - ld + 1)) as Hp1.
  pose proof (pow2_pos (ln - ld - 1)) as Hp2.
  pose proof (pow2_pos ld) as Hp3.
  assert (Hup : ((n # d) < pow2 (ln - ld + 1))%Q).
  { apply Qnot_le_lt. intros Hle.
    assert (E : (pow2 (Z.succ ln) == pow2 (ln - ld + 1) * pow2 ld)%Q)
      by (rewrite <- pow2_add; apply Qpower_comp; [reflexivity|lia]).
    rewrite E in Hn2. rewrite <- Hxd in Hn2.
    assert ((pow2 (ln - ld + 1) * pow2 ld <= (n # d) * inject_Z (Z.pos d))%Q).
    { apply Qmult_le_compat_nonneg; split; try assumption; apply Qlt_le_weak;
        assumption. }
    lra. }
  assert (Hlow : (pow2 (ln - ld - 1) <= (n # d))%Q).
  { apply Qnot_lt_le. intros Hlt.
    assert (E : (pow2 ln == pow2 (ln - ld - 1) * pow2 (Z.succ ld))%Q)
      by (rewrite <- pow2_add; apply Qpower_comp; [reflexivity|lia]).
    rewrite E in Hn1. rewrite <- Hxd in Hn1.
    assert (((n # d) * inject_Z (Z.pos d) <
             pow2 (ln - ld - 1) * pow2 (Z.succ ld))%Q).
    { apply Qle_lt_trans with ((n # d) * pow2 (Z.succ ld))%Q.
      - apply Qmult_le_l; [exact Hx|apply Qlt_le_weak; exact Hd2].
      - apply Qmult_lt_r; [apply pow2_pos|exact Hlt]. }
    lra. }
  destruct (Qle_bool (pow2 (ln - ld)) (n # d)) eqn:E.
  - apply Qle_bool_iff in E. split; assumption.
  - assert (Hlt : ((n # d) < pow2 (ln - ld))%Q).
    { apply Qnot_le_lt. intros H. apply Qle_bool_iff in H. congruence. }
    split; [exact Hlow|].
    now replace (ln - ld - 1 + 1) with (ln - ld) by lia.
Qed.

Lemma ilog2_mono (x y : Q) : (0 < x)%Q -> (x <= y)%Q -> ilog2 x <= ilog2 y.
Proof.
  intros Hx Hxy.
  destruct (ilog2_spec x Hx) as [H1 _].
  destruct (ilog2_spec y) as [_ H2]; [lra|].
  assert (H : (pow2 (ilog2 x) < pow2 (ilog2 y + 1))%Q) by lra.
  apply pow2_lt_inv in H. lia.
Qed.

(** ** Rounding a positive number *)

Lemma scaled_range (x : Q) :
  (0 < x)%Q ->
  (pow2 52 <= x / pow2 (ilog2 x - 52) < pow2 53)%Q.
Proof.
  intros Hx. destruct (ilog2_spec x Hx) as [H1 H2].
  pose proof (pow2_pos (ilog2 x - 52)) as Hu.
  assert (E1 : (pow2 (ilog2 x) == pow2 52 * pow2 (ilog2 x - 52))%Q)
    by (rewrite <- pow2_add; apply Qpower_comp; [reflexivity|lia]).
  assert (E2 : (pow2 (ilog2 x + 1) == pow2 53 * pow2 (ilog2 x - 52))%Q)
    by (rewrite <- pow2_add; apply Qpower_comp; [reflexivity|lia]).
  split.
  - apply Qle_shift_div_l; [exact Hu|]. now rewrite <- E1.
  - apply Qlt_shift_div_r; [exact Hu|]. now rewrite <- E2.
Qed.

Lemma round_pos_bounds (x : Q) :
  (0 < x)%Q ->
  (pow2 (ilog2 x) <= round_pos x <= pow2 (ilog2 x + 1))%Q.
Proof.
  intros Hx. destruct (scaled_range x Hx) as [H1 H2].
  pose proof (pow2_pos (ilog2 x - 52)) as Hu.
  assert (E1 : (pow2 (ilog2 x) == pow2 52 * pow2 (ilog2 x - 52))%Q)
    by (rewrite <- pow2_add; apply Qpower_comp; [reflexivity|lia]).
  assert (E2 : (pow2 (ilog2 x + 1) == pow2 53 * pow2 (ilog2 x - 52))%Q)
    by (rewrite <- pow2_add; apply Qpower_comp; [reflexivity|lia]).
  unfold round_pos. rewrite E1, E2.
  split; apply Qmult_le_compat_r; try (apply Qlt_le_weak; exact Hu).
  - apply Qle_trans with (inject_Z (2 ^ 52)).
    + rewrite pow2_inject by lia. apply Qle_refl.
    + rewrite <- Zle_Qle. apply rne_ge. rewrite pow2_inject by lia. exact H1.
  - apply Qle_trans with (inject_Z (2 ^ 53)).
    + rewrite <- Zle_Qle. apply rne_le. rewrite pow2_inject by lia.
      apply Qlt_le_weak. exact H2.
    + rewrite pow2_inject by lia. apply Qle_refl.
Qed.

Lemma round_pos_positive (x : Q) : (0 < x)%Q -> (0 < round_pos x)%Q.
Proof.
  intros Hx. destruct (round_pos_bounds x Hx) as [H _].
  pose proof (pow2_pos (ilog2 x)). lra.
Qed.

Lemma round_pos_mono (x y : Q) :
  (0 < x)%Q -> (x <= y)%Q -> (round_pos x <= round_pos y)%Q.
Proof.
  intros Hx Hxy. assert (Hy : (0 < y)%Q) by lra.
  pose proof (ilog2_mono x y Hx Hxy) as Hk.
  destruct (Z.eq_dec (ilog2 x) (ilog2 y)) as [E|E].
  - unfold round_pos. rewrite E.
    pose proof (pow2_pos (ilog2 y - 52)) as Hu.
    apply Qmult_le_compat_r; [|apply Qlt_le_weak; exact Hu].
    rewrite <- Zle_Qle. apply rne_mono.
    apply Qmult_le_compat_r; [exact Hxy|].
    apply Qlt_le_weak, Qinv_lt_0_compat. exact Hu.
  - destruct (round_pos_bounds x Hx) as [_ H1].
    destruct (round_pos_bounds y Hy) as [H2 _].
    pose proof (pow2_le (ilog2 x + 1) (ilog2 y) ltac:(lia)). lra.
Qed.

Lemma round_pos_int (n : Z) :
  0 < n <= 2 ^ 53 -> (round_pos (inject_Z n) == inject_Z n)%Q.
Proof.
  intros Hn.
  assert (Hx : (0 < inject_Z n)%Q).
  { change 0%Q with (inject_Z 0). rewrite <- Zlt_Qlt. lia. }
  destruct (ilog2_spec (inject_Z n) Hx) as [H1 H2].
  set (k := ilog2 (inject_Z n)) in *.
  assert (Hle : (inject_Z n <= pow2 53)%Q).
  { apply Qle_trans with (inject_Z (2 ^ 53)).
    - rewrite <- Zle_Qle. lia.
    - rewrite pow2_inject by lia. apply Qle_refl. }
  assert (Hge : (pow2 0 <= inject_Z n)%Q).
  { change (pow2 0) with (inject_Z 1). rewrite <- Zle_Qle. lia. }
  assert (Hk0 : 0 <= k).
  { assert (H : (pow2 0 < pow2 (k + 1))%Q) by lra.
    apply pow2_lt_inv in H. lia. }
  assert (Hk53 : k <= 53).
  { pose proof (pow2_le 54 k) as H.
    destruct (Z_le_gt_dec k 53) as [|Hgt]; [assumption|].
    specialize (H ltac:(lia)).
    assert (H' : (pow2 53 < pow2 54)%Q) by reflexivity. lra. }
  unfold round_pos. fold k.
  pose proof (pow2_pos (k - 52)) as Hu.
  destruct (Z.eq_dec k 53) as [E|E].
  - assert (En : n = 2 ^ 53).
    { assert (H : (inject_Z (2 ^ 53) <= inject_Z n)%Q).
      { rewrite pow2_inject by lia. rewrite <- E. exact H1. }
      rewrite <- Zle_Qle in H. lia. }
    rewrite E, En. reflexivity.
  - assert (Em : (inject_Z n / pow2 (k - 52) ==
                  inject_Z (n * 2 ^ (52 - k)))%Q).
    { rewrite inject_Z_mult, pow2_inject by lia.
      unfold Qdiv. apply Qmult_comp; [reflexivity|].
      replace (k - 52) with (- (52 - k)) by lia.
      unfold pow2. rewrite Qpower_opp. apply Qinv_involutive. }
    rewrite (rne_comp _ _ Em), rne_int.
    rewrite inject_Z_mult, pow2_inject by lia.
    rewrite <- Qmult_assoc, <- pow2_add.
    replace (52 - k + (k - 52)) with 0 by lia.
    unfold pow2. rewrite Qpower_0_r. apply Qmult_1_r.
Qed.

(** ** Rounding: monotone, and exact on the integers up to [2^53] *)

Lemma round_mono (x y : Q) : (x <= y)%Q -> (round x <= round y)%Q.
Proof.
  intros Hxy. unfold round.
  destruct (Qcompare_spec x 0) as [Hx|Hx|Hx];
    destruct (Qcompare_spec y 0) as [Hy|Hy|Hy]; try (exfalso; lra).
  - lra.
  - pose proof (round_pos_positive y Hy). lra.
  - pose proof (round_pos_positive (- x) ltac:(lra)). lra.
  - pose proof (round_pos_mono (- y) (- x) ltac:(lra) ltac:(lra)). lra.
  - pose proof (round_pos_positive (- x) ltac:(lra)).
    pose proof (round_pos_positive y Hy). lra.
  - now apply round_pos_mono.
Qed.

Lemma round_int (n : Z) :
  Z.abs n <= 2 ^ 53 -> (round (inject_Z n) == inject_Z n)%Q.
Proof.
  intros Hn. unfold round.
  destruct (Qcompare_spec (inject_Z n) 0) as [H|H|H].
  - symmetry. exact H.
  - change 0%Q with (inject_Z 0) in H. rewrite <- Zlt_Qlt in H.
    change (- inject_Z n)%Q with (inject_Z (- n)).
    rewrite round_pos_int by lia. rewrite inject_Z_opp. ring.
  - change 0%Q with (inject_Z 0) in H. rewrite <- Zlt_Qlt in H.
    apply round_pos_int. lia.
Qed.

End Binary64Facts.

(** * Facts about the Python base layer *)

Section PyFacts.

Lemma int_nonneg (x : Q) : (0 <= x)%Q -> Py.int x = Qfloor x.
Proof.
  destruct x as [n d]; unfold Qle, Py.int, Qfloor; simpl; intros Hn.
  apply Z.quot_div_nonneg; lia.
Qed.

Lemma length_list_repeat {A} (x : A) (n : Z) :
  List.length (Py.list_repeat x n) = Z.to_nat n.
Proof. unfold Py.list_repeat. apply repeat_length. Qed.

Lemma length_range (a b : Z) : List.length (Py.range a b) = Z.to_nat (b - a).
Proof. unfold Py.range. now rewrite length_map, length_seq. Qed.

Lemma range_cons (a b : Z) : a < b -> Py.range a b = a :: Py.range (a + 1) b.
Proof.
  intros Hab. unfold Py.range.
  replace (Z.to_nat (b - a)) with (S (Z.to_nat (b - (a + 1)))) by lia.
  rewrite <- cons_seq, <- seq_shift, map_cons, map_map.
  f_equal; [lia|]. apply map_ext; intros k; lia.
Qed.

Lemma range_empty (a b : Z) : b <= a -> Py.range a b = [].
Proof.
  intros Hab. unfold Py.range.
  replace (Z.to_nat (b - a)) with 0%nat by lia. reflexivity.
Qed.

Lemma index_in_range {A} (l : list A) (i : Z) :
  0 <= i < Z.of_nat (List.length l) ->
  exists x, Py.index l i = Ok x /\ nth_error l (Z.to_nat i) = Some x.
Proof.
  intros Hi. unfold Py.index.
  destruct (Z.ltb_spec i 0) as [?|_]; [lia|].
  destruct (Z.leb_spec 0 i) as [_|?]; [|lia].
  destruct (Z.ltb_spec i (Z.of_nat (List.length l))) as [_|?]; [|lia].
  simpl. destruct (nth_error l (Z.to_nat i)) as [x|] eqn:E; [eauto|].
  apply nth_error_None in E. lia.
Qed.

End PyFacts.

(** * Facts about utils/data_split_musk.py *)

Section SplitMaskFacts.

Import DataSplitMusk.

Variable rng : Type.
Variable shuffle : rng -> list Z -> list Z * rng.

Local Abbreviation gbs := (generate_binary_sequence rng shuffle).

Lemma ratio_check (zero_ratio : Q) :
  Qle_bool 0 zero_ratio && Qle_bool zero_ratio 1 = true <-> valid_ratio zero_ratio.
Proof.
  unfold valid_ratio. rewrite andb_true_iff, !Qle_bool_iff. tauto.
Qed.

(** With a ratio in range the call returns the shuffled list of zeros
    followed by ones, and advances the generator by one shuffle. *)
Lemma generate_binary_sequence_ok (g : rng) (length : Z) (zero_ratio : Q) :
  valid_ratio zero_ratio ->
  gbs g length zero_ratio =
    let z := Py.int (Py.mul_int_float length zero_ratio) in
    let r := shuffle g (Py.list_repeat 0 z ++ Py.list_repeat 1 (length - z)) in
    (Ok (fst r), snd r).
Proof.
  intros Hr. unfold generate_binary_sequence.
  apply ratio_check in Hr. rewrite Hr. simpl.
  now destruct (shuffle g _).
Qed.

Lemma generate_binary_sequence_raises (g : rng) (length : Z) (zero_ratio : Q) :
  ~ valid_ratio zero_ratio ->
  gbs g length zero_ratio = (Raise ValueError, g).
Proof.
  intros Hr. unfold generate_binary_sequence.
  destruct (Qle_bool 0 zero_ratio && Qle_bool zero_ratio 1) eqn:E; [|reflexivity].
  apply ratio_check in E. contradiction.
Qed.

Section Permuting.

Hypothesis shuffle_perm : forall g l, Permutation l (fst (shuffle g l)).

(** The rounded product of a length and a ratio in range lies between 0 and
    the length. *)
Lemma product_bounds (length : Z) (zero_ratio : Q) :
  0 <= length <= 2 ^ 53 -> valid_ratio zero_ratio ->
  (0 <= Py.mul_int_float length zero_ratio <= inject_Z length)%Q.
Proof.
  intros Hl [H0 H1]. unfold Py.mul_int_float, Py.float.
  assert (HL : (Binary64.round (inject_Z length) == inject_Z length)%Q)
    by (apply round_int; lia).
  assert (Hpos : (0 <= inject_Z length)%Q).
  { change 0%Q with (inject_Z 0). rewrite <- Zle_Qle. lia. }
  split.
  - change 0%Q with (Binary64.round 0) at 1. apply round_mono.
    apply Qmult_le_0_compat; [rewrite HL|]; assumption.
  - apply Qle_trans with (Binary64.round (inject_Z length));
      [|rewrite HL; apply Qle_refl].
    apply round_mono. rewrite HL.
    rewrite <- (Qmult_1_r (inject_Z length)) at 2.
    rewrite !(Qmult_comm (inject_Z length)).
    apply Qmult_le_compat_r; assumption.
Qed.

Lemma zeros_count_floor (length : Z) (zero_ratio : Q) :
  0 <= length <= 2 ^ 53 -> valid_ratio zero_ratio ->
  Py.int (Py.mul_int_float length zero_ratio) =
  Qfloor (Py.mul_int_float length zero_ratio).
Proof.
  intros Hl Hr. apply int_nonneg. now apply product_bounds.
Qed.

Lemma zeros_count_bounds (length : Z) (zero_ratio : Q) :
  0 <= length <= 2 ^ 53 -> valid_ratio zero_ratio ->
  0 <= Qfloor (Py.mul_int_float length zero_ratio) <= length.
Proof.
  intros Hl Hr. destruct (product_bounds length zero_ratio Hl Hr) as [H0 H1].
  split.
  - rewrite <- (Qfloor_Z 0). now apply Qfloor_resp_le.
  - rewrite <- (Qfloor_Z length) at 2. now apply Qfloor_resp_le.
Qed.

Lemma generate_binary_sequence_length (g : rng) (length : Z) (zero_ratio : Q) mask :
  0 <= length <= 2 ^ 53 -> valid_ratio zero_ratio ->
  fst (gbs g length zero_ratio) = Ok mask ->
  List.length mask = Z.to_nat length.
Proof.
  intros Hl Hr. rewrite generate_binary_sequence_ok by assumption. simpl.
  intros [= <-]. rewrite <- (Permutation_length (shuffle_perm g _)).
  rewrite length_app, !length_list_repeat, zeros_count_floor by assumption.
  pose proof (zeros_count_bounds length zero_ratio Hl Hr). lia.
Qed.

Lemma generate_binary_sequence_binary (g : rng) (length : Z) (zero_ratio : Q) mask :
  valid_ratio zero_ratio ->
  fst (gbs g length zero_ratio) = Ok mask ->
  Forall (fun b => b = 0 \/ b = 1) mask.
Proof.
  intros Hr. rewrite generate_binary_sequence_ok by assumption. simpl.
  intros [= <-]. eapply Permutation_Forall; [apply shuffle_perm|].
  unfold Py.list_repeat.
  apply Forall_app; split; apply Forall_forall; intros b Hb;
    apply list_elem_of_In, repeat_spec in Hb; auto.
Qed.

(** C1. For every [length >= 0] (up to [2^53], where integers are still
    floating-point numbers): with [zero_ratio] in [[0, 1]] the call returns a
    sequence of exactly [length] entries, each 0 or 1, of which exactly
    [floor (length * zero_ratio)] are zeros and the remaining
    [length - floor (length * zero_ratio)] are ones, the product being the
    floating-point one; with [zero_ratio] outside [[0, 1]] it raises
    [ValueError] (the spec's InvalidInput). *)
Theorem generate_binary_sequence_spec (g : rng) (length : Z) (zero_ratio : Q) :
  0 <= length <= 2 ^ 53 ->
  (valid_ratio zero_ratio ->
   exists sequence,
     fst (gbs g length zero_ratio) = Ok sequence /\
     List.length sequence = Z.to_nat length /\
     Forall (fun b => b = 0 \/ b = 1) sequence /\
     Z.of_nat (count_occ Z.eq_dec sequence 0) =
       Qfloor (Py.mul_int_float length zero_ratio) /\
     Z.of_nat (count_occ Z.eq_dec sequence 1) =
       length - Qfloor (Py.mul_int_float length zero_ratio)) /\
  (~ valid_ratio zero_ratio ->
   fst (gbs g length zero_ratio) = Raise ValueError).
Proof.
  intros Hl. split.
  - intros Hr.
    pose proof (zeros_count_bounds length zero_ratio Hl Hr) as Hb.
    pose proof (generate_binary_sequence_ok g length zero_ratio Hr) as Hok.
    simpl in Hok. rewrite zeros_count_floor in Hok by assumption.
    set (z := Qfloor (Py.mul_int_float length zero_ratio)) in *.
    set (pre := Py.list_repeat 0 z ++ Py.list_repeat 1 (length - z)) in *.
    pose proof (shuffle_perm g pre) as Hp.
    exists (fst (shuffle g pre)). rewrite Hok. simpl.
    split; [reflexivity|]. split; [|split; [|split]].
    + rewrite <- (Permutation_length Hp). unfold pre.
      rewrite length_app, !length_list_repeat. lia.
    + eapply Permutation_Forall; [exact Hp|]. unfold pre, Py.list_repeat.
      apply Forall_app; split; apply Forall_forall; intros b Hb';
        apply list_elem_of_In, repeat_spec in Hb'; auto.
    + rewrite <- (proj1 (Permutation_count_occ Z.eq_dec _ _) Hp 0).
      unfold pre, Py.list_repeat. rewrite count_occ_app.
      rewrite count_occ_repeat_eq by reflexivity.
      rewrite count_occ_repeat_neq by discriminate. lia.
    + rewrite <- (proj1 (Permutation_count_occ Z.eq_dec _ _) Hp 1).
      unfold pre, Py.list_repeat. rewrite count_occ_app.
      rewrite count_occ_repeat_neq by discriminate.
      rewrite count_occ_repeat_eq by reflexivity. lia.
  - intros Hr. now rewrite generate_binary_sequence_raises.
Qed.

End Permuting.

End SplitMaskFacts.

Lemma sample_shuffle_perm (g : unit) (l : list Z) :
  Permutation l (fst (Sample.shuffle g l)).
Proof. apply Permutation_rev. Qed.

(** The products of two calls as the machine computes them:
    [int(10 * 0.3)] is 3 although the float [0.3] lies below three tenths,
    and [int(100 * 0.29)] is 28. *)
Lemma sample_zero_counts :
  Py.int (Py.mul_int_float 10 (Binary64.round 0.3)) = 3 /\
  (10 * Binary64.round 0.3 < 3)%Q /\
  Py.int (Py.mul_int_float 100 (Binary64.round 0.29)) = 28.
Proof. repeat split. Qed.

(** The theorem at [generate_binary_sequence(10, 0.3)] and at
    [generate_binary_sequence(10, 1.5)], the ratios being the floats of these
    literals, with list reversal for the shuffle. *)
Lemma generate_binary_sequence_spec_witness :
  (exists sequence,
     fst (DataSplitMusk.generate_binary_sequence unit Sample.shuffle
            tt 10 (Binary64.round 0.3)) = Ok sequence /\
     List.length sequence = 10%nat /\
     Z.of_nat (count_occ Z.eq_dec sequence 0) = 3 /\
     Z.of_nat (count_occ Z.eq_dec sequence 1) = 7) /\
  fst (DataSplitMusk.generate_binary_sequence unit Sample.shuffle
         tt 10 (Binary64.round 1.5)) = Raise ValueError.
Proof.
  split.
  - destruct (generate_binary_sequence_spec unit Sample.shuffle
                sample_shuffle_perm tt 10 (Binary64.round 0.3))
      as [Hok _]; [lia|].
    destruct Hok as (sequence & Hs & Hlen & _ & H0 & H1).
    { split; vm_compute; discriminate. }
    exists sequence. repeat split; assumption.
  - destruct (generate_binary_sequence_spec unit Sample.shuffle
                sample_shuffle_perm tt 10 (Binary64.round 1.5))
      as [_ Hraise]; [lia|].
    apply Hraise. intros [_ H]. vm_compute in H. apply H. reflexivity.
Defined.

(** * Facts about tensors and the sigmoid *)

Section PaddleFacts.

Lemma sigmoid_range (x : R) : (0 < sigmoid x < 1)%R.
Proof.
  unfold sigmoid. pose proof (exp_pos (- x)) as He.
  split.
  - apply Rinv_0_lt_compat. lra.
  - rewrite <- Rinv_1. apply Rinv_lt_contravar; lra.
Qed.

Lemma sigmoid_0 : sigmoid 0 = 0.5%R.
Proof. unfold sigmoid. rewrite Ropp_0, exp_0. lra. Qed.

Lemma gt_threshold_true (threshold p : R) :
  gt_threshold threshold p = true <-> (threshold < p)%R.
Proof.
  unfold gt_threshold. destruct (Rlt_dec threshold p); split;
    intros; try assumption; try reflexivity; try discriminate; contradiction.
Qed.

Lemma gt_threshold_false (threshold p : R) :
  gt_threshold threshold p = false <-> (p <= threshold)%R.
Proof.
  unfold gt_threshold. destruct (Rlt_dec threshold p); split;
    intros; try reflexivity; try discriminate; lra.
Qed.

Lemma sum_b2r (l : list bool) :
  fold_right Rplus 0%R (map b2r l) =
  INR (List.length (List.filter (fun b : bool => b) l)).
Proof.
  induction l as [|b l IH]; [reflexivity|].
  cbn [map fold_right List.filter]. rewrite IH.
  destruct b; cbn [b2r]; [|lra].
  cbn [List.length]. rewrite S_INR. lra.
Qed.

Lemma tzip_same_shape {A B C} (f : A -> B -> C) (a : tensor A) (b : tensor B) :
  shape a = shape b ->
  tzip f a b = Ok (Tensor (shape a) (zip_with f (data a) (data b))).
Proof. intros H. unfold tzip. now rewrite decide_True. Qed.

Lemma numel_squeezed (n h w : nat) : numel [n; 1%nat; h; w] = numel [n; h; w].
Proof. unfold numel. simpl. lia. Qed.

End PaddleFacts.

(** * Facts about utils/metrics.py *)

Section MetricsFacts.

Import Metrics.

Lemma pixelwise_length (scores : tensor R) (label : tensor Z) :
  pixelwise scores label -> List.length (data scores) = List.length (data label).
Proof.
  intros (Hs & Hl & n & h & w & El & [Es|Es]); unfold wf in *;
    rewrite Hs, Hl, Es, El; [apply numel_squeezed|reflexivity].
Qed.

Lemma valid_mask_sum (ignore_index : Z) (label : list Z) :
  fold_right Rplus 0%R (map b2r (map (is_valid ignore_index) label)) =
  INR (valid_count ignore_index label).
Proof.
  unfold valid_count. induction label as [|y label IH]; [reflexivity|].
  cbn [map fold_right List.filter]. rewrite IH.
  destruct (is_valid ignore_index y); cbn [b2r List.length];
    [rewrite S_INR|]; lra.
Qed.

Lemma valid_count_pos (ignore_index : Z) (label : list Z) :
  (0 < INR (valid_count ignore_index label))%R <->
  (0 < valid_count ignore_index label)%nat.
Proof.
  split; intros H.
  - apply INR_lt. exact H.
  - apply lt_0_INR. exact H.
Qed.

Lemma correct_sum (threshold : R) (ignore_index : Z) (xs : list R) (ys : list Z) :
  fold_right Rplus 0%R
    (map b2r
       (zip_with andb
          (zip_with Z.eqb
             (map (fun p => if gt_threshold threshold p then 1 else 0)
                (map sigmoid xs)) ys)
          (map (is_valid ignore_index) ys))) =
  INR (correct_count threshold ignore_index xs ys).
Proof.
  unfold correct_count. revert ys.
  induction xs as [|x xs IH]; intros [|y ys]; try reflexivity.
  cbn [map zip_with fold_right combine List.filter fst snd]. rewrite IH.
  unfold hard_prediction.
  destruct (is_valid ignore_index y),
    ((if gt_threshold threshold (sigmoid x) then 1 else 0) =? y);
    cbn [andb b2r List.length]; try rewrite S_INR; lra.
Qed.

(** Changing the scores at ignored pixels does not change the count of
    correct pixels. *)
Lemma correct_count_ext (threshold : R) (ignore_index : Z)
  (xs xs' : list R) (ys : list Z) :
  List.length xs = List.length xs' ->
  (forall i x x' y,
     nth_error xs i = Some x -> nth_error xs' i = Some x' ->
     nth_error ys i = Some y -> y <> ignore_index -> x = x') ->
  correct_count threshold ignore_index xs ys =
  correct_count threshold ignore_index xs' ys.
Proof.
  unfold correct_count. revert xs' ys.
  induction xs as [|x xs IH]; intros [|x' xs'] ys Hlen Hagree;
    try discriminate; [reflexivity|].
  destruct ys as [|y ys]; [reflexivity|].
  cbn [combine List.filter fst snd].
  assert (IH' : List.length
                  (List.filter
                     (fun xy => is_valid ignore_index (snd xy)
                                && (hard_prediction threshold (fst xy) =? snd xy))
                     (combine xs ys)) =
                List.length
                  (List.filter
                     (fun xy => is_valid ignore_index (snd xy)
                                && (hard_prediction threshold (fst xy) =? snd xy))
                     (combine xs' ys))).
  { apply IH; [now injection Hlen|].
    intros i a a' b Ha Ha' Hb. apply (Hagree (S i)); assumption. }
  destruct (is_valid ignore_index y) eqn:Ey; cbn [andb]; [|exact IH'].
  assert (Hy : y <> ignore_index).
  { unfold is_valid in Ey. apply negb_true_iff, Z.eqb_neq in Ey. exact Ey. }
  rewrite (Hagree 0%nat x x' y eq_refl eq_refl eq_refl Hy).
  destruct (hard_prediction threshold x' =? y); cbn [List.length];
    [f_equal|]; exact IH'.
Qed.

(** When every non-ignored pixel is predicted correctly, the two counts
    coincide. *)
Lemma correct_count_all (threshold : R) (ignore_index : Z)
  (xs : list R) (ys : list Z) :
  List.length xs = List.length ys ->
  (forall i x y,
     nth_error xs i = Some x -> nth_error ys i = Some y ->
     y <> ignore_index -> hard_prediction threshold x = y) ->
  correct_count threshold ignore_index xs ys = valid_count ignore_index ys.
Proof.
  unfold correct_count, valid_count. revert ys.
  induction xs as [|x xs IH]; intros [|y ys] Hlen Hall;
    try discriminate; [reflexivity|].
  cbn [combine List.filter fst snd].
  assert (IH' : List.length
                  (List.filter
                     (fun xy => is_valid ignore_index (snd xy)
                                && (hard_prediction threshold (fst xy) =? snd xy))
                     (combine xs ys)) =
                List.length (List.filter (is_valid ignore_index) ys)).
  { apply IH; [now injection Hlen|].
    intros i a b Ha Hb. apply (Hall (S i)); assumption. }
  destruct (is_valid ignore_index y) eqn:Ey; cbn [andb]; [|exact IH'].
  assert (Hy : y <> ignore_index).
  { unfold is_valid in Ey. apply negb_true_iff, Z.eqb_neq in Ey. exact Ey. }
  rewrite (Hall 0%nat x y eq_refl eq_refl Hy), Z.eqb_refl.
  cbn [List.length]. f_equal. exact IH'.
Qed.

(** The value of [pixel_binary_accuracy] on inputs of the documented shapes. *)
Lemma pixel_binary_accuracy_value (pred : tensor R) (label : tensor Z)
  (threshold : R) (ignore_index : Z) :
  pixelwise pred label ->
  pixel_binary_accuracy pred label threshold ignore_index =
  Ok (scalar
        (match valid_count ignore_index (data label) with
         | O => 0
         | S _ =>
             INR (correct_count threshold ignore_index (data pred) (data label))
             / INR (valid_count ignore_index (data label))
         end)%R).
Proof.
  intros (_ & _ & n & h & w & El & Es).
  unfold pixel_binary_accuracy.
  set (pred' := if (List.length (shape pred) =? 4)%nat then squeeze1 pred else pred).
  assert (Hp : shape pred' = shape label /\ data pred' = data pred).
  { unfold pred', squeeze1. destruct Es as [Es|Es]; rewrite Es, El; auto. }
  destruct Hp as [Hsh Hd].
  rewrite tzip_same_shape by (cbn; exact Hsh). cbn [Py.bind].
  rewrite tzip_same_shape by (cbn; exact Hsh). cbn [Py.bind].
  unfold sum, tmap, binary_pred, tmap. cbn [data shape]. rewrite Hd.
  change (fun y => negb (y =? ignore_index)) with (is_valid ignore_index).
  rewrite valid_mask_sum, correct_sum.
  destruct (Rlt_dec 0 (INR (valid_count ignore_index (data label)))) as [Hpos|Hz].
  - apply valid_count_pos in Hpos.
    destruct (valid_count ignore_index (data label)); [lia|reflexivity].
  - destruct (valid_count ignore_index (data label)) eqn:E; [reflexivity|].
    exfalso. apply Hz. rewrite <- E. apply valid_count_pos. lia.
Qed.

End MetricsFacts.

(** C7. On scores and labels of the documented shapes,
    [pixel_binary_accuracy] is the number of non-ignored pixels whose
    thresholded sigmoid equals the label, divided by the number of non-ignored
    pixels; replacing the scores at ignored pixels leaves the value unchanged;
    when every non-ignored pixel is predicted correctly the value is exactly
    1; and when every pixel is ignored the value is exactly 0, without a
    division. *)
Theorem pixel_binary_accuracy_spec (pred : tensor R) (label : tensor Z)
  (threshold : R) (ignore_index : Z) :
  Metrics.pixelwise pred label ->
  let valid := Metrics.valid_count ignore_index (data label) in
  let correct :=
    Metrics.correct_count threshold ignore_index (data pred) (data label) in
  let acc := Metrics.pixel_binary_accuracy pred label threshold ignore_index in
  ((0 < valid)%nat -> acc = Ok (scalar (INR correct / INR valid))) /\
  (forall pred' : tensor R,
     Metrics.pixelwise pred' label ->
     (forall i x x' y,
        nth_error (data pred) i = Some x ->
        nth_error (data pred') i = Some x' ->
        nth_error (data label) i = Some y ->
        y <> ignore_index -> x = x') ->
     Metrics.pixel_binary_accuracy pred' label threshold ignore_index = acc) /\
  ((0 < valid)%nat ->
   (forall i x y,
      nth_error (data pred) i = Some x ->
      nth_error (data label) i = Some y ->
      y <> ignore_index -> Metrics.hard_prediction threshold x = y) ->
   acc = Ok (scalar 1)) /\
  (valid = 0%nat -> acc = Ok (scalar 0)).
Proof.
  intros Hpw valid correct acc.
  pose proof (pixel_binary_accuracy_value pred label threshold ignore_index Hpw)
    as Hacc.
  fold valid correct acc in Hacc.
  repeat split.
  - intros Hpos. rewrite Hacc. destruct valid; [lia|reflexivity].
  - intros pred' Hpw' Hagree. unfold acc.
    rewrite !pixel_binary_accuracy_value by assumption.
    rewrite (correct_count_ext threshold ignore_index (data pred) (data pred'));
      [reflexivity| |exact Hagree].
    now rewrite (pixelwise_length pred label), (pixelwise_length pred' label).
  - intros Hpos Hall. rewrite Hacc. unfold correct.
    rewrite correct_count_all;
      [|now apply pixelwise_length|exact Hall].
    fold valid. destruct valid as [|v] eqn:E; [lia|].
    do 2 f_equal. apply Rdiv_diag. apply not_0_INR. lia.
  - intros Hz. rewrite Hacc, Hz. reflexivity.
Qed.

(** The theorem with the default threshold and sentinel on a two-pixel
    prediction: scores 0 against the labels 0 and 255 (the one counted pixel
    is classified 0, correctly), and against two ignored pixels. *)
Lemma pixel_binary_accuracy_spec_witness :
  Metrics.pixel_binary_accuracy
    (Tensor [1; 1; 1; 2]%nat [0; 0]%R) (Tensor [1; 1; 2]%nat [0; 255])
    Metrics.default_threshold Metrics.default_ignore_index = Ok (scalar 1) /\
  Metrics.pixel_binary_accuracy
    (Tensor [1; 1; 1; 2]%nat [0; 0]%R) (Tensor [1; 1; 2]%nat [255; 255])
    Metrics.default_threshold Metrics.default_ignore_index = Ok (scalar 0).
Proof.
  assert (Hpw : forall l,
             List.length l = 2%nat ->
             Metrics.pixelwise (Tensor [1; 1; 1; 2]%nat [0; 0]%R)
               (Tensor [1; 1; 2]%nat l)).
  { intros l Hl. split; [reflexivity|]. split; [exact Hl|].
    exists 1%nat, 1%nat, 2%nat. split; [reflexivity|left; reflexivity]. }
  split.
  - destruct (pixel_binary_accuracy_spec
                (Tensor [1; 1; 1; 2]%nat [0; 0]%R) (Tensor [1; 1; 2]%nat [0; 255])
                Metrics.default_threshold Metrics.default_ignore_index
                (Hpw [0; 255] eq_refl)) as (_ & _ & Hone & _).
    apply Hone.
    + cbn. lia.
    + intros i x y Hx Hy Hne. cbn [data] in Hx, Hy.
      destruct i as [|[|i]]; cbn in Hx, Hy.
      * injection Hx as <-. injection Hy as <-.
        unfold Metrics.hard_prediction, Metrics.default_threshold.
        rewrite sigmoid_0.
        now rewrite (proj2 (gt_threshold_false 0.5 0.5)) by lra.
      * injection Hy as <-. contradiction.
      * destruct i; discriminate.
  - destruct (pixel_binary_accuracy_spec
                (Tensor [1; 1; 1; 2]%nat [0; 0]%R) (Tensor [1; 1; 2]%nat [255; 255])
                Metrics.default_threshold Metrics.default_ignore_index
                (Hpw [255; 255] eq_refl)) as (_ & _ & _ & Hzero).
    apply Hzero. reflexivity.
Defined.

Section LossFacts.

Import Metrics.

Variable binary_cross_entropy : R -> R -> R.

Lemma ignore_mask_sum (ignore_index : Z) (label : list Z) :
  fold_right Rplus 0%R
    (map (fun y => if y =? ignore_index then 0%R else 1%R) label) =
  INR (valid_count ignore_index label).
Proof.
  unfold valid_count, is_valid.
  induction label as [|y label IH]; [reflexivity|].
  cbn [map fold_right List.filter]. rewrite IH.
  destruct (y =? ignore_index); cbn [negb List.length];
    [|rewrite S_INR]; lra.
Qed.

Lemma masked_loss (ignore_index : Z) (xs : list R) (ys : list Z) :
  fold_right Rplus 0%R
    (zip_with Rmult
       (zip_with binary_cross_entropy (map sigmoid xs) (map IZR ys))
       (map (fun y => if y =? ignore_index then 0%R else 1%R) ys)) =
  masked_loss_sum binary_cross_entropy ignore_index xs ys.
Proof.
  unfold masked_loss_sum, is_valid. revert ys.
  induction xs as [|x xs IH]; intros [|y ys]; try reflexivity.
  cbn [map zip_with fold_right combine List.filter fst snd]. rewrite IH.
  destruct (y =? ignore_index); cbn [negb map fold_right fst snd]; lra.
Qed.

Lemma valid_count_all_ignored (ignore_index : Z) (label : list Z) :
  Forall (fun y => y = ignore_index) label ->
  valid_count ignore_index label = 0%nat.
Proof.
  unfold valid_count, is_valid. induction 1 as [|y label Hy _ IH];
    [reflexivity|].
  cbn [List.filter]. subst y. now rewrite Z.eqb_refl.
Qed.

End LossFacts.

(** * Facts about the loss on floating-point entries *)

Section FloatLossFacts.

Import Float MetricsFloat.

Variable binary_cross_entropy : float -> float -> float.
Variable broadcast_multiply :
  tensor float -> tensor float -> result (tensor float).

(** The library's element-wise loss is a finite number on a probability and
    a finite target: it cuts its logarithms off at -100. *)
Hypothesis bce_finite :
  forall p y : R,
    (0 <= p <= 1)%R -> finite (binary_cross_entropy (Fin p) (Fin y)).

Local Abbreviation forward :=
  (MetricsFloat.forward binary_cross_entropy broadcast_multiply).
Local Abbreviation mask_entry :=
  (fun ignore_index y => if y =? ignore_index then Fin 0 else Fin 1).

Lemma finite_Fin (a : float) : finite a -> a = Fin (to_R a).
Proof. destruct a; intros H; try contradiction. reflexivity. Qed.

Lemma finite_map (l : list float) :
  Forall finite l -> l = map Fin (map to_R l).
Proof.
  induction 1 as [|a l Ha _ IH]; [reflexivity|].
  cbn [map]. now rewrite <- IH, <- finite_Fin.
Qed.

Lemma sum_Fin (l : list R) :
  fold_right add (Fin 0) (map Fin l) = Fin (fold_right Rplus 0%R l).
Proof.
  induction l as [|x l IH]; [reflexivity|].
  cbn [map fold_right]. now rewrite IH.
Qed.

Lemma float_mask_sum (ignore_index : Z) (label : list Z) :
  fold_right add (Fin 0) (map (mask_entry ignore_index) label) =
  Fin (INR (Metrics.valid_count ignore_index label)).
Proof.
  unfold Metrics.valid_count, Metrics.is_valid.
  induction label as [|y label IH]; [reflexivity|].
  cbn [map fold_right List.filter]. rewrite IH.
  destruct (y =? ignore_index); cbn [negb List.length add]; f_equal;
    [|rewrite S_INR]; lra.
Qed.

(** The masked element-wise loss of finite scores is finite, entry by
    entry. *)
Lemma float_masked_entries (ignore_index : Z) (xs : list float) (ys : list Z) :
  Forall finite xs ->
  zip_with mul
    (zip_with binary_cross_entropy (map sigmoid xs)
       (map (fun y => Fin (IZR y)) ys))
    (map (mask_entry ignore_index) ys) =
  map Fin
    (zip_with
       (fun x y =>
          if y =? ignore_index then 0%R
          else to_R (binary_cross_entropy (sigmoid x) (Fin (IZR y))))
       xs ys).
Proof.
  intros Hfin. revert ys.
  induction Hfin as [|x xs Hx _ IH]; intros [|y ys]; try reflexivity.
  cbn [map zip_with]. rewrite IH. f_equal.
  destruct x as [r| | |]; try contradiction. cbn [sigmoid].
  pose proof (sigmoid_range r) as Hr.
  pose proof (bce_finite (Paddle.sigmoid r) (IZR y) ltac:(lra)) as Hb.
  apply finite_Fin in Hb. rewrite Hb. cbn [to_R].
  destruct (y =? ignore_index); cbn [mul]; f_equal; ring.
Qed.

Lemma zip_with_repeat_r {A B C} (f : A -> B -> C) (l : list A) (c : B) :
  zip_with f l (repeat c (List.length l)) = map (fun x => f x c) l.
Proof.
  induction l as [|x l IH]; [reflexivity|].
  cbn [List.length repeat zip_with map]. now rewrite IH.
Qed.

Lemma zip_with_Fin (l k : list R) :
  zip_with mul (map Fin l) (map Fin k) = map Fin (zip_with Rmult l k).
Proof.
  revert k. induction l as [|x l IH]; intros [|y k]; try reflexivity.
  cbn [map zip_with mul]. now rewrite IH.
Qed.

(** Multiplying finite entries by a plain weight. *)
Lemma float_weighted (weight : option (tensor float)) (label : tensor Z)
  (losses : list R) :
  plain_weight weight label ->
  wf label ->
  List.length (shape label) = 3%nat ->
  List.length losses = List.length (data label) ->
  match weight with
  | Some w =>
      mul_weight broadcast_multiply (Tensor (shape label) (map Fin losses)) w
  | None => Ok (Tensor (shape label) (map Fin losses))
  end =
  Ok (Tensor (shape label)
        (map Fin
           (zip_with Rmult losses
              (pixel_weights weight (List.length (data label)))))).
Proof.
  intros Hw Hwf Hrank Hlen. destruct weight as [w|]; cbn [plain_weight] in Hw.
  - destruct Hw as (Hfin & Hwfw & Hshape).
    unfold mul_weight. cbn [shape data].
    destruct (decide (shape w = shape label)) as [E|NE].
    + rewrite tzip_same_shape by (cbn [shape]; now symmetry).
      cbn [shape data]. do 2 f_equal.
      rewrite (finite_map (data w) Hfin), zip_with_Fin. do 2 f_equal.
      unfold pixel_weights.
      assert (Hn : List.length (data w) = List.length (data label)).
      { unfold wf in Hwfw, Hwf. now rewrite Hwfw, Hwf, E. }
      destruct (data w) as [|c [|c' rest]] eqn:Ed; try reflexivity.
      cbn [List.length] in Hn. rewrite <- Hn. reflexivity.
    + destruct Hshape as [E|[[c Hc] Hr]]; [contradiction|].
      rewrite Hc. rewrite Hrank.
      destruct (Nat.leb_spec (List.length (shape w)) 3) as [_|?]; [|lia].
      unfold tmap. cbn [shape data]. do 2 f_equal.
      unfold pixel_weights. rewrite Hc, <- Hlen, zip_with_repeat_r, !map_map.
      apply map_ext. intros x.
      rewrite Hc in Hfin. apply List.Forall_cons_iff in Hfin as [Hcf _].
      rewrite (finite_Fin c Hcf) at 1. reflexivity.
  - unfold pixel_weights. rewrite <- Hlen, zip_with_repeat_r.
    rewrite (map_ext (fun x => (x * 1)%R) (fun x => x)) by (intros; lra).
    now rewrite map_id.
Qed.

Lemma float_pixelwise_length (scores : tensor float) (label : tensor Z) :
  pixelwise scores label ->
  List.length (data scores) = List.length (data label).
Proof.
  intros (Hs & Hl & n & h & w & El & [Es|Es]); unfold wf in *;
    rewrite Hs, Hl, Es, El; [apply numel_squeezed|reflexivity].
Qed.

Lemma zip_with_length {A B C} (f : A -> B -> C) (l : list A) (k : list B) :
  List.length l = List.length k ->
  List.length (zip_with f l k) = List.length l.
Proof.
  revert k. induction l as [|x l IH]; intros [|y k] H; try discriminate;
    [reflexivity|].
  cbn [zip_with List.length]. f_equal. apply IH. now injection H.
Qed.

Lemma pixel_weights_length (weight : option (tensor float)) (label : tensor Z) :
  plain_weight weight label ->
  wf label ->
  List.length (pixel_weights weight (List.length (data label))) =
  List.length (data label).
Proof.
  intros Hw Hwf. unfold pixel_weights.
  destruct weight as [w|]; [|apply repeat_length].
  destruct Hw as (_ & Hwfw & [E|[[c Hc] _]]).
  - assert (Hn : List.length (data w) = List.length (data label)).
    { unfold wf in Hwfw, Hwf. now rewrite Hwfw, Hwf, E. }
    destruct (data w) as [|c [|c' rest]]; [exact Hn|apply repeat_length|].
    now rewrite length_map.
  - rewrite Hc. apply repeat_length.
Qed.

Lemma pixel_losses_length (ignore_index : Z) (weight : option (tensor float))
  (logits : list float) (label : tensor Z) :
  plain_weight weight label ->
  wf label ->
  List.length logits = List.length (data label) ->
  List.length
    (pixel_losses binary_cross_entropy ignore_index weight logits (data label))
  = List.length (data label).
Proof.
  intros Hw Hwf Hlen. unfold pixel_losses.
  rewrite zip_with_length; rewrite zip_with_length by exact Hlen;
    [exact Hlen|].
  rewrite pixel_weights_length by assumption. exact Hlen.
Qed.

(** What [forward] computes with [reduction='mean'] on finite scores and a
    plain weight. *)
Lemma forward_mean_cases (self : PixelBinaryCrossEntropyLoss)
  (logits : tensor float) (label : tensor Z) :
  reduction self = "mean" ->
  pixelwise logits label ->
  Forall finite (data logits) ->
  plain_weight (weight self) label ->
  forward self logits label =
  if gt (Fin (INR (Metrics.valid_count (ignore_index self) (data label))))
       (Fin 0)
  then Ok (Tensor []
             [div (Fin (masked_loss_sum binary_cross_entropy
                          (ignore_index self) (weight self)
                          (data logits) (data label)))
                (Fin (INR (Metrics.valid_count (ignore_index self)
                             (data label))))])
  else Ok (Tensor []
             [mul (div (Fin (masked_loss_sum binary_cross_entropy
                               (ignore_index self) (weight self)
                               (data logits) (data label)))
                     (Fin (INR (List.length (data label)))))
                (Fin 0)]).
Proof.
  intros Hred Hpw Hfin Hw.
  pose proof (float_pixelwise_length logits label Hpw) as Hlen.
  destruct Hpw as (_ & Hwf & n & h & w & El & Es).
  pose proof (pixel_losses_length (ignore_index self) (weight self)
                (data logits) label Hw Hwf Hlen) as Hlosses.
  unfold MetricsFloat.forward.
  set (logits' :=
         if (List.length (shape logits) =? 4)%nat
            && (nth 1 (shape logits) 0 =? 1)%nat
         then squeeze1 logits else logits).
  assert (Hp : shape logits' = shape label /\ data logits' = data logits).
  { unfold logits', squeeze1. destruct Es as [Es|Es]; rewrite Es, El; auto. }
  destruct Hp as [Hsh Hd].
  rewrite tzip_same_shape by (cbn; exact Hsh). cbn [Py.bind].
  rewrite tzip_same_shape by (cbn; exact Hsh). cbn [Py.bind].
  unfold tmap. cbn [shape data]. rewrite Hd, Hsh.
  rewrite (float_masked_entries (ignore_index self) _ _ Hfin).
  rewrite (float_weighted (weight self) label _ Hw Hwf);
    [|now rewrite El|now rewrite zip_with_length].
  cbn [Py.bind]. rewrite Hred. cbn [String.eqb Ascii.eqb Bool.eqb].
  unfold mean, sum. cbn [data shape].
  rewrite float_mask_sum, !sum_Fin, length_map.
  fold (pixel_losses binary_cross_entropy (ignore_index self) (weight self)
          (data logits) (data label)).
  rewrite Hlosses. reflexivity.
Qed.


End FloatLossFacts.


(** * Facts about the segmentation head of model.py *)

Section HeadFacts.

Variable conv : tensor R -> tensor R.

Lemma forward_soft (x : tensor R) (threshold : R) :
  Model.forward conv x false threshold = tmap sigmoid (conv x).
Proof. reflexivity. Qed.

Lemma forward_hard (x : tensor R) (threshold : R) :
  Model.forward conv x true threshold =
  tmap (fun p => b2r (gt_threshold threshold p)) (tmap sigmoid (conv x)).
Proof. reflexivity. Qed.

Lemma threshold_at_b2r (threshold p : R) :
  Model.threshold_at threshold p = b2r (gt_threshold threshold p).
Proof.
  unfold Model.threshold_at, gt_threshold.
  now destruct (Rlt_dec threshold p).
Qed.

(** C8. For a head with fixed weights and any input, the output with
    [hard_labels=True] at the default threshold is the element-wise
    threshold-at-0.5 of the output with [hard_labels=False]; every entry of
    the hard output is 0 or 1 and every entry of the soft output lies in
    [[0, 1]]. *)
Theorem hard_labels_threshold_soft (x : tensor R) :
  Model.forward conv x true Model.default_threshold =
    tmap (Model.threshold_at 0.5)
      (Model.forward conv x false Model.default_threshold) /\
  Forall (fun v => v = 0%R \/ v = 1%R)
    (data (Model.forward conv x true Model.default_threshold)) /\
  Forall (fun p => (0 <= p <= 1)%R)
    (data (Model.forward conv x false Model.default_threshold)).
Proof.
  rewrite forward_hard, forward_soft. unfold tmap. cbn [data shape].
  split; [|split].
  - f_equal. apply map_ext. intros p. symmetry. apply threshold_at_b2r.
  - rewrite List.Forall_forall. intros v Hv.
    apply in_map_iff in Hv as (p & <- & _).
    destruct (gt_threshold Model.default_threshold p); cbn; auto.
  - rewrite List.Forall_forall. intros p Hp.
    apply in_map_iff in Hp as (z & <- & _).
    pose proof (sigmoid_range z). lra.
Qed.

End HeadFacts.



(** * Facts about utils/dataloader.py *)

Section DatasetFacts.

Import Dataloader.

Variable field : Type.
Variable field_shape : field -> nat * nat.
Variable float32 : field -> field.
Variable timestamp : Type.

Lemma mapM_Forall2 {A B} (f : A -> result B) (P : A -> B -> Prop) (l : list A) :
  (forall x, In x l -> exists y, f x = Ok y /\ P x y) ->
  exists ys, Py.mapM f l = Ok ys /\ Forall2 P l ys.
Proof.
  induction l as [|x l IH]; intros H.
  - exists []. split; [reflexivity|constructor].
  - destruct (H x (or_introl eq_refl)) as (y & Hy & HP).
    destruct IH as (ys & Hys & HF).
    { intros x' Hx'. apply H. now right. }
    exists (y :: ys). cbn [Py.mapM]. rewrite Hy. cbn [Py.bind].
    rewrite Hys. cbn [Py.bind]. split; [reflexivity|now constructor].
Qed.

Lemma getitem_var_in (vars : list (string * list field)) (var_name : string) :
  In var_name (map fst vars) ->
  exists series,
    getitem_var vars var_name = Ok series /\ In (var_name, series) vars.
Proof.
  induction vars as [|[k series] vars IH]; intros Hin; [destruct Hin|].
  cbn [getitem_var]. destruct (String.eqb_spec k var_name) as [->|Hne].
  - exists series. split; [reflexivity|now left].
  - destruct Hin as [Hk|Hin]; [cbn in Hk; contradiction|].
    destruct (IH Hin) as (s & Hs & Hs'). exists s. split; [exact Hs|now right].
Qed.

Lemma validate_variables_in (user_variables : option (list string))
  (dataset : archive field timestamp) (variables : list string) :
  _validate_variables user_variables dataset = Ok variables ->
  forall var_name, In var_name variables ->
    In var_name (map fst (data_vars dataset)).
Proof.
  unfold _validate_variables. destruct user_variables as [vars|].
  - destruct (forallb _ vars) eqn:E; [|discriminate].
    intros [= <-] var_name Hin.
    rewrite forallb_forall in E. specialize (E var_name Hin).
    apply existsb_exists in E as (k & Hk & Heq).
    apply String.eqb_eq in Heq. now subst k.
  - now intros [= <-].
Qed.

Lemma isel_covered (dataset : archive field timestamp) (steps : nat)
  (grid : nat * nat) (var_name : string) (t : Z) :
  covers field_shape dataset steps grid ->
  In var_name (map fst (data_vars dataset)) ->
  0 <= t < Z.of_nat steps ->
  exists f,
    isel dataset var_name t = Ok f /\
    field_at dataset t var_name f /\ field_shape f = grid.
Proof.
  intros Hcov Hin Ht.
  destruct (getitem_var_in _ _ Hin) as (series & Hget & Hmem).
  destruct (Hcov _ _ Hmem) as [Hlen Hgrid].
  destruct (index_in_range series t) as (f & Hidx & Hnth); [lia|].
  exists f. unfold isel. rewrite Hget. cbn [Py.bind].
  split; [exact Hidx|]. split.
  - exists series. repeat split; [exact Hget|lia|exact Hnth].
  - rewrite List.Forall_forall in Hgrid. apply Hgrid.
    eapply nth_error_In. exact Hnth.
Qed.

Lemma np_stack_ok (arrays : list field) (grid : nat * nat) :
  arrays <> [] -> Forall (fun f => field_shape f = grid) arrays ->
  np_stack field_shape arrays = Ok arrays.
Proof.
  destruct arrays as [|a rest]; [congruence|]. intros _ Hall.
  unfold np_stack. apply List.Forall_cons_iff in Hall as [Ha Hrest].
  replace (forallb _ rest) with true; [reflexivity|].
  symmetry. apply forallb_forall. intros b Hb.
  rewrite List.Forall_forall in Hrest.
  apply bool_decide_eq_true. rewrite Ha. now apply Hrest.
Qed.

Lemma np_concatenate_ok (blocks : list (list field)) (grid : nat * nat) :
  blocks <> [] ->
  Forall (fun b => b <> [] /\ Forall (fun f => field_shape f = grid) b) blocks ->
  np_concatenate field_shape blocks = Ok (concat blocks).
Proof.
  assert (Hshape : forall b,
             b <> [] /\ Forall (fun f => field_shape f = grid) b ->
             block_shape field_shape b = Some grid).
  { intros [|f b] [Hne Hall]; [congruence|].
    apply List.Forall_cons_iff in Hall as [Hf _]. cbn. now rewrite Hf. }
  destruct blocks as [|b rest]; [congruence|]. intros _ Hall.
  unfold np_concatenate. apply List.Forall_cons_iff in Hall as [Hb Hrest].
  replace (forallb _ rest) with true; [reflexivity|].
  symmetry. apply forallb_forall. intros c Hc.
  rewrite List.Forall_forall in Hrest.
  apply bool_decide_eq_true. rewrite (Hshape b Hb). apply Hshape. now apply Hrest.
Qed.

Lemma length_concat_uniform {A} (blocks : list (list A)) (n : nat) :
  Forall (fun b => List.length b = n) blocks ->
  List.length (concat blocks) = (List.length blocks * n)%nat.
Proof.
  induction 1 as [|b blocks Hb _ IH]; [reflexivity|].
  cbn [concat List.length]. rewrite length_app, IH, Hb. lia.
Qed.

Lemma in_range (a b i : Z) : In i (Py.range a b) -> a <= i < b.
Proof.
  unfold Py.range. intros Hin. apply in_map_iff in Hin as (k & <- & Hk).
  apply in_seq in Hk. lia.
Qed.

Lemma init_inv (nc_file1 nc_file2 : archive field timestamp)
  (npy_file : list field) (nc1 nc2 : option (list string)) (L : Z)
  (tr : option (ndarray field -> ndarray field))
  (self : FireRiskDataset field timestamp) :
  __init__ nc_file1 nc_file2 npy_file nc1 nc2 L tr = Ok self ->
  sequence_length self = L /\ transform self = tr /\
  ds1 self = nc_file1 /\ ds2 self = nc_file2 /\ npy_data self = npy_file /\
  total_time_steps self = Z.of_nat (List.length (valid_time nc_file1)) /\
  _validate_variables nc1 nc_file1 = Ok (nc1_variables self) /\
  _validate_variables nc2 nc_file2 = Ok (nc2_variables self).
Proof.
  unfold __init__, _load_timestamps.
  destruct (Py.index (valid_time nc_file1) 0); [|discriminate].
  cbn [Py.bind].
  destruct (_validate_variables nc1 nc_file1) as [v1|]; [|discriminate].
  destruct (_validate_variables nc2 nc_file2) as [v2|]; [|discriminate].
  cbn [Py.bind].
  destruct (_print_time_info (valid_time nc_file1)); [|discriminate].
  cbn [Py.bind]. intros [= <-]. cbn. repeat split.
Qed.

Lemma Forall2_split_r {A B} (P : A -> B -> Prop) (Q : B -> Prop)
  (l : list A) (k : list B) :
  Forall2 (fun a b => P a b /\ Q b) l k -> Forall2 P l k /\ Forall Q k.
Proof.
  induction 1 as [|a b l k [HP HQ] _ [IH1 IH2]]; split; constructor; assumption.
Qed.

(** The stack of the validated variables of an archive at one time step. *)
Lemma stack_step (dataset : archive field timestamp) (steps : nat)
  (grid : nat * nat) (variables : list string) (t : Z) :
  covers field_shape dataset steps grid ->
  (forall v, In v variables -> In v (map fst (data_vars dataset))) ->
  variables <> [] ->
  0 <= t < Z.of_nat steps ->
  exists channels,
    (time_step_data <-
       Py.mapM (fun var_name => isel dataset var_name t) variables ;;
     np_stack field_shape time_step_data)%res = Ok channels /\
    Py.mapM (fun var_name => isel dataset var_name t) variables = Ok channels /\
    stack_at dataset variables t channels /\
    channels <> [] /\ Forall (fun f => field_shape f = grid) channels.
Proof.
  intros Hcov Hval Hne Ht.
  destruct (mapM_Forall2 (fun var_name => isel dataset var_name t)
              (fun v f => field_at dataset t v f /\ field_shape f = grid)
              variables) as (channels & Hmap & Hall).
  { intros v Hv. apply (isel_covered dataset steps grid v t Hcov (Hval v Hv) Ht). }
  apply Forall2_split_r in Hall as [Hstack Hgrid].
  assert (Hne' : channels <> []).
  { intros ->. apply Forall2_length in Hstack. destruct variables; [congruence|].
    discriminate. }
  exists channels. rewrite Hmap. cbn [Py.bind].
  rewrite (np_stack_ok channels grid Hne' Hgrid). auto.
Qed.

(** What [__getitem__] returns on a dataset whose archives cover [steps] time
    steps on one grid, for a window that fits. *)
Lemma getitem_ok (self : FireRiskDataset field timestamp) (steps : nat)
  (grid : nat * nat) (index : Z) :
  covers field_shape (ds1 self) steps grid ->
  covers field_shape (ds2 self) steps grid ->
  (forall v, In v (nc1_variables self) -> In v (map fst (data_vars (ds1 self)))) ->
  (forall v, In v (nc2_variables self) -> In v (map fst (data_vars (ds2 self)))) ->
  nc1_variables self <> [] -> nc2_variables self <> [] ->
  1 <= sequence_length self ->
  0 <= index -> index + sequence_length self <= Z.of_nat steps ->
  index < Z.of_nat (List.length (npy_data self)) ->
  exists land pressure y,
    __getitem__ field_shape float32 self index =
      Ok (apply_transform (transform self)
            (Arr3 (map float32 (concat land ++ pressure))),
          apply_transform (transform self) (Arr2 (float32 y))) /\
    Forall2 (stack_at (ds1 self) (nc1_variables self))
      (Py.range index (index + sequence_length self)) land /\
    stack_at (ds2 self) (nc2_variables self)
      (index + sequence_length self - 1) pressure /\
    nth_error (npy_data self) (Z.to_nat index) = Some y.
Proof.
  intros Hc1 Hc2 Hv1 Hv2 Hn1 Hn2 HL Hi Hfit Hlab.
  unfold __getitem__.
  destruct (mapM_Forall2
              (fun i =>
                 (time_step_data <-
                    Py.mapM (fun var_name => isel (ds1 self) var_name i)
                      (nc1_variables self) ;;
                  np_stack field_shape time_step_data)%res)
              (fun t channels =>
                 stack_at (ds1 self) (nc1_variables self) t channels /\
                 (channels <> [] /\
                  Forall (fun f => field_shape f = grid) channels))
              (Py.range index (index + sequence_length self)))
    as (land & Hland & Hall).
  { intros t Ht. apply in_range in Ht.
    destruct (stack_step (ds1 self) steps grid (nc1_variables self) t Hc1 Hv1 Hn1)
      as (channels & Hrun & _ & Hst & Hne & Hgr); [lia|].
    exists channels. auto. }
  apply Forall2_split_r in Hall as [Hstacks Hblocks].
  rewrite Hland. cbn [Py.bind].
  destruct (stack_step (ds2 self) steps grid (nc2_variables self)
              (index + sequence_length self - 1) Hc2 Hv2 Hn2)
    as (pressure & _ & Hmap & Hst & Hne & Hgr); [lia|].
  rewrite Hmap. cbn [Py.bind].
  rewrite (np_stack_ok pressure grid Hne Hgr). cbn [Py.bind].
  destruct (index_in_range (npy_data self) index) as (y & Hy & Hnth); [lia|].
  rewrite Hy. cbn [Py.bind].
  assert (Hland_ne : land <> []).
  { intros ->. apply Forall2_length in Hstacks. rewrite length_range in Hstacks.
    cbn in Hstacks. lia. }
  rewrite (np_concatenate_ok land grid Hland_ne Hblocks). cbn [Py.bind].
  assert (Hconcat : concat land <> [] /\
                    Forall (fun f => field_shape f = grid) (concat land)).
  { split.
    - destruct land as [|b land]; [congruence|].
      apply List.Forall_cons_iff in Hblocks as [[Hb _] _].
      destruct b; [congruence|]. discriminate.
    - apply Forall_concat. eapply List.Forall_impl; [|exact Hblocks].
      intros b [_ Hb]. exact Hb. }
  rewrite (np_concatenate_ok [concat land; pressure] grid);
    [|discriminate|].
  2:{ destruct Hconcat as [Hc_ne Hc_gr].
      apply List.Forall_cons; [split; assumption|].
      apply List.Forall_cons; [split; assumption|apply List.Forall_nil]. }
  cbn [Py.bind concat]. rewrite app_nil_r.
  exists land, pressure, y.
  split; [|auto].
  unfold apply_transform. now destruct (transform self).
Qed.

(** C2. For a dataset built with [sequence_length = 6] over archives whose
    variables cover the same [T] time steps on one grid (with some land and
    some pressure variable selected and a label slice for every sample):
    [__len__] is [T - 6], and for every index in [[0, __len__)] the input is
    the concatenation along the channel axis of the six stacks of the land
    variables at the times [index .. index + 5], followed by the stack of the
    pressure-level variables at the time [index + 5]; it has
    [6 * |land variables| + |pressure variables|] channels. *)
Theorem getitem_input_window
  (nc_file1 nc_file2 : archive field timestamp) (npy_file : list field)
  (nc1 nc2 : option (list string))
  (tr : option (ndarray field -> ndarray field))
  (self : FireRiskDataset field timestamp) (grid : nat * nat) :
  __init__ nc_file1 nc_file2 npy_file nc1 nc2 6 tr = Ok self ->
  covers field_shape nc_file1 (List.length (valid_time nc_file1)) grid ->
  covers field_shape nc_file2 (List.length (valid_time nc_file1)) grid ->
  nc1_variables self <> [] ->
  nc2_variables self <> [] ->
  __len__ self <= Z.of_nat (List.length npy_file) ->
  __len__ self = Z.of_nat (List.length (valid_time nc_file1)) - 6 /\
  forall index, 0 <= index < __len__ self ->
    exists land pressure label,
      __getitem__ field_shape float32 self index =
        Ok (apply_transform tr (Arr3 (map float32 (concat land ++ pressure))),
            label) /\
      Forall2 (stack_at nc_file1 (nc1_variables self))
        (Py.range index (index + 6)) land /\
      stack_at nc_file2 (nc2_variables self) (index + 5) pressure /\
      Z.of_nat (List.length (map float32 (concat land ++ pressure))) =
        6 * Z.of_nat (List.length (nc1_variables self))
        + Z.of_nat (List.length (nc2_variables self)).
Proof.
  intros Hinit Hc1 Hc2 Hn1 Hn2 Hlab.
  destruct (init_inv _ _ _ _ _ _ _ _ Hinit)
    as (HL & Htr & Hd1 & Hd2 & Hnpy & HT & Hv1 & Hv2).
  assert (Hlen : __len__ self =
                 Z.of_nat (List.length (valid_time nc_file1)) - 6).
  { unfold __len__. rewrite HT, HL. reflexivity. }
  split; [exact Hlen|]. intros index Hidx.
  destruct (getitem_ok self (List.length (valid_time nc_file1)) grid index)
    as (land & pressure & y & Hget & Hland & Hpress & _);
    rewrite ?Hd1, ?Hd2, ?HL, ?Hnpy; try assumption; try lia.
  { apply (validate_variables_in nc1 nc_file1 _ Hv1). }
  { apply (validate_variables_in nc2 nc_file2 _ Hv2). }
  rewrite HL, Hd1, Hd2, Htr in *.
  exists land, pressure, (apply_transform tr (Arr2 (float32 y))).
  split; [exact Hget|]. split; [exact Hland|].
  split; [replace (index + 5) with (index + 6 - 1) by lia; exact Hpress|].
  rewrite length_map, length_app.
  rewrite (length_concat_uniform land (List.length (nc1_variables self))).
  - apply Forall2_length in Hland. rewrite length_range in Hland.
    apply Forall2_length in Hpress. rewrite <- Hland, <- Hpress. lia.
  - clear Hget. induction Hland as [|t b ts land Hb _ IH]; constructor.
    + apply Forall2_length in Hb. now symmetry.
    + exact IH.
Qed.

(** C3. Under the same conditions, the label of sample [index] is the slice
    of the label archive at position [index], the first time step of the
    input window, cast to 32-bit floating point. *)
Theorem getitem_label_window_start
  (nc_file1 nc_file2 : archive field timestamp) (npy_file : list field)
  (nc1 nc2 : option (list string))
  (tr : option (ndarray field -> ndarray field))
  (self : FireRiskDataset field timestamp) (grid : nat * nat) (index : Z) :
  __init__ nc_file1 nc_file2 npy_file nc1 nc2 6 tr = Ok self ->
  covers field_shape nc_file1 (List.length (valid_time nc_file1)) grid ->
  covers field_shape nc_file2 (List.length (valid_time nc_file1)) grid ->
  nc1_variables self <> [] ->
  nc2_variables self <> [] ->
  __len__ self <= Z.of_nat (List.length npy_file) ->
  0 <= index < __len__ self ->
  exists input slice,
    nth_error npy_file (Z.to_nat index) = Some slice /\
    __getitem__ field_shape float32 self index =
      Ok (input, apply_transform tr (Arr2 (float32 slice))).
Proof.
  intros Hinit Hc1 Hc2 Hn1 Hn2 Hlab Hidx.
  destruct (init_inv _ _ _ _ _ _ _ _ Hinit)
    as (HL & Htr & Hd1 & Hd2 & Hnpy & HT & Hv1 & Hv2).
  unfold __len__ in Hlab, Hidx. rewrite HT, HL in Hlab, Hidx.
  destruct (getitem_ok self (List.length (valid_time nc_file1)) grid index)
    as (land & pressure & y & Hget & _ & _ & Hy);
    rewrite ?Hd1, ?Hd2, ?HL, ?Hnpy; try assumption; try lia.
  { apply (validate_variables_in nc1 nc_file1 _ Hv1). }
  { apply (validate_variables_in nc2 nc_file2 _ Hv2). }
  rewrite Htr, Hnpy in *. eauto.
Qed.

End DatasetFacts.

(** The sample dataset is what [__init__] builds from the sample archives,
    and its first sample can be computed: twelve land channels (two variables
    at the times 0 to 5), one pressure channel at time 5, and the label slice
    of time 0. *)
Lemma sample_dataset_init :
  Dataloader.__init__ Sample.land Sample.pressure_levels Sample.label
    (Some ["skt"; "sp"]) None 6 None = Ok Sample.dataset.
Proof. reflexivity. Qed.

Lemma sample_dataset_covers :
  Dataloader.covers Sample.grid_shape Sample.land 7 (1%nat, 1%nat) /\
  Dataloader.covers Sample.grid_shape Sample.pressure_levels 7 (1%nat, 1%nat).
Proof.
  split; intros var_name series Hin; cbn in Hin;
    repeat (destruct Hin as [[= <- <-]|Hin];
            [split; [reflexivity|repeat constructor]|]);
    destruct Hin.
Qed.

Lemma sample_getitem :
  Dataloader.__getitem__ Sample.grid_shape (fun f => f) Sample.dataset 0 =
  Ok (Dataloader.Arr3 [30; 10; 31; 11; 32; 12; 33; 13; 34; 14; 35; 15; 25],
      Dataloader.Arr2 100).
Proof. reflexivity. Qed.

Lemma getitem_input_window_witness :
  Dataloader.__len__ Sample.dataset = 7 - 6 /\
  exists land pressure label,
    Dataloader.__getitem__ Sample.grid_shape (fun f => f) Sample.dataset 0 =
      Ok (Dataloader.Arr3 (map (fun f => f) (concat land ++ pressure)), label) /\
    Forall2 (Dataloader.stack_at Sample.land ["skt"; "sp"]) (Py.range 0 6) land /\
    Dataloader.stack_at Sample.pressure_levels ["z_500"] 5 pressure /\
    Z.of_nat (List.length (map (fun f : Z => f) (concat land ++ pressure))) =
      6 * 2 + 1.
Proof.
  destruct sample_dataset_covers as [Hc1 Hc2].
  destruct (getitem_input_window Z Sample.grid_shape (fun f => f) nat
              Sample.land Sample.pressure_levels Sample.label
              (Some ["skt"; "sp"]) None None Sample.dataset (1%nat, 1%nat)
              sample_dataset_init Hc1 Hc2)
    as [Hlen Hget];
    [discriminate|discriminate|unfold Dataloader.__len__; simpl; lia|].
  split; [exact Hlen|].
  destruct (Hget 0) as (land & pressure & label & H1 & H2 & H3 & H4);
    [unfold Dataloader.__len__; simpl; lia|].
  exists land, pressure, label. auto.
Defined.

Lemma getitem_label_window_start_witness :
  exists input slice,
    nth_error Sample.label 0 = Some slice /\
    Dataloader.__getitem__ Sample.grid_shape (fun f => f) Sample.dataset 0 =
      Ok (input, Dataloader.Arr2 slice).
Proof.
  destruct sample_dataset_covers as [Hc1 Hc2].
  apply (getitem_label_window_start Z Sample.grid_shape (fun f => f) nat
           Sample.land Sample.pressure_levels Sample.label
           (Some ["skt"; "sp"]) None None Sample.dataset (1%nat, 1%nat) 0
           sample_dataset_init Hc1 Hc2);
    [discriminate|discriminate| |]; unfold Dataloader.__len__; simpl; lia.
Defined.

(** * Facts about train.py *)

Section TrainFacts.

Import Train.

Variable rng : Type.
Variable shuffle : rng -> list Z -> list Z * rng.
Variable train_loss : Z -> Z -> Q.
Variable eval_loss : Z -> Z -> Q.
Variable eval_acc : Z -> Z -> Q.
Variable eval_f1 : Z -> Z -> Q.

Local Abbreviation train_batch := (Train.train_batch rng train_loss).
Local Abbreviation eval_batch := (Train.eval_batch rng eval_loss eval_acc eval_f1).
Local Abbreviation epoch_phases :=
  (Train.epoch_phases rng train_loss eval_loss eval_acc eval_f1).
Local Abbreviation train_model :=
  (Train.train_model rng shuffle train_loss eval_loss eval_acc eval_f1).
Local Abbreviation split_mask := (Train.split_mask rng shuffle).

(** ** Sequencing *)

Lemma bindM_ok {A B} (m : M rng A) (k : A -> M rng B) s a s' :
  m s = (Ok a, s') -> bindM m k s = k a s'.
Proof. intros H. unfold bindM. now rewrite H. Qed.

Lemma bindM_raise {A B} (m : M rng A) (k : A -> M rng B) s e s' :
  m s = (Raise e, s') -> bindM m k s = (Raise e, s').
Proof. intros H. unfold bindM. now rewrite H. Qed.

Lemma extend_nil (s : state rng) : extend s [] = s.
Proof. destruct s. unfold extend. cbn. now rewrite app_nil_r. Qed.

Lemma extend_extend (s : state rng) (evs evs' : list event) :
  extend (extend s evs) evs' = extend s (evs ++ evs').
Proof. unfold extend. cbn. now rewrite app_assoc. Qed.

Lemma emit_extend (e : event) (s : state rng) : emit e s = (Ok tt, extend s [e]).
Proof. reflexivity. Qed.

(** ** Properties of the trace kept by every step *)

Section Keeps.

Variable P : list event -> Prop.

Lemma keeps_ret {A} (a : A) : keeps P (ret (rng := rng) a).
Proof. intros s H. exact H. Qed.

Lemma keeps_lift {A} (r : result A) : keeps P (lift (rng := rng) r).
Proof. intros s H. exact H. Qed.

Lemma keeps_assign (name : string) (v : Q) : keeps P (assign (rng := rng) name v).
Proof. intros s H. exact H. Qed.

Lemma keeps_load (name : string) : keeps P (load (rng := rng) name).
Proof. intros s H. unfold load. now destruct (locals s !! name). Qed.

Lemma keeps_bind {A B} (m : M rng A) (k : A -> M rng B) :
  keeps P m -> (forall a, keeps P (k a)) -> keeps P (bindM m k).
Proof.
  intros Hm Hk s H. unfold bindM. specialize (Hm s H).
  destruct (m s) as [[a|e] s']; cbn in Hm; [now apply Hk|exact Hm].
Qed.

Lemma keeps_bind_lift {A B} (r : result A) (k : A -> M rng B) :
  (forall a, r = Ok a -> keeps P (k a)) -> keeps P (bindM (lift r) k).
Proof.
  intros Hk s H. unfold bindM, lift.
  destruct r as [a|e]; [now apply Hk|exact H].
Qed.

Lemma keeps_for_each {A} (l : list A) (body : A -> M rng unit) :
  (forall x, keeps P (body x)) -> keeps P (for_each l body).
Proof.
  intros Hb. induction l as [|x l IH]; cbn [for_each].
  - apply keeps_ret.
  - apply keeps_bind; [apply Hb|intros _; exact IH].
Qed.

Lemma keeps_aug_add (name : string) (v : Q) : keeps P (aug_add (rng := rng) name v).
Proof.
  unfold aug_add. apply keeps_bind; [apply keeps_load|].
  intros x. apply keeps_assign.
Qed.

Hypothesis P_step :
  forall tr e,
    plain_event e ->
    P tr -> P (tr ++ [e]).

Lemma keeps_emit (e : event) :
  plain_event e ->
  keeps P (emit (rng := rng) e).
Proof. intros He s H. cbn. now apply P_step. Qed.

Lemma keeps_scheduler_step (lr_scheduler : lr_schedule) (ty granularity : string) :
  keeps P (scheduler_step (rng := rng) lr_scheduler ty granularity).
Proof.
  unfold scheduler_step. destruct lr_scheduler; [apply keeps_ret|].
  destruct (String.eqb ty granularity); [now apply keeps_emit|apply keeps_ret].
Qed.

Lemma keeps_eval_batch (mask : list Z) (epoch batch_idx : Z) :
  keeps P (eval_batch mask epoch batch_idx).
Proof.
  unfold Train.eval_batch. apply keeps_bind; [apply keeps_lift|]. intros m.
  destruct (m =? 1); [|destruct (m =? 0); [|apply keeps_ret]];
    repeat (apply keeps_bind; [apply keeps_aug_add|intros _]);
    apply keeps_aug_add.
Qed.

End Keeps.

(** ** The split mask is drawn once *)

Lemma single_mask_snoc (mask : list Z) (tr : list event) (e : event) :
  under_mask mask e -> single_mask mask tr -> single_mask mask (tr ++ [e]).
Proof.
  intros He (rest & -> & Hrest). exists (rest ++ [e]).
  split; [reflexivity|]. apply Forall_app. split; [exact Hrest|].
  now constructor.
Qed.

Lemma single_mask_step (mask : list Z) (tr : list event) (e : event) :
  plain_event e ->
  single_mask mask tr -> single_mask mask (tr ++ [e]).
Proof. intros He. apply single_mask_snoc. now destruct e. Qed.

Lemma keeps_train_batch (mask : list Z) (lr_scheduler : lr_schedule)
  (batch_out : bool) (ty : string) (epoch batch_idx : Z) :
  keeps (single_mask mask)
    (train_batch mask lr_scheduler batch_out ty epoch batch_idx).
Proof.
  unfold Train.train_batch. apply keeps_bind_lift. intros m Hm.
  apply keeps_bind;
    [|intros _; apply keeps_scheduler_step, single_mask_step].
  destruct (Z.eqb_spec m 1) as [->|_]; [|apply keeps_ret].
  apply keeps_bind.
  - intros s H. cbn. apply single_mask_snoc; [exact Hm|exact H].
  - intros _. destruct batch_out; [|apply keeps_ret].
    now apply keeps_emit; [apply single_mask_step|].
Qed.

Lemma keeps_epoch_phases (epochs : Z) (lr_scheduler : lr_schedule)
  (batch_out : bool) (ty : string) (len_data len_val len_train : Z)
  (mask : list Z) (epoch : Z) :
  keeps (single_mask mask)
    (epoch_phases epochs lr_scheduler batch_out ty
       len_data len_val len_train mask epoch).
Proof.
  pose proof (single_mask_step mask) as Hstep.
  unfold Train.epoch_phases.
  do 2 (apply keeps_bind; [now apply keeps_emit|intros _]).
  apply keeps_bind; [apply keeps_for_each; intros b; apply keeps_train_batch|].
  intros _.
  apply keeps_bind; [now apply keeps_scheduler_step|intros _].
  do 2 (apply keeps_bind; [now apply keeps_emit|intros _]).
  do 4 (apply keeps_bind; [apply keeps_assign|intros _]).
  apply keeps_bind; [apply keeps_for_each; intros b; apply keeps_eval_batch|].
  intros _.
  do 4 (apply keeps_bind; [apply keeps_load|intros ?];
        apply keeps_bind; [apply keeps_lift|intros ?]).
  apply keeps_bind; [now apply keeps_emit|intros _].
  now apply keeps_emit.
Qed.

Lemma keeps_epoch_loop (mask : list Z) (times : string) (epochs : Z)
  (phases : Z -> M rng unit) :
  (forall epoch, keeps (single_mask mask) (phases epoch)) ->
  keeps (single_mask mask) (epoch_loop times epochs phases).
Proof.
  intros Hph. pose proof (single_mask_step mask) as Hstep.
  unfold epoch_loop, epoch_checkpoint, final_checkpoint.
  apply keeps_bind.
  - apply keeps_for_each. intros epoch.
    apply keeps_bind; [apply Hph|intros _].
    destruct (epoch mod 10 =? 0); [now apply keeps_emit|apply keeps_ret].
  - intros _. destruct (negb (epochs mod 10 =? 0));
      [now apply keeps_emit|apply keeps_ret].
Qed.

Lemma split_mask_ok (g : rng) (len_data : Z) (val_ratio : Q) (s : state rng) :
  DataSplitMusk.valid_ratio val_ratio ->
  exists mask g',
    DataSplitMusk.generate_binary_sequence rng shuffle (generator s)
      len_data val_ratio = (Ok mask, g') /\
    split_mask len_data val_ratio s =
      (Ok mask, {| generator := g';
                   locals := locals s;
                   trace := trace s ++ [SplitMask mask] |}).
Proof.
  intros Hr. unfold Train.split_mask.
  rewrite (generate_binary_sequence_ok rng shuffle _ _ _ Hr). cbn zeta.
  eexists _, _. split; reflexivity.
Qed.

(** C4, as the code has it.  With a validation fraction in range, a run
    draws the split mask with [generate_binary_sequence] exactly once, before
    the first epoch begins, whatever the number of epochs: the trace starts
    with that draw and contains no other, and every optimizer step of every
    epoch is taken at a position this one mask assigns to training. *)
Theorem split_mask_drawn_once (times : string) (epochs : Z)
  (lr_scheduler : lr_schedule) (len_data : Z) (val_ratio : Q)
  (batch_out : bool) (ty : string) (g : rng) :
  DataSplitMusk.valid_ratio val_ratio ->
  exists mask rest,
    fst (DataSplitMusk.generate_binary_sequence rng shuffle g
           len_data val_ratio) = Ok mask /\
    trace (snd (train_model times epochs lr_scheduler len_data val_ratio
                  batch_out ty (initial g))) = SplitMask mask :: rest /\
    (forall mask', ~ In (SplitMask mask') rest) /\
    (forall epoch batch_idx,
       In (OptimizerStep epoch batch_idx) rest ->
       Py.index mask batch_idx = Ok 1).
Proof.
  intros Hr.
  destruct (split_mask_ok g len_data val_ratio (initial g) Hr)
    as (mask & g' & Hgen & Hsplit).
  cbn [initial generator locals trace app] in Hgen, Hsplit.
  pose proof (single_mask_step mask) as Hstep.
  assert (Hkeep : single_mask mask
            (trace (snd (train_model times epochs lr_scheduler len_data
                           val_ratio batch_out ty (initial g))))).
  { unfold Train.train_model. rewrite (bindM_ok _ _ _ _ _ Hsplit).
    refine (keeps_bind (single_mask mask) _ _ _ _ _ _).
    - now apply keeps_emit.
    - intros _. apply keeps_epoch_loop. intros epoch.
      apply keeps_epoch_phases.
    - exists []. split; [reflexivity|constructor]. }
  destruct Hkeep as (rest & Htr & Hrest).
  exists mask, rest. rewrite Hgen. split; [reflexivity|].
  split; [exact Htr|]. rewrite List.Forall_forall in Hrest.
  split.
  - intros mask' Hin. exact (Hrest _ Hin).
  - intros epoch batch_idx Hin. exact (Hrest _ Hin).
Qed.

(** ** The first evaluation phase *)

Lemma appends_ret (P : event -> Prop) : appends P (ret (rng := rng) tt).
Proof. intros s. exists []. rewrite extend_nil. split; [reflexivity|constructor]. Qed.

Lemma appends_emit (P : event -> Prop) (e : event) :
  P e -> appends P (emit (rng := rng) e).
Proof. intros He s. exists [e]. split; [reflexivity|now constructor]. Qed.

Lemma appends_bind (P : event -> Prop) (m : M rng unit) (k : unit -> M rng unit) :
  appends P m -> appends P (k tt) -> appends P (bindM m k).
Proof.
  intros Hm Hk s. destruct (Hm s) as (evs & Hrun & Hevs).
  destruct (Hk (extend s evs)) as (evs' & Hrun' & Hevs').
  exists (evs ++ evs'). rewrite (bindM_ok _ _ _ _ _ Hrun), Hrun', extend_extend.
  split; [reflexivity|]. apply Forall_app. now split.
Qed.

Lemma appends_scheduler_step (lr_scheduler : lr_schedule) (ty granularity : string) :
  appends training_event (scheduler_step (rng := rng) lr_scheduler ty granularity).
Proof.
  unfold scheduler_step. destruct lr_scheduler; [apply appends_ret|].
  destruct (String.eqb ty granularity);
    [now apply appends_emit|apply appends_ret].
Qed.

Lemma appends_train_batch (mask : list Z) (lr_scheduler : lr_schedule)
  (batch_out : bool) (ty : string) (epoch batch_idx : Z) :
  0 <= batch_idx < Z.of_nat (List.length mask) ->
  appends training_event
    (train_batch mask lr_scheduler batch_out ty epoch batch_idx).
Proof.
  intros Hb. destruct (index_in_range mask batch_idx Hb) as (m & Hm & _).
  unfold Train.train_batch. rewrite Hm.
  assert (Hinner : appends training_event
            (bindM
               (if m =? 1
                then bindM (emit (OptimizerStep epoch batch_idx))
                       (fun _ =>
                          if batch_out
                          then emit (PrintBatch epoch batch_idx
                                       (train_loss epoch batch_idx))
                          else ret tt)
                else ret tt)
               (fun _ => scheduler_step (rng := rng) lr_scheduler ty "batch"))).
  { apply appends_bind; [|apply appends_scheduler_step].
    destruct (m =? 1); [|apply appends_ret].
    apply appends_bind; [now apply appends_emit|].
    destruct batch_out; [now apply appends_emit|apply appends_ret]. }
  intros s. exact (Hinner s).
Qed.

Lemma appends_for_each (P : event -> Prop) (l : list Z) (body : Z -> M rng unit) :
  (forall x, In x l -> appends P (body x)) -> appends P (for_each l body).
Proof.
  induction l as [|x l IH]; intros Hb; cbn [for_each].
  - apply appends_ret.
  - apply appends_bind; [apply Hb; now left|].
    apply IH. intros y Hy. apply Hb. now right.
Qed.

(** The evaluation of a batch reads an F1 accumulator that no assignment has
    bound. *)
Lemma eval_batch_raises (mask : list Z) (epoch batch_idx m : Z) (s : state rng) :
  Py.index mask batch_idx = Ok m ->
  m = 0 \/ m = 1 ->
  is_Some (locals s !! "total_train_loss") ->
  is_Some (locals s !! "total_train_acc") ->
  is_Some (locals s !! "total_val_loss") ->
  is_Some (locals s !! "total_val_acc") ->
  locals s !! "total_train_f1" = None ->
  locals s !! "total_val_f1" = None ->
  exists name s',
    eval_batch mask epoch batch_idx s = (Raise (UnboundLocalError name), s') /\
    (name = "total_train_f1" \/ name = "total_val_f1") /\
    locals s' !! name = None /\
    trace s' = trace s.
Proof.
  intros Hm Hbin [tl Htl] [ta Hta] [vl Hvl] [va Hva] Htf Hvf.
  unfold Train.eval_batch, bindM at 1, lift. rewrite Hm.
  destruct Hbin as [-> | ->]; cbn [Z.eqb Pos.eqb].
  - exists "total_val_f1". eexists.
    unfold aug_add, bindM, load, assign. cbn [locals generator trace].
    rewrite Hvl. cbn [locals generator trace].
    rewrite lookup_insert_ne by done. rewrite Hva. cbn [locals generator trace].
    rewrite !lookup_insert_ne by done. rewrite Hvf.
    split; [reflexivity|]. split; [now right|]. cbn [locals trace].
    split; [|reflexivity]. rewrite !lookup_insert_ne by done. exact Hvf.
  - exists "total_train_f1". eexists.
    unfold aug_add, bindM, load, assign. cbn [locals generator trace].
    rewrite Htl. cbn [locals generator trace].
    rewrite lookup_insert_ne by done. rewrite Hta. cbn [locals generator trace].
    rewrite !lookup_insert_ne by done. rewrite Htf.
    split; [reflexivity|]. split; [now left|]. cbn [locals trace].
    split; [|reflexivity]. rewrite !lookup_insert_ne by done. exact Htf.
Qed.

(** The body of the epoch loop never gets past the first batch of its
    evaluation loop. *)
Lemma epoch_phases_raises (epochs : Z) (lr_scheduler : lr_schedule)
  (batch_out : bool) (ty : string) (len_data len_val len_train : Z)
  (mask : list Z) (epoch : Z) (s : state rng) :
  1 <= len_data ->
  List.length mask = Z.to_nat len_data ->
  Forall (fun b => b = 0 \/ b = 1) mask ->
  locals s !! "total_train_f1" = None ->
  locals s !! "total_val_f1" = None ->
  exists name evs s',
    epoch_phases epochs lr_scheduler batch_out ty
      len_data len_val len_train mask epoch s =
      (Raise (UnboundLocalError name), s') /\
    (name = "total_train_f1" \/ name = "total_val_f1") /\
    locals s' !! name = None /\
    Forall training_event evs /\
    trace s' =
      trace s ++ EpochBegin epoch :: ModelTrain :: evs ++
      [PrintEpochCompleted epoch epochs; ModelEval].
Proof.
  intros Hlen Hmask Hbin Htf Hvf.
  assert (Htrain : appends training_event
            (bindM
               (for_each (Py.range 0 len_data)
                  (train_batch mask lr_scheduler batch_out ty epoch))
               (fun _ => scheduler_step (rng := rng) lr_scheduler ty "epoch"))).
  { apply appends_bind; [|apply appends_scheduler_step].
    apply appends_for_each. intros b Hb. apply in_range in Hb.
    apply appends_train_batch. lia. }
  destruct (Htrain (extend (extend s [EpochBegin epoch]) [ModelTrain]))
    as (evs & Hrun & Hevs).
  unfold bindM at 1 in Hrun.
  destruct (for_each (Py.range 0 len_data)
              (train_batch mask lr_scheduler batch_out ty epoch)
              (extend (extend s [EpochBegin epoch]) [ModelTrain]))
    as [[[]|e1] s1] eqn:Hphase; [|discriminate].
  destruct (index_in_range mask 0) as (m & Hm & Hnth); [lia|].
  assert (Hm01 : m = 0 \/ m = 1).
  { rewrite List.Forall_forall in Hbin. apply Hbin.
    eapply nth_error_In. exact Hnth. }
  set (s2 := {| generator := generator s;
                locals := <["total_val_acc" := 0%Q]>
                            (<["total_val_loss" := 0%Q]>
                               (<["total_train_acc" := 0%Q]>
                                  (<["total_train_loss" := 0%Q]> (locals s))));
                trace := trace (extend
                                  (extend
                                     (extend
                                        (extend (extend s [EpochBegin epoch])
                                           [ModelTrain]) evs)
                                     [PrintEpochCompleted epoch epochs])
                                  [ModelEval]) |}).
  destruct (eval_batch_raises mask epoch 0 m s2 Hm Hm01)
    as (name & s' & Hraise & Hname & Hunbound & Htrace).
  { exists 0%Q. unfold s2. cbn [locals].
    now rewrite !lookup_insert_ne, lookup_insert_eq by done. }
  { exists 0%Q. unfold s2. cbn [locals].
    now rewrite !lookup_insert_ne, lookup_insert_eq by done. }
  { exists 0%Q. unfold s2. cbn [locals].
    now rewrite !lookup_insert_ne, lookup_insert_eq by done. }
  { exists 0%Q. unfold s2. cbn [locals]. now rewrite lookup_insert_eq. }
  { unfold s2. cbn [locals]. now rewrite !lookup_insert_ne by done. }
  { unfold s2. cbn [locals]. now rewrite !lookup_insert_ne by done. }
  exists name, evs, s'.
  split; [|split; [exact Hname|split; [exact Hunbound|split; [exact Hevs|]]]].
  - unfold Train.epoch_phases.
    rewrite (bindM_ok _ _ _ _ _ (emit_extend _ _)).
    rewrite (bindM_ok _ _ _ _ _ (emit_extend _ _)).
    rewrite (bindM_ok _ _ _ _ _ Hphase).
    rewrite (bindM_ok _ _ _ _ _ Hrun).
    rewrite (bindM_ok _ _ _ _ _ (emit_extend _ _)).
    rewrite (bindM_ok _ _ _ _ _ (emit_extend _ _)).
    unfold bindM at 1, assign at 1. unfold bindM at 1, assign at 1.
    unfold bindM at 1, assign at 1. unfold bindM at 1, assign at 1.
    cbn [generator locals trace extend].
    rewrite (range_cons 0 len_data) by lia. cbn [for_each].
    apply bindM_raise. apply bindM_raise. exact Hraise.
  - rewrite Htrace. unfold s2, extend. cbn [trace].
    rewrite <- !app_assoc. reflexivity.
Qed.

(** ** The checkpoint cadence of the loop *)

Lemma saved_app (tr tr' : list event) : saved (tr ++ tr') = saved tr ++ saved tr'.
Proof. unfold saved. apply omap_app. Qed.

Lemma saved_not_save (evs : list event) :
  Forall not_save evs -> saved evs = [].
Proof.
  induction 1 as [|e evs He _ IH]; [reflexivity|].
  unfold saved in *. destruct e; cbn in He; try contradiction; exact IH.
Qed.

Lemma saved_training (evs : list event) :
  Forall training_event evs -> saved evs = [].
Proof.
  intros H. apply saved_not_save. eapply List.Forall_impl; [|exact H].
  now intros [].
Qed.

Lemma epoch_checkpoint_run (times : string) (epoch : Z) (s : state rng) :
  epoch_checkpoint times epoch s =
  (Ok tt,
   extend s (if epoch mod 10 =? 0
             then [Save (checkpoint_path times epoch)] else [])).
Proof.
  unfold epoch_checkpoint. destruct (epoch mod 10 =? 0); [reflexivity|].
  unfold ret. now rewrite extend_nil.
Qed.

Lemma for_each_checkpoints (times : string) (phases : Z -> M rng unit)
  (l : list Z) :
  (forall epoch, appends not_save (phases epoch)) ->
  forall s, exists evs,
    for_each l
      (fun epoch => bindM (phases epoch) (fun _ => epoch_checkpoint times epoch))
      s = (Ok tt, extend s evs) /\
    saved evs =
      map (checkpoint_path times)
        (List.filter (fun epoch => epoch mod 10 =? 0) l).
Proof.
  intros Hph. induction l as [|epoch l IH]; intros s; cbn [for_each List.filter].
  - exists []. now rewrite extend_nil.
  - destruct (Hph epoch s) as (evs1 & Hrun1 & Hevs1).
    unfold bindM at 1.
    rewrite (bindM_ok _ _ _ _ _ Hrun1), epoch_checkpoint_run. cbv beta iota.
    match goal with
    | |- context [for_each l _ ?st] =>
        destruct (IH st) as (evs2 & Hrun2 & Hevs2)
    end.
    rewrite Hrun2, !extend_extend. eexists. split; [reflexivity|].
    rewrite !saved_app, (saved_not_save evs1 Hevs1), Hevs2.
    now destruct (epoch mod 10 =? 0).
Qed.


Section Runs.

Hypothesis shuffle_perm : forall g l, Permutation l (fst (shuffle g l)).

(** A run with at least one epoch over at least one sample. *)
Lemma train_model_raises (times : string) (epochs : Z)
  (lr_scheduler : lr_schedule) (len_data : Z) (val_ratio : Q)
  (batch_out : bool) (ty : string) (g : rng) :
  DataSplitMusk.valid_ratio val_ratio ->
  1 <= epochs ->
  1 <= len_data <= 2 ^ 53 ->
  exists name mask evs s',
    train_model times epochs lr_scheduler len_data val_ratio batch_out ty
      (initial g) = (Raise (UnboundLocalError name), s') /\
    (name = "total_train_f1" \/ name = "total_val_f1") /\
    locals s' !! name = None /\
    Forall training_event evs /\
    trace s' =
      SplitMask mask :: ModelTrain :: EpochBegin 1 :: ModelTrain :: evs ++
      [PrintEpochCompleted 1 epochs; ModelEval].
Proof.
  intros Hr He Hl.
  destruct (split_mask_ok g len_data val_ratio (initial g) Hr)
    as (mask & g' & Hgen & Hsplit).
  cbn [initial generator locals trace app] in Hgen, Hsplit.
  assert (Hfst : fst (DataSplitMusk.generate_binary_sequence rng shuffle g
                        len_data val_ratio) = Ok mask) by now rewrite Hgen.
  pose proof (generate_binary_sequence_length rng shuffle shuffle_perm
                g len_data val_ratio mask ltac:(lia) Hr Hfst) as Hlen.
  pose proof (generate_binary_sequence_binary rng shuffle shuffle_perm
                g len_data val_ratio mask Hr Hfst) as Hbin.
  destruct (epoch_phases_raises epochs lr_scheduler batch_out ty len_data
              (Py.int (Py.mul_float_int val_ratio len_data))
              (len_data - Py.int (Py.mul_float_int val_ratio len_data))
              mask 1
              (extend {| generator := g'; locals := ∅; trace := [SplitMask mask] |}
                 [ModelTrain]) ltac:(lia) Hlen Hbin)
    as (name & evs & s' & Hraise & Hname & Hunbound & Hevs & Htrace);
    [apply lookup_empty|apply lookup_empty|].
  exists name, mask, evs, s'.
  split; [|split; [exact Hname|split; [exact Hunbound|split; [exact Hevs|]]]].
  - unfold Train.train_model.
    rewrite (bindM_ok _ _ _ _ _ Hsplit).
    rewrite (bindM_ok _ _ _ _ _ (emit_extend _ _)).
    unfold epoch_loop.
    rewrite (range_cons 1 (epochs + 1)) by lia. cbn [for_each].
    do 3 apply bindM_raise. exact Hraise.
  - rewrite Htrace. reflexivity.
Qed.

(** C9. In the evaluation phase the F1 accumulators are incremented though no
    assignment has bound them: every run with a validation fraction in range,
    at least one epoch and at least one sample raises the unbound-variable
    error for [total_train_f1] or [total_val_f1], the name still unbound at
    that point, and it does so in the first epoch right after the switch to
    evaluation mode, at the first batch of the evaluation loop. *)
Theorem evaluation_raises_unbound_f1 (times : string) (epochs : Z)
  (lr_scheduler : lr_schedule) (len_data : Z) (val_ratio : Q)
  (batch_out : bool) (ty : string) (g : rng) :
  DataSplitMusk.valid_ratio val_ratio ->
  1 <= epochs ->
  1 <= len_data <= 2 ^ 53 ->
  exists name mask evs,
    fst (train_model times epochs lr_scheduler len_data val_ratio batch_out ty
           (initial g)) = Raise (UnboundLocalError name) /\
    (name = "total_train_f1" \/ name = "total_val_f1") /\
    locals (snd (train_model times epochs lr_scheduler len_data val_ratio
                   batch_out ty (initial g))) !! name = None /\
    Forall training_event evs /\
    trace (snd (train_model times epochs lr_scheduler len_data val_ratio
                  batch_out ty (initial g))) =
      SplitMask mask :: ModelTrain :: EpochBegin 1 :: ModelTrain :: evs ++
      [PrintEpochCompleted 1 epochs; ModelEval].
Proof.
  intros Hr He Hl.
  destruct (train_model_raises times epochs lr_scheduler len_data val_ratio
              batch_out ty g Hr He Hl)
    as (name & mask & evs & s' & Hrun & Hname & Hunbound & Hevs & Htrace).
  exists name, mask, evs. rewrite Hrun. cbn [fst snd]. auto.
Qed.

(** C5, on the code as it stands.  A run with a validation fraction in range,
    at least one epoch and at least one sample writes no checkpoint at all:
    it raises in the evaluation phase of the first epoch, before the
    checkpoint of any epoch and before the final one. *)
Theorem no_checkpoint_written (times : string) (epochs : Z)
  (lr_scheduler : lr_schedule) (len_data : Z) (val_ratio : Q)
  (batch_out : bool) (ty : string) (g : rng) :
  DataSplitMusk.valid_ratio val_ratio ->
  1 <= epochs ->
  1 <= len_data <= 2 ^ 53 ->
  (exists name,
     fst (train_model times epochs lr_scheduler len_data val_ratio batch_out ty
            (initial g)) = Raise (UnboundLocalError name)) /\
  saved (trace (snd (train_model times epochs lr_scheduler len_data val_ratio
                       batch_out ty (initial g)))) = [].
Proof.
  intros Hr He Hl.
  destruct (train_model_raises times epochs lr_scheduler len_data val_ratio
              batch_out ty g Hr He Hl)
    as (name & mask & evs & s' & Hrun & _ & _ & Hevs & Htrace).
  rewrite Hrun. cbn [fst snd]. split; [now exists name|].
  rewrite Htrace.
  change (SplitMask mask :: ModelTrain :: EpochBegin 1 :: ModelTrain ::
          evs ++ [PrintEpochCompleted 1 epochs; ModelEval])
    with ([SplitMask mask; ModelTrain; EpochBegin 1; ModelTrain] ++
          evs ++ [PrintEpochCompleted 1 epochs; ModelEval]).
  rewrite !saved_app, (saved_training evs Hevs). reflexivity.
Qed.

End Runs.

End TrainFacts.

(** ** The driver on sample runs *)

Lemma checkpoint_epochs_23 : Train.checkpoint_epochs 23 = [10; 20; 23].
Proof. reflexivity. Qed.

(** One epoch over two samples: the mask is drawn before the loop is
    entered, and the run stops in the evaluation phase. *)
Lemma sample_run_1_2 :
  Sample.run 1 2 =
  (Raise (UnboundLocalError "total_train_f1"),
   {| Train.generator := tt;
      Train.locals :=
        <["total_train_loss" := (0 + 1)%Q]>
          (<["total_train_acc" := (0 + 1)%Q]>
             (<["total_val_acc" := 0%Q]>
                (<["total_val_loss" := 0%Q]>
                   (<["total_train_acc" := 0%Q]>
                      (<["total_train_loss" := 0%Q]> ∅)))));
      Train.trace :=
        [Train.SplitMask [1; 1]; Train.ModelTrain; Train.EpochBegin 1;
         Train.ModelTrain; Train.OptimizerStep 1 0; Train.PrintBatch 1 0 1;
         Train.OptimizerStep 1 1; Train.PrintBatch 1 1 1;
         Train.PrintEpochCompleted 1 1; Train.ModelEval] |}).
Proof. vm_compute. reflexivity. Qed.

(** No epoch at all: the mask is drawn all the same. *)
Lemma sample_run_0_2 :
  Sample.run 0 2 =
  (Ok tt,
   {| Train.generator := tt;
      Train.locals := ∅;
      Train.trace := [Train.SplitMask [1; 1]; Train.ModelTrain] |}).
Proof. vm_compute. reflexivity. Qed.

(** C4 as stated fails: in the run of one epoch over two samples the epoch
    begins and no split mask is drawn after that. *)
Lemma mask_not_drawn_in_every_epoch :
  ~ Train.mask_drawn_in_every_epoch (Train.trace (snd (Sample.run 1 2))).
Proof.
  rewrite sample_run_1_2. cbn [snd Train.trace]. intros H.
  destruct (H [Train.SplitMask [1; 1]; Train.ModelTrain] 1
              [Train.ModelTrain; Train.OptimizerStep 1 0; Train.PrintBatch 1 0 1;
               Train.OptimizerStep 1 1; Train.PrintBatch 1 1 1;
               Train.PrintEpochCompleted 1 1; Train.ModelEval] eq_refl)
    as [mask Hin].
  cbn in Hin. repeat (destruct Hin as [Hin|Hin]; [discriminate|]). exact Hin.
Qed.

Lemma split_mask_drawn_once_witness :
  exists mask rest,
    fst (DataSplitMusk.generate_binary_sequence unit Sample.shuffle
           tt 2 (Binary64.round 0.15)) = Ok mask /\
    Train.trace (snd (Sample.run 3 2)) = Train.SplitMask mask :: rest /\
    (forall mask', ~ In (Train.SplitMask mask') rest) /\
    (forall epoch batch_idx,
       In (Train.OptimizerStep epoch batch_idx) rest ->
       Py.index mask batch_idx = Ok 1).
Proof.
  apply (split_mask_drawn_once unit Sample.shuffle
           Sample.metric Sample.metric Sample.metric Sample.metric
           "run1" 3 (Train.FixedRate (Binary64.round 0.001)) 2
           (Binary64.round 0.15) true "batch" tt).
  split; vm_compute; discriminate.
Defined.

Lemma evaluation_raises_unbound_f1_witness :
  exists name mask evs,
    fst (Sample.run 23 10) = Raise (UnboundLocalError name) /\
    (name = "total_train_f1" \/ name = "total_val_f1") /\
    Train.locals (snd (Sample.run 23 10)) !! name = None /\
    Forall Train.training_event evs /\
    Train.trace (snd (Sample.run 23 10)) =
      Train.SplitMask mask :: Train.ModelTrain :: Train.EpochBegin 1 ::
      Train.ModelTrain :: evs ++
      [Train.PrintEpochCompleted 1 23; Train.ModelEval].
Proof.
  apply (evaluation_raises_unbound_f1 unit Sample.shuffle
           Sample.metric Sample.metric Sample.metric Sample.metric
           sample_shuffle_perm
           "run1" 23 (Train.FixedRate (Binary64.round 0.001)) 10
           (Binary64.round 0.15) true "batch" tt).
  - split; vm_compute; discriminate.
  - lia.
  - lia.
Defined.

Lemma no_checkpoint_written_witness :
  (exists name, fst (Sample.run 23 10) = Raise (UnboundLocalError name)) /\
  Train.saved (Train.trace (snd (Sample.run 23 10))) = [].
Proof.
  apply (no_checkpoint_written unit Sample.shuffle
           Sample.metric Sample.metric Sample.metric Sample.metric
           sample_shuffle_perm
           "run1" 23 (Train.FixedRate (Binary64.round 0.001)) 10
           (Binary64.round 0.15) true "batch" tt).
  - split; vm_compute; discriminate.
  - lia.
  - lia.
Defined.

(** * Further facts: rounding respects equality of rationals *)

Section RoundingEquality.

Import Binary64.

Lemma ilog2_comp (x y : Q) : (0 < x)%Q -> (x == y)%Q -> ilog2 x = ilog2 y.
Proof.
  intros Hx E.
  assert (H1 : ilog2 x <= ilog2 y).
  { apply ilog2_mono; [exact Hx|rewrite E; apply Qle_refl]. }
  assert (H2 : ilog2 y <= ilog2 x).
  { apply ilog2_mono; [rewrite <- E; exact Hx|rewrite E; apply Qle_refl]. }
  lia.
Qed.

Lemma round_pos_comp (x y : Q) :
  (0 < x)%Q -> (x == y)%Q -> (round_pos x == round_pos y)%Q.
Proof.
  intros Hx E. unfold round_pos. rewrite (ilog2_comp x y Hx E).
  assert (E' : (x / pow2 (ilog2 y - 52) == y / pow2 (ilog2 y - 52))%Q)
    by now rewrite E.
  now rewrite (rne_comp _ _ E').
Qed.

Lemma round_comp (x y : Q) : (x == y)%Q -> (round x == round y)%Q.
Proof.
  intros E. unfold round.
  rewrite (Qcompare_comp x y E 0%Q 0%Q (Qeq_refl 0%Q)).
  destruct (Qcompare_spec y 0) as [H|H|H]; [reflexivity| |].
  - apply Qopp_comp, round_pos_comp; [rewrite E; lra|now rewrite E].
  - apply round_pos_comp; [rewrite E; exact H|exact E].
Qed.

End RoundingEquality.

(** * Further facts: truncation *)

Section TruncationFacts.

Lemma int_comp_nonneg (x y : Q) : (0 <= x)%Q -> (x == y)%Q -> Py.int x = Py.int y.
Proof.
  intros Hx E. rewrite !int_nonneg; [now apply Qfloor_comp| |exact Hx].
  now rewrite <- E.
Qed.

(** Truncation of a number between a negative integer and 0 stays there. *)
Lemma int_nonpos (n : Z) (x : Q) :
  (inject_Z n <= x)%Q -> (x <= 0)%Q -> n <= Py.int x <= 0.
Proof.
  destruct x as [a d]. unfold Qle, Py.int. cbn [Qnum Qden inject_Z].
  intros H1 H2.
  assert (Ha : a <= 0) by lia.
  replace a with (- (- a)) by lia. rewrite Z.quot_opp_l by lia.
  rewrite Z.quot_div_nonneg by lia.
  assert (0 <= - a / Z.pos d) by (apply Z.div_pos; lia).
  assert (- a / Z.pos d <= - n).
  { apply Z.div_le_upper_bound; lia. }
  lia.
Qed.

End TruncationFacts.

(** * Further facts about utils/data_split_musk.py *)

Section SplitMaskEdges.

Import DataSplitMusk.

Variable rng : Type.
Variable shuffle : rng -> list Z -> list Z * rng.
Hypothesis shuffle_perm : forall g l, Permutation l (fst (shuffle g l)).

Local Abbreviation gbs := (generate_binary_sequence rng shuffle).

Lemma round_int_eq (n : Z) (x : Q) :
  Z.abs n <= 2 ^ 53 -> (x == inject_Z n)%Q ->
  (Binary64.round x == inject_Z n)%Q.
Proof. intros Hn E. rewrite (round_comp x _ E). now apply round_int. Qed.

(** X1. A negative length is not rejected: with a ratio in range the call
    returns the empty sequence. *)
Theorem negative_length_gives_empty (g : rng) (length : Z) (zero_ratio : Q) :
  - 2 ^ 53 <= length < 0 ->
  valid_ratio zero_ratio ->
  fst (generate_binary_sequence rng shuffle g length zero_ratio) = Ok [].
Proof.
  intros Hl Hr. rewrite generate_binary_sequence_ok by assumption. cbn zeta.
  cbn [fst]. destruct Hr as [H0 H1].
  assert (HL : (Binary64.round (inject_Z length) == inject_Z length)%Q)
    by (apply round_int; lia).
  assert (Hneg : (inject_Z length <= 0)%Q).
  { change 0%Q with (inject_Z 0). rewrite <- Zle_Qle. lia. }
  assert (Hp1 : (inject_Z length <= Py.float length * zero_ratio)%Q).
  { unfold Py.float. rewrite HL. nra. }
  assert (Hp2 : (Py.float length * zero_ratio <= 0)%Q).
  { unfold Py.float. rewrite HL. nra. }
  assert (Hz : length <= Py.int (Py.mul_int_float length zero_ratio) <= 0).
  { apply int_nonpos; unfold Py.mul_int_float.
    - apply Qle_trans with (Binary64.round (inject_Z length));
        [rewrite HL; apply Qle_refl|now apply round_mono].
    - change 0%Q with (Binary64.round 0). now apply round_mono. }
  unfold Py.list_repeat.
  replace (Z.to_nat (Py.int (Py.mul_int_float length zero_ratio)))
    with 0%nat by lia.
  replace (Z.to_nat (length - Py.int (Py.mul_int_float length zero_ratio)))
    with 0%nat by lia.
  cbn [repeat app].
  pose proof (shuffle_perm g []) as Hp. apply Permutation_nil in Hp.
  now rewrite Hp.
Qed.

(** X2. At the ends of the range the shuffle has nothing to decide: ratio 0
    gives [length] ones and ratio 1 gives [length] zeros. *)
Theorem extreme_ratios (g : rng) (length : Z) (zero_ratio : Q) :
  0 <= length <= 2 ^ 53 ->
  ((zero_ratio == 0)%Q ->
   fst (generate_binary_sequence rng shuffle g length zero_ratio) =
     Ok (repeat 1 (Z.to_nat length))) /\
  ((zero_ratio == 1)%Q ->
   fst (generate_binary_sequence rng shuffle g length zero_ratio) =
     Ok (repeat 0 (Z.to_nat length))).
Proof.
  intros Hl.
  assert (HL : (Binary64.round (inject_Z length) == inject_Z length)%Q)
    by (apply round_int; lia).
  split; intros E.
  - rewrite generate_binary_sequence_ok by (unfold valid_ratio; rewrite E; lra).
    cbn zeta. cbn [fst].
    assert (Hz : Py.int (Py.mul_int_float length zero_ratio) = 0).
    { unfold Py.mul_int_float, Py.float.
      assert (E0 : (Binary64.round
                      (Binary64.round (inject_Z length) * zero_ratio) ==
                    inject_Z 0)%Q).
      { apply round_int_eq; [simpl; lia|]. rewrite E. ring. }
      rewrite (int_comp_nonneg _ (inject_Z 0)); [reflexivity| |exact E0].
      rewrite E0. apply Qle_refl. }
    rewrite Hz. unfold Py.list_repeat. cbn [Z.to_nat repeat app].
    rewrite Z.sub_0_r. f_equal. apply Permutation_repeat.
    symmetry. apply shuffle_perm.
  - rewrite generate_binary_sequence_ok by (unfold valid_ratio; rewrite E; lra).
    cbn zeta. cbn [fst].
    assert (Hz : Py.int (Py.mul_int_float length zero_ratio) = length).
    { unfold Py.mul_int_float, Py.float.
      assert (E1 : (Binary64.round
                      (Binary64.round (inject_Z length) * zero_ratio) ==
                    inject_Z length)%Q).
      { apply round_int_eq; [lia|]. rewrite E, HL. ring. }
      assert (Hpos : (0 <= inject_Z length)%Q).
      { change 0%Q with (inject_Z 0). rewrite <- Zle_Qle. lia. }
      rewrite (int_comp_nonneg _ (inject_Z length));
        [|rewrite E1; exact Hpos|exact E1].
      rewrite int_nonneg by exact Hpos. apply Qfloor_Z. }
    rewrite Hz, Z.sub_diag. unfold Py.list_repeat.
    cbn [Z.to_nat repeat]. rewrite app_nil_r. f_equal.
    apply Permutation_repeat. symmetry. apply shuffle_perm.
Qed.

End SplitMaskEdges.

Lemma negative_length_gives_empty_witness :
  fst (DataSplitMusk.generate_binary_sequence unit Sample.shuffle
         tt (-10) (Binary64.round 0.3)) = Ok [].
Proof.
  apply (negative_length_gives_empty unit Sample.shuffle sample_shuffle_perm
           tt (-10) (Binary64.round 0.3)).
  - lia.
  - split; vm_compute; discriminate.
Defined.

Lemma extreme_ratios_witness :
  fst (DataSplitMusk.generate_binary_sequence unit Sample.shuffle tt 4 0)
    = Ok [1; 1; 1; 1] /\
  fst (DataSplitMusk.generate_binary_sequence unit Sample.shuffle tt 4 1)
    = Ok [0; 0; 0; 0].
Proof.
  split.
  - apply (extreme_ratios unit Sample.shuffle sample_shuffle_perm tt 4 0);
      [lia|reflexivity].
  - apply (extreme_ratios unit Sample.shuffle sample_shuffle_perm tt 4 1);
      [lia|reflexivity].
Defined.

(** * Further facts about train.py *)

Section DriverEdges.

Import Train.

Variable rng : Type.
Variable shuffle : rng -> list Z -> list Z * rng.
Variable train_loss : Z -> Z -> Q.
Variable eval_loss : Z -> Z -> Q.
Variable eval_acc : Z -> Z -> Q.
Variable eval_f1 : Z -> Z -> Q.

Local Abbreviation train_batch := (Train.train_batch rng train_loss).
Local Abbreviation eval_batch := (Train.eval_batch rng eval_loss eval_acc eval_f1).
Local Abbreviation epoch_phases :=
  (Train.epoch_phases rng train_loss eval_loss eval_acc eval_f1).
Local Abbreviation train_model :=
  (Train.train_model rng shuffle train_loss eval_loss eval_acc eval_f1).

Lemma round_2_1023 :
  (Binary64.round (inject_Z (2 ^ 1023)) == inject_Z (2 ^ 1023))%Q /\
  (Binary64.round (- inject_Z (2 ^ 1023)) == - inject_Z (2 ^ 1023))%Q.
Proof. split; vm_compute; reflexivity. Qed.

(** The product of line 65 stays a finite float when the fraction is at
    most [2^970] in size and the sample count at most [2^53]. *)
Lemma len_val_product_finite (len_data : Z) (val_ratio : Q) :
  Z.abs len_data <= 2 ^ 53 ->
  (Qabs val_ratio <= inject_Z (2 ^ 970))%Q ->
  (Qabs (Py.mul_float_int val_ratio len_data) <= inject_Z (2 ^ 1023))%Q.
Proof.
  intros Hl Hv. unfold Py.mul_float_int, Py.float.
  assert (HL : (Binary64.round (inject_Z len_data) == inject_Z len_data)%Q)
    by (apply round_int; exact Hl).
  assert (Hlen : (Qabs (inject_Z len_data) <= inject_Z (2 ^ 53))%Q).
  { apply Qabs_Qle_condition. split.
    - rewrite <- inject_Z_opp, <- Zle_Qle. lia.
    - rewrite <- Zle_Qle. lia. }
  assert (Hprod : (Qabs (val_ratio * Binary64.round (inject_Z len_data)) <=
                   inject_Z (2 ^ 1023))%Q).
  { rewrite HL, Qabs_Qmult.
    change (2 ^ 1023) with (2 ^ 970 * 2 ^ 53). rewrite inject_Z_mult.
    apply Qle_trans with (inject_Z (2 ^ 970) * Qabs (inject_Z len_data))%Q.
    - apply Qmult_le_compat_r; [exact Hv|apply Qabs_nonneg].
    - rewrite !(Qmult_comm (inject_Z (2 ^ 970))).
      apply Qmult_le_compat_r; [exact Hlen|].
      change 0%Q with (inject_Z 0). rewrite <- Zle_Qle. lia. }
  destruct round_2_1023 as [Hpos Hneg].
  apply Qabs_Qle_condition in Hprod as [H1 H2].
  apply Qabs_Qle_condition. split.
  - rewrite <- Hneg. now apply round_mono.
  - rewrite <- Hpos. now apply round_mono.
Qed.

(** X4. A validation fraction outside [[0, 1]] stops the run before anything
    is done: no epoch begins, nothing is written, the generator is not
    advanced.  The fraction is taken of a size (at most [2^970], over at
    most [2^53] samples) for which [val_ratio * len_data] of line 65 is
    still a finite float, so that [int] returns and the check of the
    fraction is reached. *)
Theorem invalid_ratio_stops_run (times : string) (epochs : Z)
  (lr_scheduler : lr_schedule) (len_data : Z) (val_ratio : Q)
  (batch_out : bool) (ty : string) (g : rng) :
  ~ DataSplitMusk.valid_ratio val_ratio ->
  Z.abs len_data <= 2 ^ 53 ->
  (Qabs val_ratio <= inject_Z (2 ^ 970))%Q ->
  (Qabs (Py.mul_float_int val_ratio len_data) <= inject_Z (2 ^ 1023))%Q /\
  train_model times epochs lr_scheduler len_data val_ratio batch_out ty
    (initial g) = (Raise ValueError, initial g).
Proof.
  intros Hr Hl Hv. split; [now apply len_val_product_finite|].
  unfold Train.train_model, bindM, Train.split_mask.
  cbn [initial generator locals trace].
  now rewrite (generate_binary_sequence_raises rng shuffle g len_data
                 val_ratio Hr).
Qed.

(** X5. With no epoch to run ([epochs <= 0]) the call returns after drawing
    the mask; a checkpoint of the untouched model is still written when
    [epochs] is not a multiple of 10, that is for some negative counts. *)
Theorem no_epoch_run (times : string) (epochs : Z)
  (lr_scheduler : lr_schedule) (len_data : Z) (val_ratio : Q)
  (batch_out : bool) (ty : string) (g : rng) :
  DataSplitMusk.valid_ratio val_ratio ->
  epochs <= 0 ->
  exists mask g',
    DataSplitMusk.generate_binary_sequence rng shuffle g len_data val_ratio =
      (Ok mask, g') /\
    train_model times epochs lr_scheduler len_data val_ratio batch_out ty
      (initial g) =
      (Ok tt,
       {| generator := g';
          locals := ∅;
          trace := SplitMask mask :: ModelTrain ::
                   (if epochs mod 10 =? 0 then []
                    else [Save (checkpoint_path times epochs)]) |}).
Proof.
  intros Hr He.
  destruct (split_mask_ok rng shuffle g len_data val_ratio (initial g) Hr)
    as (mask & g' & Hgen & Hsplit).
  cbn [initial generator locals trace app] in Hgen, Hsplit.
  exists mask, g'. split; [exact Hgen|].
  unfold Train.train_model. rewrite (bindM_ok _ _ _ _ _ _ Hsplit).
  rewrite (bindM_ok _ _ _ _ _ _ (emit_extend _ _ _)).
  unfold epoch_loop. rewrite (range_empty 1 (epochs + 1)) by lia.
  cbn [for_each]. unfold bindM at 1, ret, final_checkpoint.
  destruct (epochs mod 10 =? 0); reflexivity.
Qed.

(** ** Counting optimizer and scheduler steps *)

Lemma optimizer_steps_app (tr tr' : list event) :
  optimizer_steps (tr ++ tr') = (optimizer_steps tr + optimizer_steps tr')%nat.
Proof. unfold optimizer_steps. now rewrite List.filter_app, length_app. Qed.

Lemma scheduler_steps_app (tr tr' : list event) :
  scheduler_steps (tr ++ tr') = (scheduler_steps tr + scheduler_steps tr')%nat.
Proof. unfold scheduler_steps. now rewrite List.filter_app, length_app. Qed.

Lemma scheduler_step_run (lr_scheduler : lr_schedule) (ty granularity : string)
  (s : state rng) :
  scheduler_step lr_scheduler ty granularity s =
  (Ok tt, extend s (scheduler_events lr_scheduler ty granularity)).
Proof.
  unfold scheduler_step, scheduler_events.
  destruct lr_scheduler; [unfold ret; now rewrite extend_nil|].
  destruct (String.eqb ty granularity);
    [reflexivity|unfold ret; now rewrite extend_nil].
Qed.

Lemma optimizer_steps_scheduler (lr_scheduler : lr_schedule)
  (ty granularity : string) :
  optimizer_steps (scheduler_events lr_scheduler ty granularity) = 0%nat.
Proof.
  unfold scheduler_events. destruct lr_scheduler; [reflexivity|].
  now destruct (String.eqb ty granularity).
Qed.

(** One iteration of the training loop: an optimizer step exactly at a
    training position, and the batch-level scheduler step whatever the
    position. *)
Lemma train_batch_run (mask : list Z) (lr_scheduler : lr_schedule)
  (batch_out : bool) (ty : string) (epoch batch_idx m : Z) (s : state rng) :
  Py.index mask batch_idx = Ok m ->
  exists evs,
    train_batch mask lr_scheduler batch_out ty epoch batch_idx s =
      (Ok tt, extend s evs) /\
    optimizer_steps evs = (if m =? 1 then 1%nat else 0%nat) /\
    scheduler_steps evs =
      scheduler_steps (scheduler_events lr_scheduler ty "batch").
Proof.
  intros Hm. unfold Train.train_batch, bindM at 1, lift. rewrite Hm.
  destruct (m =? 1); [destruct batch_out|].
  - exists ([OptimizerStep epoch batch_idx;
             PrintBatch epoch batch_idx (train_loss epoch batch_idx)] ++
            scheduler_events lr_scheduler ty "batch").
    split; [|split].
    + unfold bindM, emit. rewrite scheduler_step_run. unfold extend.
      cbn [generator locals trace]. now rewrite <- !app_assoc.
    + now rewrite optimizer_steps_app, optimizer_steps_scheduler.
    + now rewrite scheduler_steps_app.
  - exists ([OptimizerStep epoch batch_idx] ++
            scheduler_events lr_scheduler ty "batch").
    split; [|split].
    + unfold bindM, emit, ret. rewrite scheduler_step_run. unfold extend.
      cbn [generator locals trace]. now rewrite <- !app_assoc.
    + now rewrite optimizer_steps_app, optimizer_steps_scheduler.
    + now rewrite scheduler_steps_app.
  - exists (scheduler_events lr_scheduler ty "batch").
    split; [|split].
    + unfold bindM, ret. now rewrite scheduler_step_run.
    + apply optimizer_steps_scheduler.
    + reflexivity.
Qed.

(** The training loop from position [length pre] on, over a mask
    [pre ++ suf]. *)
Lemma train_loop_counts (mask : list Z) (lr_scheduler : lr_schedule)
  (batch_out : bool) (ty : string) (epoch : Z) :
  forall (suf pre : list Z) (s : state rng),
    mask = pre ++ suf ->
    exists evs,
      for_each (Py.range (Z.of_nat (List.length pre))
                  (Z.of_nat (List.length mask)))
        (train_batch mask lr_scheduler batch_out ty epoch) s =
        (Ok tt, extend s evs) /\
      optimizer_steps evs = count_occ Z.eq_dec suf 1 /\
      scheduler_steps evs =
        (List.length suf *
         scheduler_steps (scheduler_events lr_scheduler ty "batch"))%nat.
Proof.
  induction suf as [|m suf IH]; intros pre s E.
  - rewrite range_empty by (subst mask; rewrite app_nil_r; lia).
    exists []. rewrite extend_nil. now cbn.
  - assert (Hlt : Z.of_nat (List.length pre) < Z.of_nat (List.length mask)).
    { subst mask. rewrite length_app. cbn [List.length]. lia. }
    rewrite range_cons by exact Hlt. cbn [for_each].
    assert (Hm : Py.index mask (Z.of_nat (List.length pre)) = Ok m).
    { destruct (index_in_range mask (Z.of_nat (List.length pre)))
        as (x & Hx & Hn); [lia|].
      rewrite Hx. f_equal. rewrite Nat2Z.id in Hn. subst mask.
      rewrite nth_error_app2, Nat.sub_diag in Hn by lia.
      cbn in Hn. congruence. }
    destruct (train_batch_run mask lr_scheduler batch_out ty epoch _ m s Hm)
      as (evs1 & Hrun1 & Ho1 & Hs1).
    rewrite (bindM_ok _ _ _ _ _ _ Hrun1).
    destruct (IH (pre ++ [m]) (extend s evs1)) as (evs2 & Hrun2 & Ho2 & Hs2).
    { subst mask. now rewrite <- app_assoc. }
    rewrite length_app in Hrun2. cbn [List.length] in Hrun2.
    replace (Z.of_nat (List.length pre + 1))
      with (Z.of_nat (List.length pre) + 1) in Hrun2 by lia.
    rewrite Hrun2, extend_extend. exists (evs1 ++ evs2).
    split; [reflexivity|].
    rewrite optimizer_steps_app, scheduler_steps_app, Ho1, Ho2, Hs1, Hs2.
    cbn [count_occ List.length]. split; [|lia].
    destruct (Z.eq_dec m 1) as [->|Hne]; [reflexivity|].
    destruct (Z.eqb_spec m 1); [contradiction|reflexivity].
Qed.

(** The trace of the body of the epoch loop, given the run of its training
    loop. *)
Lemma epoch_phases_trace (epochs : Z) (lr_scheduler : lr_schedule)
  (batch_out : bool) (ty : string) (len_data len_val len_train : Z)
  (mask : list Z) (epoch : Z) (s : state rng) (evs : list event) :
  1 <= len_data ->
  List.length mask = Z.to_nat len_data ->
  Forall (fun b => b = 0 \/ b = 1) mask ->
  locals s !! "total_train_f1" = None ->
  locals s !! "total_val_f1" = None ->
  for_each (Py.range 0 len_data)
    (train_batch mask lr_scheduler batch_out ty epoch)
    (extend (extend s [EpochBegin epoch]) [ModelTrain]) =
    (Ok tt, extend (extend (extend s [EpochBegin epoch]) [ModelTrain]) evs) ->
  exists e s',
    epoch_phases epochs lr_scheduler batch_out ty
      len_data len_val len_train mask epoch s = (Raise e, s') /\
    trace s' =
      trace s ++ [EpochBegin epoch; ModelTrain] ++ evs ++
      scheduler_events lr_scheduler ty "epoch" ++
      [PrintEpochCompleted epoch epochs; ModelEval].
Proof.
  intros Hlen Hmask Hbin Htf Hvf Hphase.
  destruct (index_in_range mask 0) as (m & Hm & Hnth); [lia|].
  assert (Hm01 : m = 0 \/ m = 1).
  { rewrite List.Forall_forall in Hbin. apply Hbin.
    eapply nth_error_In. exact Hnth. }
  set (s2 := {| generator := generator s;
                locals := <["total_val_acc" := 0%Q]>
                            (<["total_val_loss" := 0%Q]>
                               (<["total_train_acc" := 0%Q]>
                                  (<["total_train_loss" := 0%Q]> (locals s))));
                trace := trace (extend
                                  (extend
                                     (extend
                                        (extend
                                           (extend (extend s [EpochBegin epoch])
                                              [ModelTrain]) evs)
                                        (scheduler_events lr_scheduler ty
                                           "epoch"))
                                     [PrintEpochCompleted epoch epochs])
                                  [ModelEval]) |}).
  destruct (eval_batch_raises rng eval_loss eval_acc eval_f1 mask epoch 0 m s2
              Hm Hm01)
    as (name & s' & Hraise & _ & _ & Htrace).
  { exists 0%Q. unfold s2. cbn [locals].
    now rewrite !lookup_insert_ne, lookup_insert_eq by done. }
  { exists 0%Q. unfold s2. cbn [locals].
    now rewrite !lookup_insert_ne, lookup_insert_eq by done. }
  { exists 0%Q. unfold s2. cbn [locals].
    now rewrite !lookup_insert_ne, lookup_insert_eq by done. }
  { exists 0%Q. unfold s2. cbn [locals]. now rewrite lookup_insert_eq. }
  { unfold s2. cbn [locals]. now rewrite !lookup_insert_ne by done. }
  { unfold s2. cbn [locals]. now rewrite !lookup_insert_ne by done. }
  exists (UnboundLocalError name), s'. split.
  - unfold Train.epoch_phases.
    rewrite (bindM_ok _ _ _ _ _ _ (emit_extend _ _ _)).
    rewrite (bindM_ok _ _ _ _ _ _ (emit_extend _ _ _)).
    rewrite (bindM_ok _ _ _ _ _ _ Hphase).
    rewrite (bindM_ok _ _ _ _ _ _ (scheduler_step_run _ _ _ _)).
    rewrite (bindM_ok _ _ _ _ _ _ (emit_extend _ _ _)).
    rewrite (bindM_ok _ _ _ _ _ _ (emit_extend _ _ _)).
    unfold bindM at 1, assign at 1. unfold bindM at 1, assign at 1.
    unfold bindM at 1, assign at 1. unfold bindM at 1, assign at 1.
    cbn [generator locals trace extend].
    rewrite (range_cons 0 len_data) by lia. cbn [for_each].
    apply bindM_raise. apply bindM_raise. exact Hraise.
  - rewrite Htrace. unfold s2, extend. cbn [trace].
    rewrite <- !app_assoc. reflexivity.
Qed.

Section Splitting.

Hypothesis shuffle_perm : forall g l, Permutation l (fst (shuffle g l)).

(** [int(val_ratio * len_data)] of the driver and
    [int(length * zero_ratio)] of the mask are one number. *)
Lemma len_val_zeros_count (len_data : Z) (val_ratio : Q) :
  0 <= len_data <= 2 ^ 53 ->
  DataSplitMusk.valid_ratio val_ratio ->
  Py.int (Py.mul_float_int val_ratio len_data) =
  Qfloor (Py.mul_int_float len_data val_ratio).
Proof.
  intros Hl Hr. rewrite <- zeros_count_floor by assumption.
  symmetry. apply int_comp_nonneg.
  - now apply product_bounds.
  - unfold Py.mul_int_float, Py.mul_float_int.
    apply round_comp, Qmult_comm.
Qed.

(** The zeros and ones of the mask. *)
Lemma mask_counts (g : rng) (len_data : Z) (val_ratio : Q) :
  0 <= len_data <= 2 ^ 53 ->
  DataSplitMusk.valid_ratio val_ratio ->
  exists mask,
    fst (DataSplitMusk.generate_binary_sequence rng shuffle g
           len_data val_ratio) = Ok mask /\
    Z.of_nat (count_occ Z.eq_dec mask 0) =
      Qfloor (Py.mul_int_float len_data val_ratio) /\
    Z.of_nat (count_occ Z.eq_dec mask 1) =
      len_data - Qfloor (Py.mul_int_float len_data val_ratio).
Proof.
  intros Hl Hr.
  pose proof (zeros_count_bounds len_data val_ratio Hl Hr) as Hb.
  pose proof (generate_binary_sequence_ok rng shuffle g len_data val_ratio Hr)
    as Hok.
  cbn zeta in Hok. rewrite zeros_count_floor in Hok by assumption.
  set (z := Qfloor (Py.mul_int_float len_data val_ratio)) in *.
  set (pre := Py.list_repeat 0 z ++ Py.list_repeat 1 (len_data - z)) in *.
  pose proof (shuffle_perm g pre) as Hp.
  exists (fst (shuffle g pre)). rewrite Hok. cbn [fst].
  split; [reflexivity|]. split.
  - rewrite <- (proj1 (Permutation_count_occ Z.eq_dec _ _) Hp 0).
    unfold pre, Py.list_repeat. rewrite count_occ_app.
    rewrite count_occ_repeat_eq by reflexivity.
    rewrite count_occ_repeat_neq by discriminate. lia.
  - rewrite <- (proj1 (Permutation_count_occ Z.eq_dec _ _) Hp 1).
    unfold pre, Py.list_repeat. rewrite count_occ_app.
    rewrite count_occ_repeat_neq by discriminate.
    rewrite count_occ_repeat_eq by reflexivity. lia.
Qed.

(** X3. The sizes by which the driver divides the accumulated metrics are the
    sizes of the two parts of the mask: [len_val] positions hold 0 and
    [len_train] positions hold 1. *)
Theorem split_sizes_agree (g : rng) (len_data : Z) (val_ratio : Q) :
  0 <= len_data <= 2 ^ 53 ->
  DataSplitMusk.valid_ratio val_ratio ->
  exists mask,
    fst (DataSplitMusk.generate_binary_sequence rng shuffle g
           len_data val_ratio) = Ok mask /\
    Z.of_nat (count_occ Z.eq_dec mask 0) =
      Py.int (Py.mul_float_int val_ratio len_data) /\
    Z.of_nat (count_occ Z.eq_dec mask 1) =
      len_data - Py.int (Py.mul_float_int val_ratio len_data).
Proof.
  intros Hl Hr.
  destruct (mask_counts g len_data val_ratio Hl Hr) as (mask & Hmask & H0 & H1).
  exists mask. rewrite len_val_zeros_count by assumption. auto.
Qed.

(** X6. In the one epoch a run gets through, the optimizer steps once for each
    of the [len_train] training positions, and a scheduler stepped by batch
    steps on every batch of the loader, validation positions included; a
    scheduler stepped by epoch steps once. *)
Theorem first_epoch_step_counts (times : string) (epochs : Z)
  (lr_scheduler : lr_schedule) (len_data : Z) (val_ratio : Q)
  (batch_out : bool) (ty : string) (g : rng) :
  DataSplitMusk.valid_ratio val_ratio ->
  1 <= epochs ->
  1 <= len_data <= 2 ^ 53 ->
  Z.of_nat
    (optimizer_steps
       (trace (snd (train_model times epochs lr_scheduler len_data val_ratio
                      batch_out ty (initial g))))) =
    len_data - Py.int (Py.mul_float_int val_ratio len_data) /\
  scheduler_steps
    (trace (snd (train_model times epochs lr_scheduler len_data val_ratio
                   batch_out ty (initial g)))) =
    match lr_scheduler with
    | FixedRate _ => 0%nat
    | Scheduler =>
        if String.eqb ty "batch" then Z.to_nat len_data
        else if String.eqb ty "epoch" then 1%nat
        else 0%nat
    end.
Proof.
  intros Hr He Hl.
  destruct (split_mask_ok rng shuffle g len_data val_ratio (initial g) Hr)
    as (mask & g' & Hgen & Hsplit).
  cbn [initial generator locals trace app] in Hgen, Hsplit.
  assert (Hfst : fst (DataSplitMusk.generate_binary_sequence rng shuffle g
                        len_data val_ratio) = Ok mask) by now rewrite Hgen.
  pose proof (generate_binary_sequence_length rng shuffle shuffle_perm
                g len_data val_ratio mask ltac:(lia) Hr Hfst) as Hlen.
  pose proof (generate_binary_sequence_binary rng shuffle shuffle_perm
                g len_data val_ratio mask Hr Hfst) as Hbin.
  destruct (mask_counts g len_data val_ratio ltac:(lia) Hr)
    as (mask' & Hmask' & _ & Hones).
  rewrite Hfst in Hmask'. injection Hmask' as <-.
  rewrite <- len_val_zeros_count in Hones by (assumption || lia).
  set (s0 := extend {| generator := g'; locals := ∅;
                       trace := [SplitMask mask] |} [ModelTrain]).
  destruct (train_loop_counts mask lr_scheduler batch_out ty 1 mask []
              (extend (extend s0 [EpochBegin 1]) [ModelTrain]) eq_refl)
    as (evs & Hloop & Hopt & Hsch).
  cbn [List.length Z.of_nat] in Hloop.
  replace (Z.of_nat (List.length mask)) with len_data in Hloop by lia.
  destruct (epoch_phases_trace epochs lr_scheduler batch_out ty len_data
              (Py.int (Py.mul_float_int val_ratio len_data))
              (len_data - Py.int (Py.mul_float_int val_ratio len_data))
              mask 1 s0 evs ltac:(lia) Hlen Hbin)
    as (e & s' & Hraise & Htrace);
    [apply lookup_empty|apply lookup_empty|exact Hloop|].
  assert (Hrun : train_model times epochs lr_scheduler len_data val_ratio
                   batch_out ty (initial g) = (Raise e, s')).
  { unfold Train.train_model.
    rewrite (bindM_ok _ _ _ _ _ _ Hsplit).
    rewrite (bindM_ok _ _ _ _ _ _ (emit_extend _ _ _)).
    unfold epoch_loop.
    rewrite (range_cons 1 (epochs + 1)) by lia. cbn [for_each].
    do 3 apply bindM_raise. exact Hraise. }
  rewrite Hrun. cbn [snd]. rewrite Htrace. unfold s0, extend. cbn [trace].
  split.
  - rewrite !optimizer_steps_app, Hopt, optimizer_steps_scheduler.
    cbn. lia.
  - rewrite !scheduler_steps_app, Hsch, Hlen.
    unfold scheduler_events. destruct lr_scheduler; [cbn; lia|].
    destruct (String.eqb_spec ty "batch") as [->|Hb]; [cbn; lia|].
    destruct (String.eqb ty "epoch"); cbn; lia.
Qed.

End Splitting.

End DriverEdges.

(** ** The edge cases on sample runs *)

Lemma invalid_ratio_stops_run_witness :
  (Qabs (Py.mul_float_int (Binary64.round 1.5) 5) <= inject_Z (2 ^ 1023))%Q /\
  Train.train_model unit Sample.shuffle
    Sample.metric Sample.metric Sample.metric Sample.metric
    "run1" 3 Train.Scheduler 5 (Binary64.round 1.5) true "batch"
    (Train.initial tt) = (Raise ValueError, Train.initial tt).
Proof.
  apply (invalid_ratio_stops_run unit Sample.shuffle
           Sample.metric Sample.metric Sample.metric Sample.metric
           "run1" 3 Train.Scheduler 5 (Binary64.round 1.5) true "batch" tt).
  - intros [_ H]. vm_compute in H. apply H. reflexivity.
  - simpl. lia.
  - vm_compute. discriminate.
Defined.

Lemma no_epoch_run_witness :
  exists mask g',
    DataSplitMusk.generate_binary_sequence unit Sample.shuffle tt 2
      (Binary64.round 0.15) = (Ok mask, g') /\
    Train.train_model unit Sample.shuffle
      Sample.metric Sample.metric Sample.metric Sample.metric
      "run1" (-3) Train.Scheduler 2 (Binary64.round 0.15) true "batch"
      (Train.initial tt) =
      (Ok tt,
       {| Train.generator := g';
          Train.locals := ∅;
          Train.trace :=
            Train.SplitMask mask :: Train.ModelTrain ::
            (if -3 mod 10 =? 0 then []
             else [Train.Save (Train.checkpoint_path "run1" (-3))]) |}).
Proof.
  apply (no_epoch_run unit Sample.shuffle
           Sample.metric Sample.metric Sample.metric Sample.metric
           "run1" (-3) Train.Scheduler 2 (Binary64.round 0.15) true "batch" tt).
  - split; vm_compute; discriminate.
  - lia.
Defined.

Lemma split_sizes_agree_witness :
  exists mask,
    fst (DataSplitMusk.generate_binary_sequence unit Sample.shuffle tt
           10 (Binary64.round 0.15)) = Ok mask /\
    Z.of_nat (count_occ Z.eq_dec mask 0) =
      Py.int (Py.mul_float_int (Binary64.round 0.15) 10) /\
    Z.of_nat (count_occ Z.eq_dec mask 1) =
      10 - Py.int (Py.mul_float_int (Binary64.round 0.15) 10).
Proof.
  apply (split_sizes_agree unit Sample.shuffle sample_shuffle_perm tt 10
           (Binary64.round 0.15)).
  - lia.
  - split; vm_compute; discriminate.
Defined.

Lemma first_epoch_step_counts_witness :
  Z.of_nat
    (Train.optimizer_steps
       (Train.trace
          (snd (Train.train_model unit Sample.shuffle
                  Sample.metric Sample.metric Sample.metric Sample.metric
                  "run1" 23 Train.Scheduler 10 (Binary64.round 0.15)
                  true "batch" (Train.initial tt))))) =
    10 - Py.int (Py.mul_float_int (Binary64.round 0.15) 10) /\
  Train.scheduler_steps
    (Train.trace
       (snd (Train.train_model unit Sample.shuffle
               Sample.metric Sample.metric Sample.metric Sample.metric
               "run1" 23 Train.Scheduler 10 (Binary64.round 0.15)
               true "batch" (Train.initial tt)))) = 10%nat.
Proof.
  apply (first_epoch_step_counts unit Sample.shuffle
           Sample.metric Sample.metric Sample.metric Sample.metric
           sample_shuffle_perm
           "run1" 23 Train.Scheduler 10 (Binary64.round 0.15) true "batch" tt).
  - split; vm_compute; discriminate.
  - lia.
  - lia.
Defined.


(** * Further facts about utils/metrics.py *)

Section MetricsEdges.

Import Metrics.

Lemma correct_le_valid (threshold : R) (ignore_index : Z)
  (xs : list R) (ys : list Z) :
  (correct_count threshold ignore_index xs ys <=
   valid_count ignore_index ys)%nat.
Proof.
  unfold correct_count, valid_count. revert ys.
  induction xs as [|x xs IH]; intros [|y ys];
    cbn [combine List.filter List.length fst snd]; try lia.
  specialize (IH ys).
  destruct (is_valid ignore_index y); cbn [andb];
    [destruct (hard_prediction threshold x =? y)|]; cbn [List.length]; lia.
Qed.

(** X8. The accuracy is a fraction: on inputs of the documented shapes the
    call returns a number between 0 and 1. *)
Theorem accuracy_in_unit_interval (pred : tensor R) (label : tensor Z)
  (threshold : R) (ignore_index : Z) :
  pixelwise pred label ->
  exists acc,
    pixel_binary_accuracy pred label threshold ignore_index = Ok (scalar acc) /\
    (0 <= acc <= 1)%R.
Proof.
  intros Hpw. rewrite pixel_binary_accuracy_value by exact Hpw.
  eexists. split; [reflexivity|].
  pose proof (correct_le_valid threshold ignore_index (data pred) (data label))
    as Hle.
  destruct (valid_count ignore_index (data label)) as [|v]; [lra|].
  set (c := correct_count threshold ignore_index (data pred) (data label)) in *.
  assert (Hv : (0 < INR (S v))%R) by (apply lt_0_INR; lia).
  assert (Hc : (0 <= INR c)%R) by apply pos_INR.
  assert (Hcv : (INR c <= INR (S v))%R) by now apply le_INR.
  assert (E : (INR c / INR (S v) * INR (S v) = INR c)%R) by (field; lra).
  nra.
Qed.

Lemma hard_prediction_binary (threshold x : R) :
  hard_prediction threshold x = 0 \/ hard_prediction threshold x = 1.
Proof.
  unfold hard_prediction.
  destruct (gt_threshold threshold (sigmoid x)); auto.
Qed.

Lemma correct_count_outside (threshold : R) (ignore_index : Z)
  (xs : list R) (ys : list Z) :
  Forall (fun y => y = ignore_index \/ (y <> 0 /\ y <> 1)) ys ->
  correct_count threshold ignore_index xs ys = 0%nat.
Proof.
  unfold correct_count. revert ys.
  induction xs as [|x xs IH]; intros [|y ys] Hall; try reflexivity.
  apply List.Forall_cons_iff in Hall as [Hy Hall].
  cbn [combine List.filter fst snd].
  replace (is_valid ignore_index y && (hard_prediction threshold x =? y))
    with false; [now apply IH|].
  symmetry. unfold is_valid. destruct Hy as [->|[H0 H1]].
  - now rewrite Z.eqb_refl.
  - apply andb_false_intro2. apply Z.eqb_neq.
    destruct (hard_prediction_binary threshold x) as [E|E]; rewrite E;
      congruence.
Qed.

(** X9. On labels that are whole numbers (a fractional label is first cut to
    a whole number by [astype('int64')], a step the integer labels here have
    behind them): a label other than 0, 1 and the sentinel is counted as a
    valid pixel and never matched, so that when no label is 0 or 1 the
    accuracy is 0 whatever the prediction. *)
Theorem labels_outside_binary_never_correct (pred : tensor R)
  (label : tensor Z) (threshold : R) (ignore_index : Z) :
  pixelwise pred label ->
  Forall (fun y => y = ignore_index \/ (y <> 0 /\ y <> 1)) (data label) ->
  pixel_binary_accuracy pred label threshold ignore_index = Ok (scalar 0).
Proof.
  intros Hpw Hall. rewrite pixel_binary_accuracy_value by exact Hpw.
  rewrite correct_count_outside by exact Hall.
  destruct (valid_count ignore_index (data label)); [reflexivity|].
  do 2 f_equal. cbn [INR]. unfold Rdiv. apply Rmult_0_l.
Qed.

(** ** The accuracy of probabilities *)

Lemma sigmoid_of_positive (p : R) : (0 < p)%R -> (0.5 < sigmoid p)%R.
Proof.
  intros Hp. unfold sigmoid.
  assert (He : (exp (- p) < 1)%R).
  { rewrite <- exp_0. apply exp_increasing. lra. }
  pose proof (exp_pos (- p)) as Hpos.
  replace 0.5%R with (/ 2)%R by lra.
  apply Rinv_lt_contravar; nra.
Qed.

Lemma hard_prediction_sigmoid (z : R) :
  hard_prediction default_threshold (sigmoid z) = 1.
Proof.
  unfold hard_prediction, default_threshold.
  rewrite (proj2 (gt_threshold_true 0.5 (sigmoid (sigmoid z)))); [reflexivity|].
  apply sigmoid_of_positive. apply sigmoid_range.
Qed.

Lemma correct_count_probabilities (ignore_index : Z) (zs : list R) (ys : list Z) :
  List.length zs = List.length ys ->
  correct_count default_threshold ignore_index (map sigmoid zs) ys =
  positive_count ignore_index ys.
Proof.
  unfold correct_count, positive_count. revert ys.
  induction zs as [|z zs IH]; intros [|y ys] Hlen; try discriminate;
    [reflexivity|].
  cbn [map combine List.filter fst snd]. rewrite hard_prediction_sigmoid.
  injection Hlen as Hlen. specialize (IH ys Hlen).
  destruct (is_valid ignore_index y && (1 =? y)); cbn [List.length];
    [f_equal|]; exact IH.
Qed.

Lemma squeeze1_data {A} (t : tensor A) : data (squeeze1 t) = data t.
Proof.
  unfold squeeze1. destruct (shape t) as [|n [|[|[|c]] rest]]; reflexivity.
Qed.

(** The sigmoid of a probability lies above one half by at least an eighth
    of the probability. *)
Lemma sigmoid_margin (p : R) :
  (0 < p <= 1)%R -> (0.5 + p / 8 <= sigmoid p)%R.
Proof.
  intros Hp. unfold sigmoid.
  set (u := exp (- p)).
  assert (Hu : (0 < u)%R) by apply exp_pos.
  assert (He : (1 + p < exp p)%R) by (apply exp_ineq1; lra).
  assert (Hue : (u * exp p = 1)%R).
  { unfold u. rewrite <- exp_plus. replace (- p + p)%R with 0%R by lra.
    apply exp_0. }
  assert (H1 : (u * (1 + p) < 1)%R) by nra.
  assert (H2 : ((0.5 + p / 8) * (1 + u) <= 1)%R) by nra.
  apply Rmult_le_reg_r with (1 + u)%R; [lra|].
  rewrite Rinv_l by lra. exact H2.
Qed.

(** X10. What the evaluation loop of train.py measures. The network is called
    with [hard_labels=False], so that its output is already a probability;
    [pixel_binary_accuracy] passes it through the sigmoid once more, and the
    sigmoid of a probability exceeds the threshold 0.5.  Where every output
    of the network is at least [2^-16] (a score of about -11 or more), the
    second sigmoid exceeds 0.5 by at least [2^-19], 32 times the spacing of
    32-bit floats at 0.5, so that rounding does not change the comparison:
    every pixel is predicted 1, and the accuracy is the share of ones among
    the non-ignored (whole-number) labels, whatever else the weights and the
    input of the network are. *)
Theorem accuracy_of_probabilities (conv : tensor R -> tensor R)
  (x : tensor R) (threshold : R) (label : tensor Z) (ignore_index : Z) :
  let outputs := squeeze1 (Model.forward conv x false threshold) in
  pixelwise outputs label ->
  Forall (fun p => (/ 65536 <= p)%R) (data outputs) ->
  Forall (fun p => (default_threshold + / 524288 <= sigmoid p)%R)
    (data outputs) /\
  binary_pred default_threshold outputs = tmap (fun _ => 1) outputs /\
  pixel_binary_accuracy outputs label default_threshold ignore_index =
    Ok (scalar
          (match valid_count ignore_index (data label) with
           | O => 0
           | S _ => INR (positive_count ignore_index (data label)) /
                    INR (valid_count ignore_index (data label))
           end)%R).
Proof.
  intros outputs Hpw Hlow.
  assert (Hd : data outputs = map sigmoid (data (conv x))).
  { unfold outputs. now rewrite squeeze1_data. }
  split; [|split].
  - rewrite List.Forall_forall in Hlow. apply List.Forall_forall.
    intros p Hin. specialize (Hlow p Hin).
    rewrite Hd in Hin. apply in_map_iff in Hin as (z & <- & _).
    pose proof (sigmoid_range z) as Hz.
    pose proof (sigmoid_margin (sigmoid z) ltac:(lra)) as Hm.
    unfold default_threshold. lra.
  - unfold binary_pred, tmap. cbn [shape data]. f_equal.
    rewrite Hd, !map_map. apply map_ext. intros z.
    pose proof (hard_prediction_sigmoid z) as H.
    unfold hard_prediction in H. exact H.
  - rewrite pixel_binary_accuracy_value by exact Hpw.
    pose proof (pixelwise_length outputs label Hpw) as Hlen.
    rewrite Hd in *. rewrite length_map in Hlen.
    now rewrite correct_count_probabilities.
Qed.

End MetricsEdges.

Lemma accuracy_in_unit_interval_witness :
  exists acc,
    Metrics.pixel_binary_accuracy
      (Tensor [1; 1; 1; 2]%nat [0; 0]%R) (Tensor [1; 1; 2]%nat [0; 1])
      Metrics.default_threshold Metrics.default_ignore_index =
      Ok (scalar acc) /\
    (0 <= acc <= 1)%R.
Proof.
  apply (accuracy_in_unit_interval
           (Tensor [1; 1; 1; 2]%nat [0; 0]%R) (Tensor [1; 1; 2]%nat [0; 1])).
  split; [reflexivity|]. split; [reflexivity|].
  exists 1%nat, 1%nat, 2%nat. split; [reflexivity|left; reflexivity].
Defined.

Lemma labels_outside_binary_never_correct_witness :
  Metrics.pixel_binary_accuracy
    (Tensor [1; 1; 1; 2]%nat [0; 0]%R) (Tensor [1; 1; 2]%nat [2; 255])
    Metrics.default_threshold Metrics.default_ignore_index = Ok (scalar 0).
Proof.
  apply (labels_outside_binary_never_correct
           (Tensor [1; 1; 1; 2]%nat [0; 0]%R) (Tensor [1; 1; 2]%nat [2; 255])).
  - split; [reflexivity|]. split; [reflexivity|].
    exists 1%nat, 1%nat, 2%nat. split; [reflexivity|left; reflexivity].
  - cbn [data]. apply List.Forall_cons; [right; split; discriminate|].
    apply List.Forall_cons; [left; reflexivity|]. apply List.Forall_nil.
Defined.

(** A head with the identity for its convolution, on the scores 0 and 5,
    against the labels 0 and 1: both pixels are predicted 1. *)
Lemma accuracy_of_probabilities_witness :
  let outputs :=
    squeeze1 (Model.forward (fun t => t)
                (Tensor [1; 1; 1; 2]%nat [0; 5]%R) false 0.5) in
  Forall (fun p => (Metrics.default_threshold + / 524288 <= sigmoid p)%R)
    (data outputs) /\
  Metrics.binary_pred Metrics.default_threshold outputs =
    tmap (fun _ => 1) outputs /\
  Metrics.pixel_binary_accuracy outputs (Tensor [1; 1; 2]%nat [0; 1])
    Metrics.default_threshold 255 =
    Ok (scalar (INR 1 / INR 2)).
Proof.
  apply (accuracy_of_probabilities (fun t => t)
           (Tensor [1; 1; 1; 2]%nat [0; 5]%R) 0.5
           (Tensor [1; 1; 2]%nat [0; 1]) 255).
  - split; [reflexivity|]. split; [reflexivity|].
    exists 1%nat, 1%nat, 2%nat. split; [reflexivity|right; reflexivity].
  - cbn. apply List.Forall_cons; [rewrite sigmoid_0; lra|].
    apply List.Forall_cons; [|apply List.Forall_nil].
    pose proof (sigmoid_of_positive 5 ltac:(lra)). lra.
Defined.

(** ** The loss under its other reductions *)

Section LossEdges.

Import Metrics.

Variable binary_cross_entropy : R -> R -> R.

Lemma nth_error_zip_with {A B C} (f : A -> B -> C) (l : list A) (k : list B)
  (i : nat) (a : A) (b : B) :
  nth_error l i = Some a -> nth_error k i = Some b ->
  nth_error (zip_with f l k) i = Some (f a b).
Proof.
  revert k i. induction l as [|a' l IH]; intros [|b' k] [|i] Ha Hb;
    try discriminate; cbn in *.
  - congruence.
  - now apply IH.
Qed.

(** The masked element-wise loss depends on the scores at the non-ignored
    pixels only. *)
Lemma masked_entries_ext (ignore_index : Z) (xs xs' : list R) (ys : list Z) :
  List.length xs = List.length xs' ->
  (forall i x x' y,
     nth_error xs i = Some x -> nth_error xs' i = Some x' ->
     nth_error ys i = Some y -> y <> ignore_index -> x = x') ->
  zip_with Rmult
    (zip_with binary_cross_entropy (map sigmoid xs) (map IZR ys))
    (map (fun y => if y =? ignore_index then 0%R else 1%R) ys) =
  zip_with Rmult
    (zip_with binary_cross_entropy (map sigmoid xs') (map IZR ys))
    (map (fun y => if y =? ignore_index then 0%R else 1%R) ys).
Proof.
  revert xs' ys.
  induction xs as [|x xs IH]; intros [|x' xs'] ys Hlen Hagree;
    try discriminate; [reflexivity|].
  destruct ys as [|y ys]; [reflexivity|].
  cbn [map zip_with]. f_equal.
  - destruct (Z.eqb_spec y ignore_index) as [_|Hy]; [lra|].
    now rewrite (Hagree 0%nat x x' y eq_refl eq_refl eq_refl Hy).
  - apply IH; [now injection Hlen|].
    intros i a a' b Ha Ha' Hb. apply (Hagree (S i)); assumption.
Qed.



End LossEdges.



(** * Further facts about utils/dataloader.py *)

Section IndexingFacts.

Lemma index_wrap {A} (l : list A) (i : Z) :
  - Z.of_nat (List.length l) <= i < 0 ->
  exists x,
    Py.index l i = Ok x /\
    nth_error l (Z.to_nat (i + Z.of_nat (List.length l))) = Some x.
Proof.
  intros Hi. unfold Py.index.
  destruct (Z.ltb_spec i 0) as [_|?]; [|lia].
  destruct (Z.leb_spec 0 (i + Z.of_nat (List.length l))) as [_|?]; [|lia].
  destruct (Z.ltb_spec (i + Z.of_nat (List.length l))
              (Z.of_nat (List.length l))) as [_|?]; [|lia].
  simpl.
  destruct (nth_error l (Z.to_nat (i + Z.of_nat (List.length l)))) as [x|] eqn:E;
    [eauto|].
  apply nth_error_None in E. lia.
Qed.

Lemma index_beyond {A} (l : list A) (i : Z) :
  Z.of_nat (List.length l) <= i -> Py.index l i = Raise IndexError.
Proof.
  intros Hi. unfold Py.index.
  destruct (Z.ltb_spec i 0) as [?|_]; [lia|].
  destruct (Z.ltb_spec i (Z.of_nat (List.length l))) as [?|_]; [lia|].
  now rewrite andb_false_r.
Qed.

Lemma range_app (a m b : Z) :
  a <= m <= b -> Py.range a b = Py.range a m ++ Py.range m b.
Proof.
  intros Hm. remember (Z.to_nat (m - a)) as n eqn:En. revert a Hm En.
  induction n as [|n IH]; intros a Hm En.
  - assert (a = m) by lia. subst a. now rewrite (range_empty m m) by lia.
  - rewrite (range_cons a b), (range_cons a m) by lia. cbn [app]. f_equal.
    apply IH; lia.
Qed.

Lemma mapM_raise_at {A B} (f : A -> result B) (pre : list A) (x : A)
  (post : list A) (e : exn) :
  (forall y, In y pre -> exists z, f y = Ok z) ->
  f x = Raise e ->
  Py.mapM f (pre ++ x :: post) = Raise e.
Proof.
  intros Hpre Hx. induction pre as [|y pre IH]; cbn [app Py.mapM].
  - now rewrite Hx.
  - destruct (Hpre y (or_introl eq_refl)) as (z & Hz). rewrite Hz.
    cbn [Py.bind]. rewrite IH; [reflexivity|].
    intros y' Hy'. apply Hpre. now right.
Qed.

End IndexingFacts.

Section DatasetEdges.

Import Dataloader.

Variable field : Type.
Variable field_shape : field -> nat * nat.
Variable float32 : field -> field.
Variable timestamp : Type.
Variable timestamp_eqb : timestamp -> timestamp -> bool.

(** ** The outcome of the constructor *)

Lemma validate_variables_cases (user_variables : option (list string))
  (dataset : archive field timestamp) :
  (requested_available user_variables dataset /\
   _validate_variables user_variables dataset =
     Ok (selected_variables user_variables dataset)) \/
  (~ requested_available user_variables dataset /\
   _validate_variables user_variables dataset = Raise ValueError).
Proof.
  unfold _validate_variables, requested_available, selected_variables.
  destruct user_variables as [variables|]; [|now left].
  destruct (forallb _ variables) eqn:E; [left|right]; split; try reflexivity.
  - apply List.Forall_forall. intros var Hvar.
    rewrite forallb_forall in E. specialize (E var Hvar).
    apply existsb_exists in E as (k & Hk & Heq).
    apply String.eqb_eq in Heq. now subst k.
  - intros Hall. rewrite List.Forall_forall in Hall.
    assert (E' : forallb
                   (fun var =>
                      existsb (String.eqb var) (map fst (data_vars dataset)))
                   variables = true); [|congruence].
    apply forallb_forall. intros var Hvar. apply existsb_exists.
    exists var. split; [now apply Hall|apply String.eqb_refl].
Qed.

Lemma index_first_last {A} (l : list A) :
  l <> [] -> exists a b, Py.index l 0 = Ok a /\ Py.index l (-1) = Ok b.
Proof.
  intros Hne.
  assert (Hlen : (0 < List.length l)%nat) by (destruct l; [congruence|cbn; lia]).
  destruct (index_in_range l 0) as (a & Ha & _); [lia|].
  destruct (index_wrap l (-1)) as (b & Hb & _); [lia|].
  eauto.
Qed.

(** X13. The constructor fails with [IndexError] on an archive without time
    steps, and otherwise with [ValueError] exactly when a variable asked for
    by name is missing from its archive; when it returns, the dataset uses the
    variables asked for, or all variables of an archive in the archive's order
    when none is named. *)
Theorem init_outcome (nc_file1 nc_file2 : archive field timestamp)
  (npy_file : list field) (nc1 nc2 : option (list string)) (L : Z)
  (tr : option (ndarray field -> ndarray field)) :
  (valid_time nc_file1 = [] ->
   __init__ nc_file1 nc_file2 npy_file nc1 nc2 L tr = Raise IndexError) /\
  (valid_time nc_file1 <> [] ->
   ~ (requested_available nc1 nc_file1 /\ requested_available nc2 nc_file2) ->
   __init__ nc_file1 nc_file2 npy_file nc1 nc2 L tr = Raise ValueError) /\
  (valid_time nc_file1 <> [] ->
   requested_available nc1 nc_file1 -> requested_available nc2 nc_file2 ->
   __init__ nc_file1 nc_file2 npy_file nc1 nc2 L tr =
   Ok {| sequence_length := L;
         transform := tr;
         ds1 := nc_file1;
         ds2 := nc_file2;
         npy_data := npy_file;
         timestamps := valid_time nc_file1;
         nc1_variables := selected_variables nc1 nc_file1;
         nc2_variables := selected_variables nc2 nc_file2;
         total_time_steps := Z.of_nat (List.length (valid_time nc_file1));
         c1_channels :=
           Z.of_nat (List.length (selected_variables nc1 nc_file1));
         c2_channels :=
           Z.of_nat (List.length (selected_variables nc2 nc_file2)) |}).
Proof.
  unfold __init__, _load_timestamps, _print_time_info. split; [|split].
  - intros ->. reflexivity.
  - intros Hne Hnot.
    destruct (index_first_last (valid_time nc_file1) Hne) as (a & b & Ha & Hb).
    rewrite Ha. cbn [Py.bind].
    destruct (validate_variables_cases nc1 nc_file1) as [[H1 ->]|[_ ->]];
      [|reflexivity].
    cbn [Py.bind].
    destruct (validate_variables_cases nc2 nc_file2) as [[H2 _]|[_ ->]];
      [|reflexivity].
    exfalso. apply Hnot. now split.
  - intros Hne H1 H2.
    destruct (index_first_last (valid_time nc_file1) Hne) as (a & b & Ha & Hb).
    rewrite Ha. cbn [Py.bind].
    destruct (validate_variables_cases nc1 nc_file1) as [[_ ->]|[Hn _]];
      [|contradiction].
    destruct (validate_variables_cases nc2 nc_file2) as [[_ ->]|[Hn _]];
      [|contradiction].
    cbn [Py.bind]. rewrite Ha, Hb. reflexivity.
Qed.

Lemma init_timestamps (nc_file1 nc_file2 : archive field timestamp)
  (npy_file : list field) (nc1 nc2 : option (list string)) (L : Z)
  (tr : option (ndarray field -> ndarray field))
  (self : FireRiskDataset field timestamp) :
  __init__ nc_file1 nc_file2 npy_file nc1 nc2 L tr = Ok self ->
  timestamps self = valid_time nc_file1.
Proof.
  unfold __init__, _load_timestamps.
  destruct (Py.index (valid_time nc_file1) 0); [|discriminate].
  cbn [Py.bind].
  destruct (_validate_variables nc1 nc_file1) as [v1|]; [|discriminate].
  destruct (_validate_variables nc2 nc_file2) as [v2|]; [|discriminate].
  cbn [Py.bind].
  destruct (_print_time_info (valid_time nc_file1)); [|discriminate].
  cbn [Py.bind]. now intros [= <-].
Qed.

(** ** The time stamps of a sample *)

Lemma get_sequence_timestamps_returns
  (nc_file1 nc_file2 : archive field timestamp) (npy_file : list field)
  (nc1 nc2 : option (list string)) (L : Z)
  (tr : option (ndarray field -> ndarray field))
  (self : FireRiskDataset field timestamp) (start_index : Z) :
  __init__ nc_file1 nc_file2 npy_file nc1 nc2 L tr = Ok self ->
  1 <= L ->
  0 <= start_index ->
  start_index < __len__ self ->
  exists info,
    get_sequence_timestamps self start_index = Ok info /\
    nth_error (valid_time nc_file1) (Z.to_nat start_index) =
      Some (sequence_start info) /\
    nth_error (valid_time nc_file1) (Z.to_nat (start_index + L - 1)) =
      Some (sequence_end info) /\
    nth_error (valid_time nc_file1) (Z.to_nat (start_index + L)) =
      Some (label_time info) /\
    Forall2
      (fun i ts => nth_error (valid_time nc_file1) (Z.to_nat i) = Some ts)
      (Py.range start_index (start_index + L)) (sequence_dates info).
Proof.
  intros Hinit HL Hstart.
  pose proof (init_timestamps _ _ _ _ _ _ _ _ Hinit) as Hts.
  destruct (init_inv _ _ _ _ _ _ _ _ _ _ Hinit)
    as (HLs & _ & _ & _ & _ & HT & _ & _).
  unfold __len__, get_sequence_timestamps. rewrite HT, HLs, Hts.
  set (ts := valid_time nc_file1) in *.
  intros Hlt.
  destruct (index_in_range ts start_index) as (a & Ha & Hna); [lia|].
  destruct (index_in_range ts (start_index + L - 1)) as (b & Hb & Hnb); [lia|].
  destruct (index_in_range ts (start_index + L)) as (c & Hc & Hnc); [lia|].
  destruct (mapM_Forall2 (fun i => Py.index ts i)
              (fun i d => nth_error ts (Z.to_nat i) = Some d)
              (Py.range start_index (start_index + L)))
    as (dates & Hdates & Hall).
  { intros i Hi. apply in_range in Hi.
    destruct (index_in_range ts i) as (d & Hd & Hnd); [lia|]. eauto. }
  rewrite Ha, Hb, Hc, Hdates. cbn [Py.bind].
  eexists. split; [reflexivity|]. cbn. auto.
Qed.

(** X14. For a start index from 0 on, [get_sequence_timestamps] returns
    exactly for the indices below [__len__]; it then gives the time stamps of
    the window [start .. start + L - 1] and, as the label time, the time stamp
    right after the window; from [__len__] on it raises [IndexError]. *)
Theorem get_sequence_timestamps_spec
  (nc_file1 nc_file2 : archive field timestamp) (npy_file : list field)
  (nc1 nc2 : option (list string)) (L : Z)
  (tr : option (ndarray field -> ndarray field))
  (self : FireRiskDataset field timestamp) (start_index : Z) :
  __init__ nc_file1 nc_file2 npy_file nc1 nc2 L tr = Ok self ->
  1 <= L ->
  0 <= start_index ->
  (start_index < __len__ self ->
   exists info,
     get_sequence_timestamps self start_index = Ok info /\
     nth_error (valid_time nc_file1) (Z.to_nat start_index) =
       Some (sequence_start info) /\
     nth_error (valid_time nc_file1) (Z.to_nat (start_index + L - 1)) =
       Some (sequence_end info) /\
     nth_error (valid_time nc_file1) (Z.to_nat (start_index + L)) =
       Some (label_time info) /\
     Forall2
       (fun i ts => nth_error (valid_time nc_file1) (Z.to_nat i) = Some ts)
       (Py.range start_index (start_index + L)) (sequence_dates info)) /\
  (__len__ self <= start_index ->
   get_sequence_timestamps self start_index = Raise IndexError).
Proof.
  intros Hinit HL Hstart.
  split; [now apply (get_sequence_timestamps_returns nc_file1 nc_file2
                       npy_file nc1 nc2 L tr)|].
  pose proof (init_timestamps _ _ _ _ _ _ _ _ Hinit) as Hts.
  destruct (init_inv _ _ _ _ _ _ _ _ _ _ Hinit)
    as (HLs & _ & _ & _ & _ & HT & _ & _).
  unfold __len__, get_sequence_timestamps. rewrite HT, HLs, Hts.
  set (ts := valid_time nc_file1) in *.
  - intros Hge.
    destruct (Z.lt_ge_cases start_index (Z.of_nat (List.length ts))) as [H1|H1];
      [|now rewrite (index_beyond ts start_index H1)].
    destruct (index_in_range ts start_index) as (a & Ha & _); [lia|].
    rewrite Ha. cbn [Py.bind].
    destruct (Z.lt_ge_cases (start_index + L - 1) (Z.of_nat (List.length ts)))
      as [H2|H2]; [|now rewrite (index_beyond ts _ H2)].
    destruct (index_in_range ts (start_index + L - 1)) as (b & Hb & _); [lia|].
    rewrite Hb. cbn [Py.bind].
    now rewrite (index_beyond ts (start_index + L)) by lia.
Qed.

(** ** Looking samples up by time stamp *)

Lemma np_where_from_spec (mask : list bool) :
  forall i idx,
    In idx (np_where_from i mask) <->
    exists k, idx = i + Z.of_nat k /\ nth_error mask k = Some true.
Proof.
  induction mask as [|b mask IH]; intros i idx; cbn [np_where_from].
  - split; [intros []|]. intros (k & _ & Hk). destruct k; discriminate.
  - rewrite in_app_iff, IH. split.
    + intros [Hin|(k & -> & Hk)].
      * destruct b; [|destruct Hin]. destruct Hin as [<-|[]].
        exists 0%nat. split; [lia|reflexivity].
      * exists (S k). split; [lia|exact Hk].
    + intros ([|k] & -> & Hk).
      * cbn in Hk. injection Hk as ->. left. left. lia.
      * right. exists k. split; [lia|exact Hk].
Qed.

Lemma np_where_from_NoDup (mask : list bool) :
  forall i, List.NoDup (np_where_from i mask).
Proof.
  induction mask as [|b mask IH]; intros i; cbn [np_where_from].
  - apply List.NoDup_nil.
  - destruct b; cbn [app]; [|apply IH].
    apply List.NoDup_cons; [|apply IH].
    intros Hin. apply np_where_from_spec in Hin as (k & Hk & _). lia.
Qed.

(** X15. [find_samples_by_timestamp] returns, each once, exactly the sample
    indices, from 0 up to [__len__], whose window starts at a time stamp equal
    to the target; [get_sequence_timestamps] accepts each of them and gives a
    matching start of the sequence. *)
Theorem find_samples_by_timestamp_spec
  (nc_file1 nc_file2 : archive field timestamp) (npy_file : list field)
  (nc1 nc2 : option (list string)) (L : Z)
  (tr : option (ndarray field -> ndarray field))
  (self : FireRiskDataset field timestamp) (target_timestamp : timestamp) :
  __init__ nc_file1 nc_file2 npy_file nc1 nc2 L tr = Ok self ->
  1 <= L ->
  List.NoDup (find_samples_by_timestamp timestamp_eqb self target_timestamp) /\
  (forall idx,
     In idx (find_samples_by_timestamp timestamp_eqb self target_timestamp) <->
     0 <= idx < __len__ self /\
     exists ts,
       nth_error (valid_time nc_file1) (Z.to_nat idx) = Some ts /\
       timestamp_eqb ts target_timestamp = true) /\
  (forall idx,
     In idx (find_samples_by_timestamp timestamp_eqb self target_timestamp) ->
     exists info,
       get_sequence_timestamps self idx = Ok info /\
       timestamp_eqb (sequence_start info) target_timestamp = true).
Proof.
  intros Hinit HL.
  pose proof (init_timestamps _ _ _ _ _ _ _ _ Hinit) as Hts.
  destruct (init_inv _ _ _ _ _ _ _ _ _ _ Hinit)
    as (HLs & _ & _ & _ & _ & HT & _ & _).
  assert (Hmem : forall idx,
             In idx (find_samples_by_timestamp timestamp_eqb self
                       target_timestamp) <->
             0 <= idx < __len__ self /\
             exists ts,
               nth_error (valid_time nc_file1) (Z.to_nat idx) = Some ts /\
               timestamp_eqb ts target_timestamp = true).
  { intros idx. unfold find_samples_by_timestamp, __len__.
    rewrite HT, HLs, Hts, filter_In, np_where_from_spec, Z.ltb_lt.
    split.
    - intros [(k & -> & Hk) Hlt]. rewrite nth_error_map in Hk.
      rewrite Z.add_0_l, Nat2Z.id.
      destruct (nth_error (valid_time nc_file1) k) as [ts|] eqn:E;
        [|discriminate].
      cbn in Hk. injection Hk as Hk. split; [lia|]. eauto.
    - intros [Hidx (ts & Hn & Heq)]. split; [|lia].
      exists (Z.to_nat idx). split; [lia|].
      rewrite nth_error_map, Hn. cbn. now rewrite Heq. }
  split; [|split; [exact Hmem|]].
  - unfold find_samples_by_timestamp. apply List.NoDup_filter, np_where_from_NoDup.
  - intros idx Hin. apply Hmem in Hin as [Hidx (ts & Hn & Heq)].
    destruct (get_sequence_timestamps_returns nc_file1 nc_file2 npy_file
                nc1 nc2 L tr self idx Hinit HL ltac:(lia) ltac:(lia))
      as (info & Hrun & Hs & _).
    exists info. split; [exact Hrun|]. congruence.
Qed.

End DatasetEdges.

Section DatasetBounds.

Import Dataloader.

Variable field : Type.
Variable field_shape : field -> nat * nat.
Variable float32 : field -> field.
Variable timestamp : Type.

(** ** Indices from [__len__] on *)

Lemma isel_beyond (dataset : archive field timestamp) (steps : nat)
  (grid : nat * nat) (var_name : string) (t : Z) :
  covers field_shape dataset steps grid ->
  In var_name (map fst (data_vars dataset)) ->
  Z.of_nat steps <= t ->
  isel dataset var_name t = Raise IndexError.
Proof.
  intros Hcov Hin Ht.
  destruct (getitem_var_in _ _ _ Hin) as (series & Hget & Hmem).
  destruct (Hcov _ _ Hmem) as [Hlen _].
  unfold isel. rewrite Hget. cbn [Py.bind].
  apply index_beyond. lia.
Qed.

(** X16. The sample count leaves out the last window that fits: at the index
    [__len__] itself, which a loader never asks for, [__getitem__] still
    returns the window of the last [L] time steps (if the label archive has a
    slice there); from [__len__ + 1] on it raises [IndexError]. *)
Theorem getitem_beyond_len
  (nc_file1 nc_file2 : archive field timestamp) (npy_file : list field)
  (nc1 nc2 : option (list string)) (L : Z)
  (tr : option (ndarray field -> ndarray field))
  (self : FireRiskDataset field timestamp) (grid : nat * nat) :
  __init__ nc_file1 nc_file2 npy_file nc1 nc2 L tr = Ok self ->
  1 <= L ->
  covers field_shape nc_file1 (List.length (valid_time nc_file1)) grid ->
  covers field_shape nc_file2 (List.length (valid_time nc_file1)) grid ->
  nc1_variables self <> [] ->
  nc2_variables self <> [] ->
  (0 <= __len__ self < Z.of_nat (List.length npy_file) ->
   exists land pressure y,
     __getitem__ field_shape float32 self (__len__ self) =
       Ok (apply_transform tr (Arr3 (map float32 (concat land ++ pressure))),
           apply_transform tr (Arr2 (float32 y))) /\
     Forall2 (stack_at nc_file1 (nc1_variables self))
       (Py.range (__len__ self) (Z.of_nat (List.length (valid_time nc_file1))))
       land /\
     stack_at nc_file2 (nc2_variables self)
       (Z.of_nat (List.length (valid_time nc_file1)) - 1) pressure /\
     nth_error npy_file (Z.to_nat (__len__ self)) = Some y) /\
  (forall index,
     0 <= index -> __len__ self < index ->
     __getitem__ field_shape float32 self index = Raise IndexError).
Proof.
  intros Hinit HL1 Hc1 Hc2 Hn1 Hn2.
  destruct (init_inv _ _ _ _ _ _ _ _ _ _ Hinit)
    as (HL & Htr & Hd1 & Hd2 & Hnpy & HT & Hv1 & Hv2).
  pose proof (validate_variables_in _ _ nc1 nc_file1 _ Hv1) as Hin1.
  pose proof (validate_variables_in _ _ nc2 nc_file2 _ Hv2) as Hin2.
  set (T := List.length (valid_time nc_file1)) in *.
  assert (Hlen : __len__ self = Z.of_nat T - L).
  { unfold __len__. now rewrite HT, HL. }
  rewrite Hlen. split.
  - intros Hfit.
    destruct (getitem_ok _ field_shape float32 _ self T grid (Z.of_nat T - L))
      as (land & pressure & y & Hget & Hland & Hpress & Hy);
      rewrite ?Hd1, ?Hd2, ?HL, ?Hnpy; try assumption; try lia.
    rewrite HL, Hd1, Hd2, Htr, Hnpy in *.
    exists land, pressure, y. split; [exact Hget|].
    replace (Z.of_nat T - L + L) with (Z.of_nat T) in * by lia.
    auto.
  - intros index Hidx Hbeyond.
    set (t0 := Z.max index (Z.of_nat T)).
    set (step := fun i : Z =>
                   (time_step_data <-
                      Py.mapM (fun var_name => isel (ds1 self) var_name i)
                        (nc1_variables self) ;;
                    np_stack field_shape time_step_data)%res).
    assert (Hraise : Py.mapM step (Py.range index (index + sequence_length self))
                     = Raise IndexError).
    { rewrite HL, (range_app index t0 (index + L)) by lia.
      rewrite (range_cons t0 (index + L)) by lia.
      apply mapM_raise_at.
      - intros t Ht. apply in_range in Ht. unfold step.
        destruct (stack_step _ field_shape _ (ds1 self) T grid
                    (nc1_variables self) t)
          as (channels & Hrun & _); rewrite ?Hd1; try assumption; [lia|].
        rewrite <- Hd1. eauto.
      - unfold step. destruct (nc1_variables self) as [|v0 rest] eqn:E;
          [congruence|].
        cbn [Py.mapM]. rewrite Hd1.
        rewrite (isel_beyond nc_file1 T grid v0 t0 Hc1);
          [reflexivity|apply Hin1; now left|lia]. }
    unfold __getitem__. fold step. now rewrite Hraise.
Qed.

(** ** No lookup of a variable fails *)

Lemma bind_raises_only {A B} (r : result A) (k : A -> result B) :
  raises_index_or_value r ->
  (forall a, raises_index_or_value (k a)) ->
  raises_index_or_value (Py.bind r k).
Proof.
  intros Hr Hk e. destruct r as [a|e']; cbn [Py.bind].
  - exact (Hk a e).
  - intros [= <-]. exact (Hr e' eq_refl).
Qed.

Lemma mapM_raises_only {A B} (f : A -> result B) (l : list A) :
  (forall x, In x l -> raises_index_or_value (f x)) ->
  raises_index_or_value (Py.mapM f l).
Proof.
  induction l as [|x l IH]; intros Hf; cbn [Py.mapM].
  - intros e. discriminate.
  - apply bind_raises_only; [apply Hf; now left|]. intros y.
    apply bind_raises_only; [apply IH; intros x' Hx'; apply Hf; now right|].
    intros ys e. discriminate.
Qed.

Lemma index_raises_only {A} (l : list A) (i : Z) :
  raises_index_or_value (Py.index l i).
Proof.
  intros e. unfold Py.index.
  destruct (_ && _); [destruct (nth_error l _)|]; intros [= <-]; now left.
Qed.

Lemma isel_raises_only (dataset : archive field timestamp) (var_name : string)
  (i : Z) :
  In var_name (map fst (data_vars dataset)) ->
  raises_index_or_value (isel dataset var_name i).
Proof.
  intros Hin. destruct (getitem_var_in _ _ _ Hin) as (series & Hget & _).
  unfold isel. rewrite Hget. cbn [Py.bind]. apply index_raises_only.
Qed.

Lemma np_stack_raises_only (arrays : list field) :
  raises_index_or_value (np_stack field_shape arrays).
Proof.
  intros e. unfold np_stack. destruct arrays as [|a rest];
    [|destruct (forallb _ rest)]; intros [= <-]; now right.
Qed.

Lemma np_concatenate_raises_only (blocks : list (list field)) :
  raises_index_or_value (np_concatenate field_shape blocks).
Proof.
  intros e. unfold np_concatenate. destruct blocks as [|b rest];
    [|destruct (forallb _ rest)]; intros [= <-]; now right.
Qed.

(** X17. On a dataset the constructor has returned, [__getitem__] never fails
    to find a variable: whatever the index and the contents of the archives,
    the only errors it raises are [IndexError] and [ValueError], never
    [KeyError]. *)
Theorem getitem_raises_only
  (nc_file1 nc_file2 : archive field timestamp) (npy_file : list field)
  (nc1 nc2 : option (list string)) (L : Z)
  (tr : option (ndarray field -> ndarray field))
  (self : FireRiskDataset field timestamp) (index : Z) (e : exn) :
  __init__ nc_file1 nc_file2 npy_file nc1 nc2 L tr = Ok self ->
  __getitem__ field_shape float32 self index = Raise e ->
  e = IndexError \/ e = ValueError.
Proof.
  intros Hinit.
  destruct (init_inv _ _ _ _ _ _ _ _ _ _ Hinit)
    as (_ & _ & Hd1 & Hd2 & _ & _ & Hv1 & Hv2).
  pose proof (validate_variables_in _ _ nc1 nc_file1 _ Hv1) as Hin1.
  pose proof (validate_variables_in _ _ nc2 nc_file2 _ Hv2) as Hin2.
  revert e.
  change (raises_index_or_value (__getitem__ field_shape float32 self index)).
  unfold __getitem__.
  apply bind_raises_only.
  { apply mapM_raises_only. intros i _.
    apply bind_raises_only; [|intros; apply np_stack_raises_only].
    apply mapM_raises_only. intros v Hv. apply isel_raises_only.
    rewrite Hd1. now apply Hin1. }
  intros nc1_sequence. apply bind_raises_only.
  { apply mapM_raises_only. intros v Hv. apply isel_raises_only.
    rewrite Hd2. now apply Hin2. }
  intros nc2_data. apply bind_raises_only; [apply np_stack_raises_only|].
  intros nc2_combined. apply bind_raises_only; [apply index_raises_only|].
  intros label. apply bind_raises_only; [apply np_concatenate_raises_only|].
  intros nc1_combined.
  apply bind_raises_only; [apply np_concatenate_raises_only|].
  intros input_data e. destruct (transform self); discriminate.
Qed.

End DatasetBounds.

(** ** The edge cases on the sample archives *)

(** An archive without time steps, a variable the land archive does not
    have, and the construction of the sample dataset. *)
Lemma init_outcome_witness :
  Dataloader.__init__
    {| Dataloader.valid_time := @nil nat; Dataloader.data_vars := [] |}
    Sample.pressure_levels Sample.label None None 6 None = Raise IndexError /\
  Dataloader.__init__ Sample.land Sample.pressure_levels Sample.label
    (Some ["skt"; "t2m"]) None 6 None = Raise ValueError /\
  Dataloader.__init__ Sample.land Sample.pressure_levels Sample.label
    (Some ["skt"; "sp"]) None 6 None = Ok Sample.dataset.
Proof.
  split; [|split].
  - apply (init_outcome Z nat
             {| Dataloader.valid_time := @nil nat; Dataloader.data_vars := [] |}
             Sample.pressure_levels Sample.label None None 6 None).
    reflexivity.
  - apply (init_outcome Z nat Sample.land Sample.pressure_levels Sample.label
             (Some ["skt"; "t2m"]) None 6 None).
    + discriminate.
    + intros [H _]. cbn in H.
      apply List.Forall_cons_iff in H as [_ H].
      apply List.Forall_cons_iff in H as [H _].
      repeat (destruct H as [H|H]; [discriminate|]). exact H.
  - apply (init_outcome Z nat Sample.land Sample.pressure_levels Sample.label
             (Some ["skt"; "sp"]) None 6 None).
    + discriminate.
    + cbn. apply List.Forall_cons; [right; left; reflexivity|].
      apply List.Forall_cons; [left; reflexivity|apply List.Forall_nil].
    + exact I.
Defined.

(** The one sample of the sample dataset spans the times 0 to 5 and names
    time 6 as its label time; index 1 is refused. *)
Lemma get_sequence_timestamps_spec_witness :
  (exists info,
     Dataloader.get_sequence_timestamps Sample.dataset 0 = Ok info /\
     Dataloader.sequence_start info = 0%nat /\
     Dataloader.sequence_end info = 5%nat /\
     Dataloader.label_time info = 6%nat) /\
  Dataloader.get_sequence_timestamps Sample.dataset 1 = Raise IndexError.
Proof.
  split.
  - destruct (get_sequence_timestamps_spec Z nat
                Sample.land Sample.pressure_levels Sample.label
                (Some ["skt"; "sp"]) None 6 None Sample.dataset 0
                sample_dataset_init) as [Hok _]; [lia|lia|].
    destruct Hok as (info & Hrun & Hs & He & Hl & _);
      [unfold Dataloader.__len__; simpl; lia|].
    exists info.
    change (Some 0%nat = Some (Dataloader.sequence_start info)) in Hs.
    change (Some 5%nat = Some (Dataloader.sequence_end info)) in He.
    change (Some 6%nat = Some (Dataloader.label_time info)) in Hl.
    split; [exact Hrun|]. split; [|split]; congruence.
  - destruct (get_sequence_timestamps_spec Z nat
                Sample.land Sample.pressure_levels Sample.label
                (Some ["skt"; "sp"]) None 6 None Sample.dataset 1
                sample_dataset_init) as [_ Hraise]; [lia|lia|].
    apply Hraise. unfold Dataloader.__len__. simpl. lia.
Defined.

(** Time 0 is found as sample 0; time 3, though present in the archive,
    starts no sample. *)
Lemma find_samples_by_timestamp_spec_witness :
  In 0 (Dataloader.find_samples_by_timestamp Nat.eqb Sample.dataset 0%nat) /\
  ~ In 3 (Dataloader.find_samples_by_timestamp Nat.eqb Sample.dataset 3%nat).
Proof.
  destruct (find_samples_by_timestamp_spec Z nat Nat.eqb
              Sample.land Sample.pressure_levels Sample.label
              (Some ["skt"; "sp"]) None 6 None Sample.dataset 0%nat
              sample_dataset_init) as (_ & Hmem0 & _); [lia|].
  destruct (find_samples_by_timestamp_spec Z nat Nat.eqb
              Sample.land Sample.pressure_levels Sample.label
              (Some ["skt"; "sp"]) None 6 None Sample.dataset 3%nat
              sample_dataset_init) as (_ & Hmem3 & _); [lia|].
  split.
  - apply Hmem0. split; [unfold Dataloader.__len__; simpl; lia|].
    exists 0%nat. split; reflexivity.
  - intros Hin. apply Hmem3 in Hin as [Hidx _].
    unfold Dataloader.__len__ in Hidx. simpl in Hidx. lia.
Defined.

(** Index 1 is [__len__] of the sample dataset: the window of the times 1 to
    6 is returned; index 2 is refused. *)
Lemma getitem_beyond_len_witness :
  (exists land pressure y,
     Dataloader.__getitem__ Sample.grid_shape (fun f => f) Sample.dataset 1 =
       Ok (Dataloader.Arr3 (map (fun f => f) (concat land ++ pressure)),
           Dataloader.Arr2 y) /\
     nth_error Sample.label 1 = Some y) /\
  Dataloader.__getitem__ Sample.grid_shape (fun f => f) Sample.dataset 2 =
    Raise IndexError.
Proof.
  destruct sample_dataset_covers as [Hc1 Hc2].
  destruct (getitem_beyond_len Z Sample.grid_shape (fun f => f) nat
              Sample.land Sample.pressure_levels Sample.label
              (Some ["skt"; "sp"]) None 6 None Sample.dataset (1%nat, 1%nat)
              sample_dataset_init) as [Hat Hbeyond];
    [lia|exact Hc1|exact Hc2|discriminate|discriminate|].
  split.
  - destruct Hat as (land & pressure & y & Hget & _ & _ & Hy);
      [unfold Dataloader.__len__; simpl; lia|].
    exists land, pressure, y. split; [exact Hget|exact Hy].
  - apply Hbeyond; unfold Dataloader.__len__; simpl; lia.
Defined.

(** Index 7 of the sample dataset lies beyond every series. *)
Lemma getitem_raises_only_witness :
  Dataloader.__getitem__ Sample.grid_shape (fun f => f) Sample.dataset 7 =
    Raise IndexError /\
  (IndexError = IndexError \/ IndexError = ValueError).
Proof.
  split; [reflexivity|].
  apply (getitem_raises_only Z Sample.grid_shape (fun f => f) nat
           Sample.land Sample.pressure_levels Sample.label
           (Some ["skt"; "sp"]) None 6 None Sample.dataset 7 IndexError
           sample_dataset_init).
  reflexivity.
Defined.

(** * Further facts about model.py: channel_layer_norm *)

Section NormFacts.

Import Model.

Local Abbreviation rsum := (fold_right Rplus 0%R).

Lemma rsum_affine (m c : R) (l : list R) :
  rsum (map (fun v => ((v - m) * c)%R) l) =
  ((rsum l - INR (List.length l) * m) * c)%R.
Proof.
  induction l as [|v l IH]; [cbn; lra|].
  cbn [map fold_right List.length]. rewrite IH, S_INR. lra.
Qed.

Lemma rsum_scale (f : R -> R) (c : R) (l : list R) :
  rsum (map (fun v => (f v * c)%R) l) = (rsum (map f l) * c)%R.
Proof.
  induction l as [|v l IH]; [cbn; lra|].
  cbn [map fold_right]. rewrite IH. lra.
Qed.

Lemma rsum_squares_nonneg (f : R -> R) (l : list R) :
  (0 <= rsum (map (fun v => f v * f v) l))%R.
Proof.
  induction l as [|v l IH]; [cbn; lra|].
  cbn [map fold_right]. nra.
Qed.

Lemma rsum_shift (k : R) (l : list R) :
  rsum (map (Rplus k) l) = (rsum l + INR (List.length l) * k)%R.
Proof.
  induction l as [|v l IH]; [cbn; lra|].
  cbn [map fold_right List.length]. rewrite IH, S_INR. lra.
Qed.

Lemma plane_var_nonneg (plane : list R) :
  (2 <= List.length plane)%nat -> (0 <= plane_var plane)%R.
Proof.
  intros Hn. unfold plane_var. cbv zeta.
  pose proof (rsum_squares_nonneg (fun v => (v - plane_mean plane)%R) plane)
    as Hs.
  assert (Hd : (1 <= INR (List.length plane) - 1)%R).
  { apply le_INR in Hn. cbn [INR] in Hn. lra. }
  apply Rmult_le_pos; [exact Hs|]. left. apply Rinv_0_lt_compat. lra.
Qed.

Lemma plane_mean_normalized (eps : R) (plane : list R) :
  plane <> [] -> plane_mean (normalize_plane eps plane) = 0%R.
Proof.
  intros Hne.
  assert (Hn : (INR (List.length plane) <> 0)%R).
  { apply not_0_INR. destruct plane; [congruence|discriminate]. }
  unfold normalize_plane. cbv zeta. unfold plane_mean at 1.
  rewrite length_map.
  change (fun v => ((v - plane_mean plane) /
                    sqrt (plane_var plane + eps))%R)
    with (fun v => ((v - plane_mean plane) *
                    / sqrt (plane_var plane + eps))%R).
  rewrite rsum_affine. unfold plane_mean.
  replace (rsum plane - INR (List.length plane) *
           (rsum plane / INR (List.length plane)))%R with 0%R
    by (field; exact Hn).
  unfold Rdiv. ring.
Qed.

Lemma plane_var_normalized (eps : R) (plane : list R) :
  (2 <= List.length plane)%nat -> (0 < eps)%R ->
  plane_var (normalize_plane eps plane) =
  (plane_var plane / (plane_var plane + eps))%R.
Proof.
  intros Hn Heps.
  assert (Hne : plane <> []) by (intros ->; cbn in Hn; lia).
  pose proof (plane_var_nonneg plane Hn) as Hv.
  assert (Hd : (1 <= INR (List.length plane) - 1)%R).
  { apply le_INR in Hn. cbn [INR] in Hn. lra. }
  unfold plane_var at 1. cbv zeta.
  rewrite (plane_mean_normalized eps plane Hne).
  unfold normalize_plane. cbv zeta. rewrite length_map, map_map.
  set (m := plane_mean plane). set (s := sqrt (plane_var plane + eps)).
  assert (Hs : (s * s = plane_var plane + eps)%R).
  { unfold s. apply sqrt_sqrt. lra. }
  assert (Hs0 : (s <> 0)%R) by (intros E; rewrite E in Hs; lra).
  rewrite (map_ext _ (fun v => ((v - m) * (v - m) * (/ s * / s))%R))
    by (intros v; field; exact Hs0).
  rewrite (rsum_scale (fun v => ((v - m) * (v - m))%R)).
  assert (Hsum : rsum (map (fun v => ((v - m) * (v - m))%R) plane) =
                 (plane_var plane * (INR (List.length plane) - 1))%R).
  { unfold plane_var. cbv zeta. fold m. field. lra. }
  rewrite Hsum, <- Hs. field. split; [exact Hs0|lra].
Qed.

(** X18. On every plane of at least two entries, [channel_layer_norm] with a
    positive [eps] gives a plane of the same size whose mean is 0 and whose
    (unbiased) variance is [var / (var + eps)]: below 1, never the unit
    variance, and 0 on a constant plane, where no division by zero occurs and
    every output entry is 0. *)
Theorem channel_layer_norm_standardizes (x : list (list (list R))) (eps : R)
  (b c : nat) (plane : list R) :
  plane_at x b c = Some plane ->
  (2 <= List.length plane)%nat ->
  (0 < eps)%R ->
  exists out,
    plane_at (channel_layer_norm x eps) b c = Some out /\
    List.length out = List.length plane /\
    plane_mean out = 0%R /\
    plane_var out = (plane_var plane / (plane_var plane + eps))%R /\
    (0 <= plane_var out < 1)%R /\
    (forall v0, Forall (fun v => v = v0) plane -> Forall (fun w => w = 0%R) out).
Proof.
  intros Hat Hn Heps. exists (normalize_plane eps plane).
  assert (Hne : plane <> []) by (intros ->; cbn in Hn; lia).
  pose proof (plane_var_nonneg plane Hn) as Hv.
  split; [|split; [|split; [|split; [|split]]]].
  - unfold plane_at, channel_layer_norm in *. rewrite nth_error_map.
    destruct (nth_error x b) as [channels|]; [|discriminate]. cbn.
    now rewrite nth_error_map, Hat.
  - unfold normalize_plane. apply length_map.
  - now apply plane_mean_normalized.
  - now apply plane_var_normalized.
  - rewrite plane_var_normalized by assumption.
    assert (Hpos : (0 < plane_var plane + eps)%R) by lra.
    split.
    + apply Rmult_le_pos; [exact Hv|]. left. now apply Rinv_0_lt_compat.
    + apply Rmult_lt_reg_r with (plane_var plane + eps)%R; [exact Hpos|].
      unfold Rdiv. rewrite Rmult_assoc, Rinv_l by lra. lra.
  - intros v0 Hconst.
    assert (Hm : plane_mean plane = v0).
    { unfold plane_mean.
      assert (Hsum : rsum plane = (INR (List.length plane) * v0)%R).
      { clear -Hconst. induction Hconst as [|v l -> _ IH]; [cbn; lra|].
        cbn [fold_right List.length]. rewrite IH, S_INR. lra. }
      rewrite Hsum. field. apply not_0_INR.
      destruct plane; [congruence|discriminate]. }
    unfold normalize_plane. cbv zeta. rewrite Hm.
    rewrite List.Forall_forall in Hconst. apply List.Forall_forall.
    intros w Hw. apply in_map_iff in Hw as (v & <- & Hin).
    rewrite (Hconst v Hin). unfold Rdiv. ring.
Qed.

Lemma normalize_plane_shift (eps k : R) (plane : list R) :
  normalize_plane eps (map (Rplus k) plane) = normalize_plane eps plane.
Proof.
  destruct plane as [|v0 rest] eqn:E; [reflexivity|]. rewrite <- E.
  assert (Hn : (INR (List.length plane) <> 0)%R).
  { apply not_0_INR. subst plane. discriminate. }
  clear E.
  assert (Hm : plane_mean (map (Rplus k) plane) = (plane_mean plane + k)%R).
  { unfold plane_mean. rewrite length_map, rsum_shift. field. exact Hn. }
  assert (Hv : plane_var (map (Rplus k) plane) = plane_var plane).
  { unfold plane_var. cbv zeta. rewrite Hm, length_map, map_map.
    f_equal. f_equal. apply map_ext. intros v. ring. }
  unfold normalize_plane. cbv zeta. rewrite Hm, Hv, map_map.
  apply map_ext. intros v. f_equal. ring.
Qed.

(** X19. Adding one constant to every entry of the input does not change the
    output of [channel_layer_norm]. *)
Theorem channel_layer_norm_shift_invariant (x : list (list (list R)))
  (eps k : R) :
  channel_layer_norm (map (map (map (Rplus k))) x) eps =
  channel_layer_norm x eps.
Proof.
  unfold channel_layer_norm. rewrite map_map. apply map_ext.
  intros channels. rewrite map_map. apply map_ext.
  intros plane. apply normalize_plane_shift.
Qed.

End NormFacts.

(** One plane with the entries 1, 2 and 3, at the default [eps]. *)
Lemma channel_layer_norm_standardizes_witness :
  exists out,
    Model.plane_at (Model.channel_layer_norm [[[1; 2; 3]]]%R Model.default_eps)
      0 0 = Some out /\
    List.length out = 3%nat /\
    Model.plane_mean out = 0%R /\
    (0 <= Model.plane_var out < 1)%R.
Proof.
  destruct (channel_layer_norm_standardizes [[[1; 2; 3]]]%R Model.default_eps
              0 0 [1; 2; 3]%R eq_refl)
    as (out & Hat & Hlen & Hmean & _ & Hvar & _).
  - cbn. lia.
  - unfold Model.default_eps. lra.
  - exists out. auto.
Defined.

(** * Further facts about utils/dataloader.py: negative indices *)

Section NegativeIndices.

Import Dataloader.

Variable field : Type.
Variable field_shape : field -> nat * nat.
Variable float32 : field -> field.
Variable timestamp : Type.

Lemma isel_wrapped (dataset : archive field timestamp) (steps : nat)
  (grid : nat * nat) (var_name : string) (t : Z) :
  covers field_shape dataset steps grid ->
  In var_name (map fst (data_vars dataset)) ->
  - Z.of_nat steps <= t < Z.of_nat steps ->
  exists f,
    isel dataset var_name t = Ok f /\
    field_at dataset (wrapped steps t) var_name f /\ field_shape f = grid.
Proof.
  intros Hcov Hin Ht. unfold wrapped.
  destruct (Z.ltb_spec t 0) as [Hneg|Hpos];
    [|apply (isel_covered _ field_shape _ dataset steps grid); auto; lia].
  destruct (getitem_var_in _ _ _ Hin) as (series & Hget & Hmem).
  destruct (Hcov _ _ Hmem) as [Hlen Hgrid].
  destruct (index_wrap series t) as (f & Hidx & Hnth); [lia|].
  rewrite Hlen in Hnth.
  exists f. unfold isel. rewrite Hget. cbn [Py.bind].
  split; [exact Hidx|]. split.
  - exists series. repeat split; [exact Hget|lia|exact Hnth].
  - rewrite List.Forall_forall in Hgrid. apply Hgrid.
    eapply nth_error_In. exact Hnth.
Qed.

Lemma stack_step_wrapped (dataset : archive field timestamp) (steps : nat)
  (grid : nat * nat) (variables : list string) (t : Z) :
  covers field_shape dataset steps grid ->
  (forall v, In v variables -> In v (map fst (data_vars dataset))) ->
  variables <> [] ->
  - Z.of_nat steps <= t < Z.of_nat steps ->
  exists channels,
    Py.mapM (fun var_name => isel dataset var_name t) variables = Ok channels /\
    np_stack field_shape channels = Ok channels /\
    stack_at dataset variables (wrapped steps t) channels /\
    channels <> [] /\ Forall (fun f => field_shape f = grid) channels.
Proof.
  intros Hcov Hval Hne Ht.
  destruct (mapM_Forall2 (fun var_name => isel dataset var_name t)
              (fun v f => field_at dataset (wrapped steps t) v f /\
                          field_shape f = grid)
              variables) as (channels & Hmap & Hall).
  { intros v Hv. apply (isel_wrapped dataset steps grid v t Hcov (Hval v Hv) Ht). }
  apply Forall2_split_r in Hall as [Hstack Hgrid].
  assert (Hne' : channels <> []).
  { intros ->. apply Forall2_length in Hstack. destruct variables; [congruence|].
    discriminate. }
  exists channels.
  rewrite (np_stack_ok _ field_shape channels grid Hne' Hgrid). auto.
Qed.

(** X20. A negative index is not refused. For an index in [[-T, 0)] the window
    is read with Python's wrap-around: the time steps [index .. index + L -
    1], the negative ones counted from the end of the archive, so that the
    window of index -1 runs from the last time step on to the first [L - 1]
    ones; the label is the slice the same index selects from the end of the
    label archive. *)
Theorem getitem_negative_index
  (nc_file1 nc_file2 : archive field timestamp) (npy_file : list field)
  (nc1 nc2 : option (list string)) (L : Z)
  (tr : option (ndarray field -> ndarray field))
  (self : FireRiskDataset field timestamp) (grid : nat * nat) (index : Z) :
  __init__ nc_file1 nc_file2 npy_file nc1 nc2 L tr = Ok self ->
  1 <= L <= Z.of_nat (List.length (valid_time nc_file1)) ->
  covers field_shape nc_file1 (List.length (valid_time nc_file1)) grid ->
  covers field_shape nc_file2 (List.length (valid_time nc_file1)) grid ->
  nc1_variables self <> [] ->
  nc2_variables self <> [] ->
  - Z.of_nat (List.length (valid_time nc_file1)) <= index < 0 ->
  - Z.of_nat (List.length npy_file) <= index ->
  exists land pressure y,
    __getitem__ field_shape float32 self index =
      Ok (apply_transform tr (Arr3 (map float32 (concat land ++ pressure))),
          apply_transform tr (Arr2 (float32 y))) /\
    Forall2
      (fun t channels =>
         stack_at nc_file1 (nc1_variables self)
           (wrapped (List.length (valid_time nc_file1)) t) channels)
      (Py.range index (index + L)) land /\
    stack_at nc_file2 (nc2_variables self)
      (wrapped (List.length (valid_time nc_file1)) (index + L - 1)) pressure /\
    nth_error npy_file (Z.to_nat (index + Z.of_nat (List.length npy_file))) =
      Some y.
Proof.
  intros Hinit HL1 Hc1 Hc2 Hn1 Hn2 Hidx Hlab.
  destruct (init_inv _ _ _ _ _ _ _ _ _ _ Hinit)
    as (HL & Htr & Hd1 & Hd2 & Hnpy & HT & Hv1 & Hv2).
  pose proof (validate_variables_in _ _ nc1 nc_file1 _ Hv1) as Hin1.
  pose proof (validate_variables_in _ _ nc2 nc_file2 _ Hv2) as Hin2.
  set (T := List.length (valid_time nc_file1)) in *.
  unfold __getitem__. rewrite HL, Hd1, Hd2, Hnpy, Htr.
  destruct (mapM_Forall2
              (fun i =>
                 (time_step_data <-
                    Py.mapM (fun var_name => isel nc_file1 var_name i)
                      (nc1_variables self) ;;
                  np_stack field_shape time_step_data)%res)
              (fun t channels =>
                 stack_at nc_file1 (nc1_variables self) (wrapped T t) channels /\
                 (channels <> [] /\
                  Forall (fun f => field_shape f = grid) channels))
              (Py.range index (index + L)))
    as (land & Hland & Hall).
  { intros t Ht. apply in_range in Ht.
    destruct (stack_step_wrapped nc_file1 T grid (nc1_variables self) t
                Hc1 Hin1 Hn1)
      as (channels & Hmap & Hstk & Hst & Hne & Hgr); [lia|].
    exists channels. rewrite Hmap. cbn [Py.bind]. auto. }
  apply Forall2_split_r in Hall as [Hstacks Hblocks].
  rewrite Hland. cbn [Py.bind].
  destruct (stack_step_wrapped nc_file2 T grid (nc2_variables self)
              (index + L - 1) Hc2 Hin2 Hn2)
    as (pressure & Hmap & Hstk & Hst & Hne & Hgr); [lia|].
  rewrite Hmap. cbn [Py.bind]. rewrite Hstk. cbn [Py.bind].
  destruct (index_wrap npy_file index) as (y & Hy & Hnth); [lia|].
  rewrite Hy. cbn [Py.bind].
  assert (Hland_ne : land <> []).
  { intros ->. apply Forall2_length in Hstacks. rewrite length_range in Hstacks.
    cbn in Hstacks. lia. }
  rewrite (np_concatenate_ok _ field_shape land grid Hland_ne Hblocks).
  cbn [Py.bind].
  assert (Hconcat : concat land <> [] /\
                    Forall (fun f => field_shape f = grid) (concat land)).
  { split.
    - destruct land as [|b land]; [congruence|].
      apply List.Forall_cons_iff in Hblocks as [[Hb _] _].
      destruct b; [congruence|]. discriminate.
    - apply Forall_concat. eapply List.Forall_impl; [|exact Hblocks].
      intros b [_ Hb]. exact Hb. }
  rewrite (np_concatenate_ok _ field_shape [concat land; pressure] grid);
    [|discriminate|].
  2:{ destruct Hconcat as [Hc_ne Hc_gr].
      apply List.Forall_cons; [split; assumption|].
      apply List.Forall_cons; [split; assumption|apply List.Forall_nil]. }
  cbn [Py.bind concat]. rewrite app_nil_r.
  exists land, pressure, y.
  split; [|auto].
  unfold apply_transform. now destruct tr.
Qed.

End NegativeIndices.

(** Index -1 of the sample dataset: the land variables at the times 6, 0, 1,
    2, 3 and 4, the pressure variable at time 4, and the last label slice. *)
Lemma sample_getitem_last :
  Dataloader.__getitem__ Sample.grid_shape (fun f => f) Sample.dataset (-1) =
  Ok (Dataloader.Arr3 [36; 16; 30; 10; 31; 11; 32; 12; 33; 13; 34; 14; 24],
      Dataloader.Arr2 106).
Proof. reflexivity. Qed.

Lemma getitem_negative_index_witness :
  exists land pressure y,
    Dataloader.__getitem__ Sample.grid_shape (fun f => f) Sample.dataset (-1) =
      Ok (Dataloader.Arr3 (map (fun f => f) (concat land ++ pressure)),
          Dataloader.Arr2 y) /\
    Dataloader.stack_at Sample.pressure_levels ["z_500"]
      (Dataloader.wrapped 7 (-1 + 6 - 1)) pressure /\
    nth_error Sample.label 6 = Some y.
Proof.
  destruct sample_dataset_covers as [Hc1 Hc2].
  destruct (getitem_negative_index Z Sample.grid_shape (fun f => f) nat
              Sample.land Sample.pressure_levels Sample.label
              (Some ["skt"; "sp"]) None 6 None Sample.dataset (1%nat, 1%nat)
              (-1) sample_dataset_init)
    as (land & pressure & y & Hget & _ & Hpress & Hy);
    [cbn; lia|exact Hc1|exact Hc2|discriminate|discriminate|cbn; lia|cbn; lia|].
  exists land, pressure, y. auto.
Defined.
